(** * Sliding-window drift monitoring service: model and verified properties

    A shallow embedding of [src/app.py] (class [MonitoringService], the
    [/iterate] route) and of [src/rebuild/utils.py] (class [Monitor]).
    The third-party collaborators (pandas frames, prometheus gauges, the
    statistical engine) are modelled by the part of their documented
    behaviour that the service relies on. *)

From Stdlib Require Import ZArith List String Lia Sorted.
From Stdlib Require QArith.
From stdpp Require Import base option list list_numbers strings pretty gmap.

Local Open Scope string_scope.
Local Open Scope list_scope.
Local Open Scope Z_scope.

(** ** Python exceptions *)

Inductive exn : Type :=
| KeyError (msg : string)
| ValueError (msg : string)
| EngineError (msg : string).

(** A computation that either returns or raises. *)
Definition raises (A : Type) : Type := exn + A.

(** [range(lo, hi)] *)
Definition range (lo hi : Z) : list Z := seqZ lo (hi - lo).

(** ** pandas frames

    A frame is its column names and its rows, each row carrying its index
    label.  A cell is [None] when it holds NaN. *)

Module pandas.
Section Frames.
Context {Scalar : Type}.

Definition Cell : Type := option Scalar.
Definition Row : Type := list Cell.

Record DataFrame : Type := mkDataFrame {
  columns : list string;
  rows : list (Z * Row)
}.

Definition index (df : DataFrame) : list Z := map fst (rows df).
Definition values (df : DataFrame) : list Row := map snd (rows df).

(** [df.shape[0]] *)
Definition shape0 (df : DataFrame) : Z := Z.of_nat (length (rows df)).

(** Rows labelled 0, 1, 2, ... (a fresh [RangeIndex]). *)
Definition RangeIndex (vs : list Row) : list (Z * Row) :=
  imap (fun i r => (Z.of_nat i, r)) vs.

(** [df.copy()]: frames are values here, a copy is the frame itself. *)
Definition copy (df : DataFrame) : DataFrame := df.

(** [df.reset_index(drop=True)] *)
Definition reset_index (df : DataFrame) : DataFrame :=
  {| columns := columns df; rows := RangeIndex (values df) |}.

(** Column alignment of [append]: the result has the caller's columns
    followed by the columns only the other frame has; a row gets NaN in
    the columns it does not have. *)
Definition union_columns (a b : list string) : list string :=
  a ++ filter (fun c => c ∉ a) b.

Definition cell_of (cols : list string) (r : Row) (c : string) : Cell :=
  match list_find (fun p => fst p = c) (zip cols r) with
  | Some (_, (_, v)) => v
  | None => None
  end.

Definition realign (from to : list string) (r : Row) : Row :=
  map (cell_of from r) to.

(** [df.append(other, ignore_index=True)] *)
Definition append (df other : DataFrame) : DataFrame :=
  let cols := union_columns (columns df) (columns other) in
  {| columns := cols;
     rows := RangeIndex (map (realign (columns df) cols) (values df) ++
                         map (realign (columns other) cols) (values other)) |}.

(** [df.drop(index=labels)]: every label must be in the index, the rows
    carrying one of the labels are removed. *)
Definition drop (df : DataFrame) (labels : list Z) : raises DataFrame :=
  if decide (Forall (fun l => l ∈ index df) labels) then
    inr {| columns := columns df;
           rows := filter (fun p => fst p ∉ labels) (rows df) |}
  else inl (KeyError "labels not found in axis").

(** Python's normalisation of a slice bound against a length [n]:
    a negative bound counts from the end, and the result is clamped to
    [0 .. n]. *)
Definition slice_bound (n : nat) (b : Z) : nat :=
  Z.to_nat (Z.min (Z.of_nat n) (Z.max 0 (if b <? 0 then Z.of_nat n + b else b))).

(** [df.iloc[:stop, :]] *)
Definition iloc_to (df : DataFrame) (stop : Z) : DataFrame :=
  {| columns := columns df;
     rows := firstn (slice_bound (length (rows df)) stop) (rows df) |}.

(** [df.iloc[start:, :]] *)
Definition iloc_from (df : DataFrame) (start : Z) : DataFrame :=
  {| columns := columns df;
     rows := skipn (slice_bound (length (rows df)) start) (rows df) |}.

(** [pandas.DataFrame()] *)
Definition empty : DataFrame := {| columns := []; rows := [] |}.

(** [df.reindex_like(other)]: the other frame's labels and columns; a
    cell is taken from [df] where [df] has that label and column, and is
    NaN elsewhere. *)
Definition reindex_like (df other : DataFrame) : DataFrame :=
  {| columns := columns other;
     rows := map (fun l =>
               (l, match list_find (fun p => fst p = l) (rows df) with
                   | Some (_, (_, r)) => realign (columns df) (columns other) r
                   | None => map (fun _ => None) (columns other)
                   end))
             (index other) |}.

(** [df.dropna()]: the rows with a NaN in some column are removed. *)
Definition dropna (df : DataFrame) : DataFrame :=
  {| columns := columns df;
     rows := filter (fun p => Forall is_Some (snd p)) (rows df) |}.

(** A frame whose rows all have one cell per column. *)
Definition well_formed (df : DataFrame) : Prop :=
  NoDup (columns df) ∧ Forall (fun r => length r = length (columns df)) (values df).

(** A frame whose index is the range index of its rows, as [append] with
    [ignore_index=True] and [reset_index] leave it. *)
Definition range_indexed (df : DataFrame) : Prop :=
  rows df = RangeIndex (values df).

End Frames.
Arguments DataFrame : clear implicits.
Arguments Row : clear implicits.
Arguments Cell : clear implicits.
End pandas.

(** ** prometheus gauges

    Gauges are mutable objects: they live in a heap (the process-wide
    collector registry) and are referred to by their address.  A gauge
    without label names holds one sample; a gauge with label names holds
    one sample per tuple of label values. *)

(** [sorted(...)] on strings: insertion into an ordered list. *)
Fixpoint insert_sorted (x : string) (l : list string) : list string :=
  match l with
  | [] => [x]
  | y :: l' => if String.leb x y then x :: l else y :: insert_sorted x l'
  end.

Definition sorted (l : list string) : list string :=
  foldr insert_sorted [] l.

(** A Python dict from strings to strings, and its keys. *)
Definition dict_keys (d : gmap string string) : list string :=
  fst <$> map_to_list d.

Module prometheus.
Section Gauges.
Context {Value : Type}.
(** Python's [float(n)] for an integer literal. *)
Variable float : Z -> Value.
(** The library's syntax checks of a metric name and of a label name. *)
Variable valid_metric_name : string -> bool.
Variable valid_label_name : string -> bool.

Record Gauge : Type := mkGauge {
  name : string;
  labelnames : list string;
  sample : Value;
  children : gmap (list string) Value
}.

Definition REGISTRY : Type := list Gauge.

(** [Gauge(name, documentation, labelnames)]: the names are checked, then
    the new gauge is registered; a name that is already registered is
    refused. *)
Definition new_Gauge (nm : string) (lnames : list string) (reg : REGISTRY)
  : raises (nat * REGISTRY) :=
  if negb (valid_metric_name nm) then
    inl (ValueError "Invalid metric name")
  else if negb (forallb valid_label_name lnames) then
    inl (ValueError "Invalid label metric name")
  else if decide (nm ∈ name <$> reg) then
    inl (ValueError "Duplicated timeseries in CollectorRegistry")
  else
    inr (length reg,
         reg ++ [{| name := nm; labelnames := lnames;
                    sample := float 0; children := ∅ |}]).

(** [g.set(value)] on the gauge itself. *)
Definition set (g : Gauge) (v : Value) : raises Gauge :=
  match labelnames g with
  | [] => inr {| name := name g; labelnames := []; sample := v;
                 children := children g |}
  | _ :: _ => inl (ValueError "gauge metric is missing label values")
  end.

(** [g.labels] applied to the keyword dict [kw]: the child for these
    label values, created at [float 0] when it is new. *)
Definition labels (g : Gauge) (kw : gmap string string)
  : raises (list string * Gauge) :=
  match labelnames g with
  | [] => inl (ValueError "No label names were set when constructing")
  | _ :: _ =>
    if decide (kw = ∅) then inl (ValueError "Incorrect label count")
    else if decide (sorted (dict_keys kw) = sorted (labelnames g)) then
      let labelvalues := (fun l => default "" (kw !! l)) <$> labelnames g in
      inr (labelvalues,
           match children g !! labelvalues with
           | Some _ => g
           | None => {| name := name g; labelnames := labelnames g;
                        sample := sample g;
                        children := <[labelvalues := float 0]> (children g) |}
           end)
    else inl (ValueError "Incorrect label names")
  end.

(** [child.set(value)] on the child for [labelvalues]. *)
Definition set_child (g : Gauge) (labelvalues : list string) (v : Value) : Gauge :=
  {| name := name g; labelnames := labelnames g; sample := sample g;
     children := <[labelvalues := v]> (children g) |}.

End Gauges.
Arguments Gauge : clear implicits.
Arguments REGISTRY : clear implicits.
End prometheus.

(** ** The statistical engine

    [ModelMonitoring] of the evidently library: constructed from monitor
    classes, [execute] may raise, [metrics] yields (metric name, value,
    optional labels) triples. *)

Inductive Monitor : Type :=
| DataDriftMonitor
| ConceptDriftMonitor
| RegressionPerformanceMonitor.

Definition monitor_mapping : gmap string Monitor :=
  {[ "data_drift" := DataDriftMonitor;
     "concept_drift" := ConceptDriftMonitor;
     "regression_performance" := RegressionPerformanceMonitor ]}.

Class Engine (Scalar Value : Type) : Type := {
  ModelMonitoring : Type;
  ColumnMapping : Type;
  Build_ModelMonitoring : list Monitor -> ModelMonitoring;
  execute : ModelMonitoring -> pandas.DataFrame Scalar -> pandas.DataFrame Scalar ->
            ColumnMapping -> raises ModelMonitoring;
  metrics : ModelMonitoring -> list (string * Value * option (gmap string string));
  (** [float(n)] *)
  float : Z -> Value;
  (** the syntax checks of the exposition library *)
  valid_metric_name : string -> bool;
  valid_label_name : string -> bool;
  (** [hashlib.sha256(pandas.util.hash_pandas_object(df).values).hexdigest()] *)
  fingerprint : pandas.DataFrame Scalar -> string
}.

Record MonitoringServiceOptions : Type := mkOptions {
  reference_path : string;
  min_reference_size : Z;
  use_reference : bool;
  moving_reference : bool;
  window_size : Z;
  calculation_period_sec : Z;
  monitors : list string
}.

(** ** State and exceptions

    A method is a function of the state that returns a value or raises;
    what was written to the state before a raise stays written. *)

Definition M (S A : Type) : Type := S -> raises A * S.

Definition ret {S A} (a : A) : M S A := fun s => (inr a, s).
Definition raise {S A} (e : exn) : M S A := fun s => (inl e, s).
Definition bind {S A B} (m : M S A) (k : A -> M S B) : M S B :=
  fun s => match m s with
           | (inr a, s') => k a s'
           | (inl e, s') => (inl e, s')
           end.
Definition gets {S A} (f : S -> A) : M S A := fun s => (inr (f s), s).
Definition modify {S} (f : S -> S) : M S unit := fun s => (inr tt, f s).
Definition lift {S A} (r : raises A) : M S A := fun s => (r, s).

Notation "x <- m ;; k" := (bind m (fun x => k))
  (at level 100, m at next level, right associativity, only parsing).
Notation "m ;;; k" := (bind m (fun _ => k))
  (at level 100, right associativity, only parsing).

(** [for x in xs: body(x)] *)
Fixpoint for_each {S A} (xs : list A) (body : A -> M S unit) : M S unit :=
  match xs with
  | [] => ret tt
  | x :: xs' => body x ;;; for_each xs' body
  end.

(** Values a flask view returns. *)
Inductive pyval : Type :=
| Str (s : string)
| Tuple (code : Z) (s : string).

Section Service.
Context {Scalar Value : Type} `{E : Engine Scalar Value}.

Local Abbreviation DataFrame := (pandas.DataFrame Scalar).
Local Abbreviation Gauge := (prometheus.Gauge Value).

(** What lies outside the service object: the lines written through
    [app.logger.info], the gauge heap, and the calls made to
    [monitoring.execute] with their arguments. *)
Record World : Type := mkWorld {
  logged : list string;
  registry : list Gauge;
  executed : list (DataFrame * DataFrame * ColumnMapping)
}.

(** The attributes of a [MonitoringService] instance. *)
Record MonitoringService : Type := mkService {
  self_monitoring : ModelMonitoring;
  self_reference : DataFrame;
  self_current : DataFrame;
  self_column_mapping : ColumnMapping;
  self_options : MonitoringServiceOptions;
  self_metrics : gmap string nat;
  self_new_rows : Z;
  self_hash : string;
  self_hash_metric : nat
}.

Definition State : Type := MonitoringService * World.

(** Attribute assignment: the object with one attribute replaced. *)
Definition with_current (s : MonitoringService) (df : DataFrame) : MonitoringService :=
  mkService (self_monitoring s) (self_reference s) df (self_column_mapping s)
            (self_options s) (self_metrics s) (self_new_rows s) (self_hash s)
            (self_hash_metric s).

Definition with_new_rows (s : MonitoringService) (n : Z) : MonitoringService :=
  mkService (self_monitoring s) (self_reference s) (self_current s)
            (self_column_mapping s) (self_options s) (self_metrics s) n
            (self_hash s) (self_hash_metric s).

Definition with_monitoring (s : MonitoringService) (m : ModelMonitoring) : MonitoringService :=
  mkService m (self_reference s) (self_current s) (self_column_mapping s)
            (self_options s) (self_metrics s) (self_new_rows s) (self_hash s)
            (self_hash_metric s).

Definition with_metrics (s : MonitoringService) (d : gmap string nat) : MonitoringService :=
  mkService (self_monitoring s) (self_reference s) (self_current s)
            (self_column_mapping s) (self_options s) d (self_new_rows s)
            (self_hash s) (self_hash_metric s).

Definition set_current (df : DataFrame) : M State unit :=
  modify (fun st => (with_current (fst st) df, snd st)).

Definition set_new_rows (n : Z) : M State unit :=
  modify (fun st => (with_new_rows (fst st) n, snd st)).

Definition set_monitoring (m : ModelMonitoring) : M State unit :=
  modify (fun st => (with_monitoring (fst st) m, snd st)).

Definition set_metrics (d : gmap string nat) : M State unit :=
  modify (fun st => (with_metrics (fst st) d, snd st)).

Definition self {A} (f : MonitoringService -> A) : M State A :=
  gets (fun st => f (fst st)).

(** An action on the world, run from a method of the service. *)
Definition world {A} (m : M World A) : M State A :=
  fun st => (fst (m (snd st)), (fst st, snd (m (snd st)))).

(** [app.logger.info(msg)] *)
Definition logger_info (msg : string) : M World unit :=
  modify (fun w => mkWorld (logged w ++ [msg]) (registry w) (executed w)).

Definition put_registry (reg : list Gauge) : M World unit :=
  modify (fun w => mkWorld (logged w) reg (executed w)).

(** [Gauge(name, "", labelnames)] *)
Definition Gauge_new (nm : string) (lnames : list string) : M World nat :=
  reg <- gets registry ;;
  r <- lift (prometheus.new_Gauge float valid_metric_name valid_label_name
               nm lnames reg) ;;
  put_registry (snd r) ;;;
  ret (fst r).

(** The gauge object behind an address.  Addresses come from
    [Gauge_new] and gauges are never removed, so the lookup does not
    fail in a state the program can reach. *)
Definition deref (a : nat) : M World Gauge :=
  reg <- gets registry ;;
  match reg !! a with
  | Some g => ret g
  | None => raise (KeyError "no gauge at this address")
  end.

Definition store (a : nat) (g : Gauge) : M World unit :=
  reg <- gets registry ;;
  put_registry (<[a := g]> reg).

(** [g.set(v)] for the gauge at address [a]. *)
Definition Gauge_set (a : nat) (v : Value) : M World unit :=
  g <- deref a ;;
  g' <- lift (prometheus.set g v) ;;
  store a g'.

(** [g.labels(kw).set(v)] for the gauge at address [a]. *)
Definition Gauge_labels_set (a : nat) (kw : gmap string string) (v : Value)
  : M World unit :=
  g <- deref a ;;
  r <- lift (prometheus.labels float g kw) ;;
  store a (snd r) ;;;
  store a (prometheus.set_child (snd r) (fst r) v).

(** [self.monitoring.execute(self.reference, self.current, self.column_mapping)]:
    the call is recorded, then the engine object is replaced by the one
    holding the results, unless the engine raises. *)
Definition monitoring_execute : M State unit :=
  fun st =>
    let s := fst st in
    let w := snd st in
    let args := (self_reference s, self_current s, self_column_mapping s) in
    let w' := mkWorld (logged w) (registry w) (executed w ++ [args]) in
    match execute (self_monitoring s) (self_reference s) (self_current s)
                  (self_column_mapping s) with
    | inr m => set_monitoring m (s, w')
    | inl e => (inl e, (s, w'))
    end.
End Service.
Arguments World Scalar Value {E}.
Arguments MonitoringService Scalar Value {E}.
Arguments State Scalar Value {E}.

(** ** The service: [src/app.py] *)

Module service.
Section Methods.
Context {Scalar Value : Type} `{E : Engine Scalar Value}.

Local Abbreviation DataFrame := (pandas.DataFrame Scalar).

(** [[monitor_mapping[k] for k in names]]: a name that is not a key
    raises [KeyError]. *)
Fixpoint monitor_classes (names : list string) : raises (list Monitor) :=
  match names with
  | [] => inr []
  | k :: names' =>
    match monitor_mapping !! k with
    | None => inl (KeyError k)
    | Some c =>
      match monitor_classes names' with
      | inl e => inl e
      | inr cs => inr (c :: cs)
      end
    end
  end.

(** [MonitoringService.__init__], lines 68-82. *)
Definition __init__ (reference : DataFrame) (options : MonitoringServiceOptions)
    (column_mapping : ColumnMapping) : M (World Scalar Value) (MonitoringService Scalar Value) :=
  classes <- lift (monitor_classes (monitors options)) ;;
  let monitoring := Build_ModelMonitoring classes in
  let self_reference :=
    if use_reference options
    then pandas.copy (pandas.iloc_to reference (- window_size options))
    else pandas.copy reference in
  let self_current :=
    if use_reference options
    then pandas.copy (pandas.iloc_from reference (- window_size options))
    else pandas.dropna (pandas.reindex_like pandas.empty reference) in
  let hash := fingerprint self_reference in
  hash_metric <- Gauge_new "evidently:reference_dataset_hash" ["hash"] ;;
  ret (mkService monitoring self_reference self_current column_mapping options
                 ∅ 0 hash hash_metric).

(** The body of the loop of lines 121-130, for one (metric name, value,
    labels) triple yielded by [self.monitoring.metrics()]. *)
Definition publish (m : string * Value * option (gmap string string))
    : M (State Scalar Value) unit :=
  let '(metric_name, value, labels) := m in
  let metric_key := "evidently:" +:+ metric_name in
  found <- self (fun s => self_metrics s !! metric_key) ;;
  found <- match found with
           | Some g => ret g
           | None =>
             g <- world (Gauge_new metric_key
                           match labels with
                           | None => []
                           | Some l => sorted (dict_keys l)
                           end) ;;
             d <- self self_metrics ;;
             set_metrics (<[metric_key := g]> d) ;;;
             ret g
           end ;;
  match labels with
  | None => world (Gauge_set found value)
  | Some l => world (Gauge_labels_set found l value)
  end.

(** Lines 120-130: the hash gauge is set, then every result of the
    engine is published. *)
Definition publish_results : M (State Scalar Value) unit :=
  hash_metric <- self self_hash_metric ;;
  hash <- self self_hash ;;
  world (Gauge_labels_set hash_metric {[ "hash" := hash ]} (float 1)) ;;;
  results <- self (fun s => metrics (self_monitoring s)) ;;
  for_each results publish.

(** [MonitoringService.iterate], lines 93-130. *)
Definition iterate (new_rows : DataFrame) : M (State Scalar Value) unit :=
  let rows_count := pandas.shape0 new_rows in
  cur <- self self_current ;;
  set_current (pandas.append cur new_rows) ;;;
  n <- self self_new_rows ;;
  set_new_rows (n + rows_count) ;;;
  current_size <- self (fun s => pandas.shape0 (self_current s)) ;;
  window_size <- self (fun s => window_size (self_options s)) ;;
  if bool_decide (current_size < window_size) then
    world (logger_info ("Not enough data for measurement: " +:+ pretty current_size
                        +:+ " of " +:+ pretty window_size +:+ "."
                        +:+ " Waiting more data"))
  else
    cur <- self self_current ;;
    cur <- lift (pandas.drop cur (range 0 (current_size - window_size))) ;;
    set_current cur ;;;
    cur <- self self_current ;;
    set_current (pandas.reset_index cur) ;;;
    n <- self self_new_rows ;;
    set_new_rows (n - rows_count) ;;;
    monitoring_execute ;;;
    publish_results.

End Methods.
End service.

(** ** The flask application: the module-level [monitoring_service] and
    the [/iterate] view *)

Section Application.
Context {Scalar Value : Type} `{E : Engine Scalar Value}.
(** The JSON body of a request and [pandas.DataFrame.from_dict]. *)
Context {Item : Type} (from_dict : Item -> raises (pandas.DataFrame Scalar)).

Record App : Type := mkApp {
  monitoring_service : option (MonitoringService Scalar Value);
  app_world : World Scalar Value
}.

(** The view function [iterate] of lines 160-172. *)
Definition iterate (item : Item) : M App pyval :=
  fun app =>
    match monitoring_service app with
    | None => (inr (Tuple 500 "Internal Server Error: service not found"), app)
    | Some svc =>
      match from_dict item with
      | inl e => (inl e, app)
      | inr new_rows =>
        let '(r, (svc', w')) := service.iterate new_rows (svc, app_world app) in
        match r with
        | inl e => (inl e, mkApp (Some svc') w')
        | inr _ => (inr (Str "ok"), mkApp (Some svc') w')
        end
      end
    end.

End Application.
Arguments App Scalar Value {E}.

(** ** The rebuilt monitor: [src/rebuild/utils.py] *)

Module rebuild.
Section Monitor.
Context {Scalar : Type}.
Local Abbreviation DataFrame := (pandas.DataFrame Scalar).

(** The attributes of a [Monitor]; [config_window_size] is
    [self.config['service']['window_size']]. *)
Record Monitor : Type := mkMonitor {
  client_id : string;
  reference_data : DataFrame;
  current_data : DataFrame;
  config_window_size : Z
}.

(** [Monitor.__init__] for a given reference frame, lines 55-71; the
    window size is the one of the configuration file it loads. *)
Definition __init__ (client_id : string) (reference_data : DataFrame)
    (window_size : Z) : Monitor :=
  mkMonitor client_id reference_data
            {| pandas.columns := pandas.columns reference_data; pandas.rows := [] |}
            window_size.

(** The state a method runs in: the object and the lines printed. *)
Definition MState : Type := Monitor * list string.

Definition set_current_data (df : DataFrame) : M MState unit :=
  modify (fun '(m, out) =>
    (mkMonitor (client_id m) (reference_data m) df (config_window_size m), out)).

Definition print (line : string) : M MState unit :=
  modify (fun '(m, out) => (m, out ++ [line])).

(** [Monitor.iterate], lines 80-95. *)
Definition iterate (new_rows : DataFrame) : M MState unit :=
  cur <- gets (fun st => current_data (fst st)) ;;
  set_current_data (pandas.append cur new_rows) ;;;
  current_size <- gets (fun st => pandas.shape0 (current_data (fst st))) ;;
  window_size <- gets (fun st => config_window_size (fst st)) ;;
  if bool_decide (current_size < window_size) then
    print "Not enough data for comparison.  Waiting for more requests..."
  else
    cur <- gets (fun st => current_data (fst st)) ;;
    cur <- lift (pandas.drop cur (range 0 (current_size - window_size))) ;;
    set_current_data cur ;;;
    cur <- gets (fun st => current_data (fst st)) ;;
    set_current_data (pandas.reset_index cur).

End Monitor.
Arguments Monitor : clear implicits.
Arguments MState : clear implicits.
End rebuild.

(** ** Concrete collaborators for the worked examples *)

Module Examples.

(** The classic syntax of the exposition format: a metric name matches
    [[a-zA-Z_:][a-zA-Z0-9_:]*], a label name matches
    [[a-zA-Z_][a-zA-Z0-9_]*] and does not start with two underscores. *)
Definition is_digit (c : Ascii.ascii) : bool :=
  (48 <=? Ascii.N_of_ascii c)%N && (Ascii.N_of_ascii c <=? 57)%N.

Definition is_name_char (colon : bool) (c : Ascii.ascii) : bool :=
  let n := Ascii.N_of_ascii c in
  ((65 <=? n)%N && (n <=? 90)%N) || ((97 <=? n)%N && (n <=? 122)%N) ||
  is_digit c || (n =? 95)%N || (colon && (n =? 58)%N).

Fixpoint all_name_chars (colon : bool) (s : string) : bool :=
  match s with
  | EmptyString => true
  | String c s' => is_name_char colon c && all_name_chars colon s'
  end.

Definition metric_name_ok (s : string) : bool :=
  match s with
  | EmptyString => false
  | String c _ => negb (is_digit c) && all_name_chars true s
  end.

Definition label_name_ok (s : string) : bool :=
  match s with
  | EmptyString => false
  | String c _ =>
    negb (is_digit c) && all_name_chars false s && negb (String.prefix "__" s)
  end.

(** An engine over integer data: it reports the number of rows of the
    current window, unlabelled, and one labelled result. *)
Definition counting_engine : Engine Z Z := {|
  ModelMonitoring := list (string * Z * option (gmap string string));
  ColumnMapping := unit;
  Build_ModelMonitoring := fun _ => [];
  execute := fun _ _ cur _ =>
    inr [("data_drift:n_rows", pandas.shape0 cur, None);
         ("data_drift:p_value", 1, Some {[ "feature" := "x" ]})];
  metrics := fun m => m;
  float := fun z => z;
  valid_metric_name := metric_name_ok;
  valid_label_name := label_name_ok;
  fingerprint := fun df => String.concat "," (pretty <$> pandas.index df)
|}.

(** The same engine, except that [execute] always raises. *)
Definition failing_engine : Engine Z Z := {|
  ModelMonitoring := list (string * Z * option (gmap string string));
  ColumnMapping := unit;
  Build_ModelMonitoring := fun _ => [];
  execute := fun _ _ _ _ => inl (EngineError "degenerate data");
  metrics := fun m => m;
  float := fun z => z;
  valid_metric_name := metric_name_ok;
  valid_label_name := label_name_ok;
  fingerprint := fun df => String.concat "," (pretty <$> pandas.index df)
|}.

(** The one-column frame holding the numbers [from, from+1, ...]. *)
Definition numbered (from n : Z) : pandas.DataFrame Z :=
  {| pandas.columns := ["x"];
     pandas.rows := pandas.RangeIndex ((fun z => [Some z]) <$> seqZ from n) |}.

Definition options (use_ref : bool) (ws : Z) : MonitoringServiceOptions :=
  mkOptions "data/reference.csv" 30 use_ref false ws 10
            ["data_drift"; "concept_drift"; "regression_performance"].

(** A service object in mid-life: the given window, no metric yet, the
    hash gauge at address 0 of the heap. *)
Definition service_with `{E : Engine Z Z} (mon : ModelMonitoring) (cm : ColumnMapping)
    (ws : Z) (cur : pandas.DataFrame Z) (pending : Z) : State Z Z :=
  (mkService mon (numbered 100 5) cur cm (options false ws) ∅ pending "h" 0%nat,
   mkWorld [] [prometheus.mkGauge "evidently:reference_dataset_hash" ["hash"] 0 ∅] []).

(** Ten historical rows, the last three of which seed a window of size
    three: the object and the world that [__init__] leaves behind. *)
Definition history : pandas.DataFrame Z := numbered 0 10.

Definition fresh_service : MonitoringService Z Z (E := counting_engine) :=
  mkService (E := counting_engine) [] (numbered 0 7)
    {| pandas.columns := ["x"];
       pandas.rows := [(7, [Some 7]); (8, [Some 8]); (9, [Some 9])] |}
    tt (options true 3) ∅ 0 "0,1,2,3,4,5,6" 0%nat.

Definition fresh_world : World Z Z (E := counting_engine) :=
  mkWorld (E := counting_engine) []
    [prometheus.mkGauge "evidently:reference_dataset_hash" ["hash"] 0 ∅] [].

Definition empty_world : World Z Z (E := counting_engine) :=
  mkWorld (E := counting_engine) [] [] [].

(** The same history without seeding: what [__init__] returns when
    [use_reference] is off. *)
Definition unseeded_service : MonitoringService Z Z (E := counting_engine) :=
  mkService (E := counting_engine) [] (numbered 0 10)
    {| pandas.columns := ["x"]; pandas.rows := [] |}
    tt (options false 3) ∅ 0 "0,1,2,3,4,5,6,7,8,9" 0%nat.

(** Two rows of a frame that has no column. *)
Definition no_columns : pandas.DataFrame Z :=
  {| pandas.columns := []; pandas.rows := [(0, []); (1, [])] |}.

End Examples.

(** ** Vocabulary of the statements *)

(** The state after a sequence of calls of a method, one per argument; a
    call that raises leaves the state it had reached and the next call
    goes on from there, as a server does between requests. *)
Definition calls {S A : Type} (method : A -> M S unit) (args : list A) (st : S) : S :=
  foldl (fun st a => snd (method a st)) st args.

Section Vocabulary.
Context {Scalar Value : Type} `{E : Engine Scalar Value}.
Local Abbreviation DataFrame := (pandas.DataFrame Scalar).

(** The last [ws] rows of a frame, in their order, freshly indexed. *)
Definition last_rows (ws : Z) (df : DataFrame) : DataFrame :=
  {| pandas.columns := pandas.columns df;
     pandas.rows := pandas.RangeIndex
                      (skipn (Z.to_nat (pandas.shape0 df - ws)) (pandas.values df)) |}.

(** The service object once lines 93-97 have run: the batch is appended
    and counted. *)
Definition after_append (s : MonitoringService Scalar Value) (new_rows : DataFrame)
    : MonitoringService Scalar Value :=
  with_new_rows (with_current s (pandas.append (self_current s) new_rows))
                (self_new_rows s + pandas.shape0 new_rows).

(** The service object once lines 108-112 have run: the window is trimmed
    and the batch is taken off the counter. *)
Definition after_trim (s : MonitoringService Scalar Value) (new_rows : DataFrame)
    : MonitoringService Scalar Value :=
  let a := after_append s new_rows in
  with_new_rows
    (with_current a (last_rows (window_size (self_options s)) (self_current a)))
    (self_new_rows a - pandas.shape0 new_rows).

(** The line of lines 101-102. *)
Definition notice (current_size window_size : Z) : string :=
  "Not enough data for measurement: " +:+ pretty current_size
  +:+ " of " +:+ pretty window_size +:+ "." +:+ " Waiting more data".

(** The world with one more recorded call of the engine. *)
Definition with_call (w : World Scalar Value)
    (s : MonitoringService Scalar Value) : World Scalar Value :=
  mkWorld (logged w) (registry w)
          (executed w ++ [(self_reference s, self_current s, self_column_mapping s)]).

(** The size the window has once the batch is appended. *)
Definition size_after (s : MonitoringService Scalar Value) (new_rows : DataFrame) : Z :=
  pandas.shape0 (self_current s) + pandas.shape0 new_rows.

(** Everything of a state except the metrics dict and the gauge heap. *)
Definition core (st : State Scalar Value) :=
  (self_monitoring (fst st), self_reference (fst st), self_current (fst st),
   self_column_mapping (fst st), self_options (fst st), self_new_rows (fst st),
   self_hash (fst st), self_hash_metric (fst st),
   logged (snd st), executed (snd st)).

(** "Below the window size the call leaves the pending counter
    unchanged." *)
Definition warmup_leaves_counter_unchanged : Prop :=
  forall (s : MonitoringService Scalar Value) (w : World Scalar Value)
         (new_rows : DataFrame),
    size_after s new_rows < window_size (self_options s) ->
    self_new_rows (fst (snd (service.iterate new_rows (s, w)))) = self_new_rows s.

(** "At or above the window size, in every call, the engine is invoked
    exactly once and the window then has exactly [window_size] rows." *)
Definition full_window_always_evaluates : Prop :=
  forall (s : MonitoringService Scalar Value) (w : World Scalar Value)
         (new_rows : DataFrame),
    window_size (self_options s) <= size_after s new_rows ->
    let st' := snd (service.iterate new_rows (s, w)) in
    length (executed (snd st')) = S (length (executed w)) /\
    pandas.shape0 (self_current (fst st')) = window_size (self_options s).

(** The order "engine first, counter second", read on a call whose engine
    raises: the raise leaves the method, a decrement placed after the
    invocation is not reached, and the counter still includes the batch. *)
Definition decrement_follows_engine : Prop :=
  forall (s : MonitoringService Scalar Value) (w : World Scalar Value)
         (new_rows : DataFrame) (e : exn),
    0 <= window_size (self_options s) <= size_after s new_rows ->
    execute (self_monitoring s) (self_reference s)
            (self_current (after_trim s new_rows)) (self_column_mapping s) = inl e ->
    self_new_rows (fst (snd (service.iterate new_rows (s, w)))) =
    self_new_rows s + pandas.shape0 new_rows.

(** "With [use_reference] and more rows than [window_size], the reference
    is the first [n - window_size] rows and the window the rows after
    them." *)
Definition seeding_splits_at_window_size : Prop :=
  forall (reference : DataFrame) (options : MonitoringServiceOptions)
         (cm : ColumnMapping) (w0 w1 : World Scalar Value)
         (s0 : MonitoringService Scalar Value),
    service.__init__ reference options cm w0 = (inr s0, w1) ->
    use_reference options = true ->
    window_size options < pandas.shape0 reference ->
    let k := Z.to_nat (pandas.shape0 reference - window_size options) in
    pandas.rows (self_reference s0) = firstn k (pandas.rows reference) /\
    pandas.rows (self_current s0) = skipn k (pandas.rows reference).

(** What identifies a gauge: its name and its label names; and the
    identities of a heap, in the order of creation. *)
Definition identity (g : prometheus.Gauge Value) : string * list string :=
  (prometheus.name g, prometheus.labelnames g).

Definition identities (reg : list (prometheus.Gauge Value))
    : list (string * list string) :=
  identity <$> reg.

(** The label names line 125 gives a new gauge. *)
Definition label_keys (labels : option (gmap string string)) : list string :=
  match labels with
  | None => []
  | Some l => sorted (dict_keys l)
  end.



(** The label values of a labelled publish, in the order of the gauge's
    label names. *)
Definition label_values (g : prometheus.Gauge Value) (l : gmap string string)
    : list string :=
  (fun k => default "" (l !! k)) <$> prometheus.labelnames g.

(** A gauge after a publish that went through: without labels its one
    sample is overwritten, with labels the sample of that combination of
    label values is. *)
Definition published (g : prometheus.Gauge Value) (value : Value)
    (labels : option (gmap string string)) : prometheus.Gauge Value :=
  match labels with
  | None => prometheus.mkGauge (prometheus.name g) (prometheus.labelnames g) value
                               (prometheus.children g)
  | Some l => prometheus.set_child g (label_values g l) value
  end.

(** The gauge that [Gauge(name, "", labelnames)] creates. *)
Definition fresh_gauge (nm : string) (lnames : list string) : prometheus.Gauge Value :=
  prometheus.mkGauge nm lnames (float 0) ∅.

(** A gauge can be created when its names pass the syntax checks and its
    name is not registered yet. *)
Definition creatable (nm : string) (lnames : list string) (w : World Scalar Value) : Prop :=
  valid_metric_name nm = true /\ forallb valid_label_name lnames = true /\
  nm ∉ prometheus.name <$> registry w.

(** The sink and the registry agree: no two gauges have one name, and a
    gauge named [evidently:...] is the service's hash gauge or the gauge
    of a metric in the dict. *)
Definition sink_ok (st : State Scalar Value) : Prop :=
  NoDup (prometheus.name <$> registry (snd st)) /\
  forall nm : string,
    "evidently:" +:+ nm ∈ prometheus.name <$> registry (snd st) ->
    nm = "reference_dataset_hash" \/
    is_Some (self_metrics (fst st) !! ("evidently:" +:+ nm)).

(** "A batch without rows is a no-op": no evaluation, and the window, the
    counter and the metrics dict as they were. *)
Definition empty_batch_is_noop : Prop :=
  forall (s : MonitoringService Scalar Value) (w : World Scalar Value)
         (new_rows : DataFrame),
    pandas.rows new_rows = [] ->
    let st' := snd (service.iterate new_rows (s, w)) in
    executed (snd st') = executed w /\
    self_current (fst st') = self_current s /\
    self_new_rows (fst st') = self_new_rows s /\
    self_metrics (fst st') = self_metrics s.

(** "Without [use_reference] the window starts with zero rows." *)
Definition unseeded_window_is_empty : Prop :=
  forall (reference : DataFrame) (options : MonitoringServiceOptions)
         (cm : ColumnMapping) (w0 w1 : World Scalar Value)
         (s0 : MonitoringService Scalar Value),
    service.__init__ reference options cm w0 = (inr s0, w1) ->
    use_reference options = false ->
    pandas.rows (self_current s0) = [].

End Vocabulary.

Section RouteVocabulary.
Context {Scalar Value : Type} `{E : Engine Scalar Value}.
Context {Item : Type} (from_dict : Item -> raises (pandas.DataFrame Scalar)).

(** "A failure of the engine is invisible to the caller": whenever the
    engine raises in an evaluating call, the view still returns ["ok"]. *)
Definition engine_failure_invisible : Prop :=
  forall (svc : MonitoringService Scalar Value) (w : World Scalar Value)
         (item : Item) (new_rows : pandas.DataFrame Scalar) (e : exn),
    from_dict item = inr new_rows ->
    0 <= window_size (self_options svc) <= size_after svc new_rows ->
    execute (self_monitoring svc) (self_reference svc)
            (self_current (after_trim svc new_rows)) (self_column_mapping svc) = inl e ->
    fst (iterate from_dict item (mkApp (Some svc) w)) = inr (Str "ok").

End RouteVocabulary.

(** ** The monitor, its construction and its files:
    [src/rebuild/utils.py] *)

Module utils.

Definition DATA_DIR : string := "data/".

(** The exceptions of this file's own making, and those of pandas. *)
Inductive pyexn : Type :=
| IndexError (msg : string)
| AttributeError (msg : string)
| FileNotFoundError (msg : string)
| TypeError (msg : string)
| Raised (e : exn).

Set Warnings "-register-all".

(** A YAML document as [yaml.safe_load] returns it: scalars, lists, and
    dicts with string keys in the order of the file.  A float is the
    rational it stands for (infinities and NaN are left out). *)
Inductive yaml : Type :=
| YNull
| YBool (b : bool)
| YInt (z : Z)
| YFloat (q : QArith_base.Q)
| YStr (s : string)
| YList (items : list yaml)
| YDict (entries : list (string * yaml)).

(** [d[key]] for a string key. *)
Definition getitem (d : yaml) (key : string) : pyexn + yaml :=
  match d with
  | YDict entries =>
    match list_find (fun p => fst p = key) entries with
    | Some (_, (_, v)) => inr v
    | None => inl (Raised (KeyError key))
    end
  | YList _ => inl (TypeError "list indices must be integers or slices, not str")
  | YStr _ => inl (TypeError "string indices must be integers")
  | YNull | YBool _ | YInt _ | YFloat _ => inl (TypeError "object is not subscriptable")
  end.

(** [n < v] for an integer [n]. *)
Definition int_lt (n : Z) (v : yaml) : pyexn + bool :=
  match v with
  | YInt z => inr (bool_decide (n < z))
  | YBool b => inr (bool_decide (n < if b then 1 else 0))
  | YFloat q => inr (negb (QArith_base.Qle_bool q (QArith_base.inject_Z n)))
  | _ => inl (TypeError "'<' not supported between these instances")
  end.

(** The [stop] of [range(0, n - v)] for an integer [n]. *)
Definition range_stop (n : Z) (v : yaml) : pyexn + Z :=
  match v with
  | YInt z => inr (n - z)
  | YBool b => inr (n - if b then 1 else 0)
  | YFloat _ => inl (TypeError "'float' object cannot be interpreted as an integer")
  | _ => inl (TypeError "unsupported operand type(s) for -")
  end.

(** [sub in s] on strings. *)
Fixpoint contains (sub s : string) : bool :=
  String.prefix sub s ||
  match s with
  | EmptyString => false
  | String _ s' => contains sub s'
  end.

Definition newline : string := String (Ascii.ascii_of_nat 10) EmptyString.

Section Files.
Context {Scalar : Type}.
Local Abbreviation DataFrame := (pandas.DataFrame Scalar).

(** The files the class reads: the names of the files directly in
    [DATA_DIR] in the order [os.walk] lists them (none when there is no
    such directory), [pd.read_csv] by path, and the YAML documents that
    can be opened and loaded, by path. *)
Record Files : Type := mkFiles {
  data_files : list string;
  read_csv : string -> pyexn + DataFrame;
  documents : gmap string yaml
}.

(** The attributes of a [Monitor]; [config] is unset when loading the
    configuration failed. *)
Record Monitor : Type := mkMonitor {
  client_id : string;
  reference_data : DataFrame;
  current_data : DataFrame;
  config : option yaml
}.

(** [Monitor.__init__], lines 55-71, with the lines it prints. *)
Definition __init__ (client_id : string) (reference_data : option DataFrame)
    (fs : Files) (out : list string) : (pyexn + Monitor) * list string :=
  let reference :=
    match reference_data with
    | Some df => inr df
    | None =>
      let reference_files := data_files fs in
      match last (List.filter (contains ("reference_" +:+ client_id)) reference_files) with
      | None => inl (IndexError "pop from empty list")
      | Some reference_file => read_csv fs (DATA_DIR +:+ reference_file)
      end
    end in
  match reference with
  | inl e => (inl e, out)
  | inr reference =>
    let current := {| pandas.columns := pandas.columns reference; pandas.rows := [] |} in
    let path := "config/monitoring/monitoring_config_" +:+ client_id +:+ ".yaml" in
    match documents fs !! path with
    | Some d => (inr (mkMonitor client_id reference current (Some d)), out)
    | None =>
      (inr (mkMonitor client_id reference current None),
       out ++ ["Error loading config for client " +:+ client_id
               +:+ ".  Does it exist?  Details:" +:+ newline +:+ " "
               +:+ "[Errno 2] No such file or directory: '" +:+ path +:+ "'"])
    end
  end.

(** [self.config['service']['window_size']] *)
Definition config_window_size (m : Monitor) : pyexn + yaml :=
  match config m with
  | None => inl (AttributeError "'Monitor' object has no attribute 'config'")
  | Some d =>
    match getitem d "service" with
    | inl e => inl e
    | inr service => getitem service "window_size"
    end
  end.

Definition with_current_data (m : Monitor) (df : DataFrame) : Monitor :=
  mkMonitor (client_id m) (reference_data m) df (config m).

(** [Monitor.iterate], lines 80-95, on the object as [__init__] leaves
    it. *)
Definition iterate (new_rows : DataFrame) (st : Monitor * list string)
    : (pyexn + unit) * (Monitor * list string) :=
  let m := with_current_data (fst st) (pandas.append (current_data (fst st)) new_rows) in
  let out := snd st in
  let current_size := pandas.shape0 (current_data m) in
  match config_window_size m with
  | inl e => (inl e, (m, out))
  | inr window_size =>
    match int_lt current_size window_size with
    | inl e => (inl e, (m, out))
    | inr true =>
      (inr tt, (m, out ++ ["Not enough data for comparison.  Waiting for more requests..."]))
    | inr false =>
      match range_stop current_size window_size with
      | inl e => (inl e, (m, out))
      | inr stop =>
        match pandas.drop (current_data m) (range 0 stop) with
        | inl e => (inl (Raised e), (m, out))
        | inr cur => (inr tt, (with_current_data m (pandas.reset_index cur), out))
        end
      end
    end
  end.


End Files.
Arguments Files : clear implicits.
Arguments Monitor : clear implicits.
End utils.

(** ** Vocabulary of the further properties *)

Section MoreVocabulary.
Context {Scalar Value : Type} `{E : Engine Scalar Value}.

(** The number of rows of a sequence of batches. *)
Definition total_rows (batches : list (pandas.DataFrame Scalar)) : Z :=
  foldr Z.add 0 (pandas.shape0 <$> batches).

(** The labels of a publish fit a gauge: none for a gauge without label
    names, and for a gauge with label names a dict whose keys are those
    names. *)
Definition fits (g : prometheus.Gauge Value) (labels : option (gmap string string)) : Prop :=
  match labels with
  | None => prometheus.labelnames g = []
  | Some l => prometheus.labelnames g <> [] /\
              sorted (dict_keys l) = sorted (prometheus.labelnames g)
  end.

(** The world after a write to the gauge at [a]. *)
Definition with_gauge (w : World Scalar Value) (a : nat) (g : prometheus.Gauge Value)
    : World Scalar Value :=
  mkWorld (logged w) (<[a := g]> (registry w)) (executed w).

(** The monitor names [monitor_mapping] knows. *)
Definition known_monitor (k : string) : Prop :=
  k = "data_drift" \/ k = "concept_drift" \/ k = "regression_performance".

(** The metrics dict and the hash attribute refer to live gauges: no two
    gauges have one name, every entry of the dict is the address of the
    gauge registered under the entry's key, [self.hash_metric] is the
    address of the hash gauge, and the name of the hash gauge is not a key
    of the dict. *)
Definition linked (st : State Scalar Value) : Prop :=
  NoDup (identities (registry (snd st))).*1 /\
  (forall key a, self_metrics (fst st) !! key = Some a ->
     exists lnames, identities (registry (snd st)) !! a = Some (key, lnames)) /\
  identities (registry (snd st)) !! self_hash_metric (fst st) =
    Some ("evidently:reference_dataset_hash", ["hash"]) /\
  self_metrics (fst st) !! "evidently:reference_dataset_hash" = None.

(** What a scrape shows for a metric: the sample of a gauge without label
    names, the sample of the child with these label values otherwise. *)
Definition reading (g : prometheus.Gauge Value) (labels : option (gmap string string))
    : option Value :=
  match labels with
  | None => Some (prometheus.sample g)
  | Some l => prometheus.children g !! label_values g l
  end.

(** The gauge [self.metrics] holds for a metric name. *)
Definition gauge_of (st : State Scalar Value) (metric_name : string)
    : option (prometheus.Gauge Value) :=
  match self_metrics (fst st) !! ("evidently:" +:+ metric_name) with
  | Some a => registry (snd st) !! a
  | None => None
  end.

(** The state a metric is readable in: the dict holds a live gauge for
    the name, the labels fit it, and it shows the value. *)
Definition readable (st : State Scalar Value) (metric_name : string)
    (labels : option (gmap string string)) (value : Value) : Prop :=
  exists g, gauge_of st metric_name = Some g /\ fits g labels /\
            reading g labels = Some value.

(** The service object with other options. *)
Definition with_options (s : MonitoringService Scalar Value)
    (o : MonitoringServiceOptions) : MonitoringService Scalar Value :=
  mkService (self_monitoring s) (self_reference s) (self_current s)
            (self_column_mapping s) o (self_metrics s) (self_new_rows s)
            (self_hash s) (self_hash_metric s).

(** The outcome of a method, seen on the object with other options. *)
Definition reoptioned {A : Type} (o : MonitoringServiceOptions)
    (r : raises A * State Scalar Value) : raises A * State Scalar Value :=
  (fst r, (with_options (fst (snd r)) o, snd (snd r))).

(** A file name mentions a text: the text occurs in it, with whatever
    before and after. *)
Definition mentions (text f : string) : Prop :=
  exists before after, f = before +:+ text +:+ after.

End MoreVocabulary.

(** * Properties *)

(** ** Frames *)

Section FrameFacts.
Context {Scalar : Type}.
Local Abbreviation DataFrame := (pandas.DataFrame Scalar).
Local Abbreviation Row := (pandas.Row Scalar).

(** Rows labelled from an offset on; [RangeIndex] is the case of offset 0. *)
Lemma imap_labels_cons (off : Z) (v : Row) (vs : list Row) :
  imap (fun i r => (off + Z.of_nat i, r)) (v :: vs) =
  (off, v) :: imap (fun i r => (off + 1 + Z.of_nat i, r)) vs.
Proof.
  rewrite imap_cons. f_equal.
  - f_equal. lia.
  - apply imap_ext. intros i x _. simpl. f_equal. lia.
Qed.

Lemma RangeIndex_offset (vs : list Row) :
  pandas.RangeIndex vs = imap (fun i r => (0 + Z.of_nat i, r)) vs.
Proof. unfold pandas.RangeIndex. apply imap_ext. intros. f_equal. Qed.

Lemma labels_from (off : Z) (vs : list Row) :
  (imap (fun i r => (off + Z.of_nat i, r)) vs).*1 = seqZ off (Z.of_nat (length vs)).
Proof.
  revert off. induction vs as [|v vs IH]; intros off.
  - reflexivity.
  - rewrite imap_labels_cons. cbn [fmap list_fmap fst length].
    rewrite seqZ_cons by lia. f_equal.
    rewrite IH. f_equal; lia.
Qed.

Lemma values_from (off : Z) (vs : list Row) :
  (imap (fun i r => (off + Z.of_nat i, r)) vs).*2 = vs.
Proof.
  revert off. induction vs as [|v vs IH]; intros off.
  - reflexivity.
  - rewrite imap_labels_cons. cbn [fmap list_fmap snd]. f_equal. apply IH.
Qed.

Lemma RangeIndex_labels (vs : list Row) :
  (pandas.RangeIndex vs).*1 = seqZ 0 (Z.of_nat (length vs)).
Proof. rewrite RangeIndex_offset. apply labels_from. Qed.

Lemma RangeIndex_values (vs : list Row) : (pandas.RangeIndex vs).*2 = vs.
Proof. rewrite RangeIndex_offset. apply values_from. Qed.

Lemma RangeIndex_length (vs : list Row) :
  length (pandas.RangeIndex vs) = length vs.
Proof. apply length_imap. Qed.

(** Removing the labels [0 .. k-1] from rows labelled [off, off+1, ...]
    removes the first [k - off] rows and nothing else. *)
Lemma filter_labels_from (k off : Z) (vs : list Row) :
  0 <= off ->
  filter (fun p : Z * Row => p.1 ∉ seqZ 0 k)
         (imap (fun i r => (off + Z.of_nat i, r)) vs) =
  skipn (Z.to_nat (k - off)) (imap (fun i r => (off + Z.of_nat i, r)) vs).
Proof.
  revert off. induction vs as [|v vs IH]; intros off Hoff.
  - by rewrite skipn_nil.
  - rewrite imap_labels_cons.
    destruct (decide (off < k)) as [Hlt|Hge].
    + rewrite filter_cons_False.
      2:{ simpl. intros Hn. apply Hn. apply elem_of_seqZ. lia. }
      rewrite IH by lia.
      replace (Z.to_nat (k - off)) with (S (Z.to_nat (k - (off + 1)))) by lia.
      reflexivity.
    + rewrite filter_cons_True.
      2:{ simpl. rewrite elem_of_seqZ. lia. }
      rewrite IH by lia.
      replace (Z.to_nat (k - off)) with 0%nat by lia.
      replace (Z.to_nat (k - (off + 1))) with 0%nat by lia.
      reflexivity.
Qed.

Lemma filter_RangeIndex (k : Z) (vs : list Row) :
  filter (fun p : Z * Row => p.1 ∉ seqZ 0 k) (pandas.RangeIndex vs) =
  skipn (Z.to_nat k) (pandas.RangeIndex vs).
Proof.
  rewrite RangeIndex_offset, filter_labels_from by lia.
  do 2 f_equal. lia.
Qed.

Lemma append_range_indexed (df other : DataFrame) :
  pandas.range_indexed (pandas.append df other).
Proof.
  unfold pandas.range_indexed, pandas.values, pandas.append. simpl.
  by rewrite RangeIndex_values.
Qed.

Lemma append_length (df other : DataFrame) :
  length (pandas.rows (pandas.append df other)) =
  (length (pandas.rows df) + length (pandas.rows other))%nat.
Proof.
  unfold pandas.append, pandas.values. simpl.
  by rewrite RangeIndex_length, length_app, !length_map.
Qed.

Lemma append_shape0 (df other : DataFrame) :
  pandas.shape0 (pandas.append df other) = pandas.shape0 df + pandas.shape0 other.
Proof. unfold pandas.shape0. rewrite append_length. lia. Qed.

End FrameFacts.

Section TrimFacts.
Context {Scalar : Type}.
Local Abbreviation DataFrame := (pandas.DataFrame Scalar).

Lemma range_indexed_index (df : DataFrame) :
  pandas.range_indexed df -> pandas.index df = seqZ 0 (pandas.shape0 df).
Proof.
  unfold pandas.range_indexed, pandas.index, pandas.shape0. intros H.
  rewrite H at 1. rewrite RangeIndex_labels.
  unfold pandas.values. by rewrite length_map.
Qed.

(** Dropping the labels [0 .. size - ws - 1] of a range-indexed frame
    removes its first [size - ws] rows. *)
Lemma drop_oldest (df : DataFrame) (ws : Z) :
  pandas.range_indexed df -> 0 <= ws ->
  pandas.drop df (range 0 (pandas.shape0 df - ws)) =
  inr {| pandas.columns := pandas.columns df;
         pandas.rows := skipn (Z.to_nat (pandas.shape0 df - ws)) (pandas.rows df) |}.
Proof.
  intros Hri Hws. unfold pandas.drop, range.
  rewrite Z.sub_0_r. case_decide as Hall.
  - do 2 f_equal. rewrite Hri at 1 2. apply filter_RangeIndex.
  - exfalso. apply Hall. rewrite range_indexed_index by done.
    apply Forall_forall. intros l. rewrite !elem_of_seqZ. lia.
Qed.

(** With a negative window size the labels to drop reach beyond the
    index, and [drop] raises. *)
Lemma drop_beyond (df : DataFrame) (ws : Z) :
  pandas.range_indexed df -> ws < 0 ->
  pandas.drop df (range 0 (pandas.shape0 df - ws)) =
  inl (KeyError "labels not found in axis").
Proof.
  intros Hri Hws. unfold pandas.drop, range.
  rewrite Z.sub_0_r. case_decide as Hall; [|done].
  exfalso. rewrite range_indexed_index in Hall by done.
  rewrite Forall_forall in Hall.
  specialize (Hall (pandas.shape0 df)).
  rewrite !elem_of_seqZ in Hall. unfold pandas.shape0 in *. lia.
Qed.

Lemma reset_index_skipn (cols : list string) (rs : list (Z * pandas.Row Scalar)) (k : nat) :
  pandas.reset_index {| pandas.columns := cols; pandas.rows := skipn k rs |} =
  {| pandas.columns := cols; pandas.rows := pandas.RangeIndex (skipn k rs.*2) |}.
Proof.
  unfold pandas.reset_index, pandas.values. simpl. by rewrite fmap_drop.
Qed.

Lemma last_rows_length (df : DataFrame) (ws : Z) :
  0 <= ws <= pandas.shape0 df ->
  pandas.shape0 (last_rows ws df) = ws.
Proof.
  unfold last_rows, pandas.shape0, pandas.values. simpl. intros H.
  rewrite RangeIndex_length, length_skipn, length_map. lia.
Qed.

Lemma last_rows_values (df : DataFrame) (ws : Z) :
  pandas.values (last_rows ws df) =
  skipn (Z.to_nat (pandas.shape0 df - ws)) (pandas.values df).
Proof. unfold last_rows, pandas.values at 1. simpl. apply RangeIndex_values. Qed.

End TrimFacts.

(** ** The three ways through [MonitoringService.iterate] *)

Section IterateFacts.
Context {Scalar Value : Type} `{E : Engine Scalar Value}.
Local Abbreviation DataFrame := (pandas.DataFrame Scalar).
Local Abbreviation Service := (MonitoringService Scalar Value).
Local Abbreviation World' := (World Scalar Value).

Ltac run_iterate :=
  unfold service.iterate, bind, self, gets, set_current, set_new_rows, modify,
    lift, world, logger_info, ret; cbn [fst snd self_current self_new_rows
    self_options with_current with_new_rows].

(** Below the window size: the notice is logged and nothing else happens
    after the append. *)
Lemma iterate_warmup (s : Service) (w : World') (new_rows : DataFrame) :
  size_after s new_rows < window_size (self_options s) ->
  service.iterate new_rows (s, w) =
  (inr tt, (after_append s new_rows,
            mkWorld (logged w ++ [notice (size_after s new_rows)
                                         (window_size (self_options s))])
                    (registry w) (executed w))).
Proof.
  intros Hlt. run_iterate.
  rewrite append_shape0. fold (size_after s new_rows).
  rewrite bool_decide_eq_true_2 by done. reflexivity.
Qed.

(** At or above a window size that is not negative: the window is trimmed
    and the counter reduced, then the engine runs and the results are
    published. *)
Lemma iterate_trim (s : Service) (w : World') (new_rows : DataFrame) :
  0 <= window_size (self_options s) <= size_after s new_rows ->
  service.iterate new_rows (s, w) =
  bind monitoring_execute (fun _ => service.publish_results)
       (after_trim s new_rows, w).
Proof.
  intros [Hws Hge]. run_iterate.
  rewrite append_shape0. fold (size_after s new_rows).
  rewrite bool_decide_eq_false_2 by lia.
  cbn [fst snd self_current self_new_rows with_current with_new_rows].
  unfold size_after. rewrite <- append_shape0.
  rewrite drop_oldest by (done || apply append_range_indexed).
  rewrite reset_index_skipn.
  reflexivity.
Qed.

(** A negative window size: [drop] raises after the append. *)
Lemma iterate_negative (s : Service) (w : World') (new_rows : DataFrame) :
  window_size (self_options s) < 0 ->
  service.iterate new_rows (s, w) =
  (inl (KeyError "labels not found in axis"), (after_append s new_rows, w)).
Proof.
  intros Hneg. run_iterate.
  rewrite append_shape0. fold (size_after s new_rows).
  assert (0 <= size_after s new_rows)
    by (unfold size_after, pandas.shape0; lia).
  rewrite bool_decide_eq_false_2 by lia.
  cbn [fst snd self_current self_new_rows with_current with_new_rows].
  unfold size_after. rewrite <- append_shape0.
  rewrite drop_beyond by (done || apply append_range_indexed).
  reflexivity.
Qed.

End IterateFacts.

(** ** Publishing touches the metrics dict and the gauge heap only *)

Section PublishFrame.
Context {Scalar Value : Type} `{E : Engine Scalar Value}.
Local Abbreviation State' := (State Scalar Value).

Ltac run_publish :=
  cbv beta iota delta [service.publish service.publish_results bind self gets
    set_metrics modify lift world ret raise Gauge_new Gauge_set Gauge_labels_set
    deref store put_registry].

Lemma publish_core (m : string * Value * option (gmap string string)) (st : State') :
  core (snd (service.publish m st)) = core st.
Proof.
  destruct m as [[metric_name value] labels], st as [s w].
  run_publish. cbn [fst snd].
  repeat (case_match; simplify_eq/=; try reflexivity).
Qed.

Lemma for_each_publish_core (ms : list (string * Value * option (gmap string string)))
    (st : State') :
  core (snd (for_each ms service.publish st)) = core st.
Proof.
  revert st. induction ms as [|m ms IH]; intros st.
  - reflexivity.
  - cbn [for_each]. unfold bind.
    destruct (service.publish m st) as [[e|[]] st'] eqn:Hp.
    + rewrite <- (publish_core m st), Hp. reflexivity.
    + rewrite IH, <- (publish_core m st), Hp. reflexivity.
Qed.

Lemma publish_results_core (st : State') :
  core (snd (service.publish_results st)) = core st.
Proof.
  destruct st as [s w]. unfold service.publish_results.
  unfold bind at 1 2 3 4. unfold self at 1 2 3, gets, world.
  cbn [fst snd].
  destruct (Gauge_labels_set _ _ _ w) as [[e|[]] w'] eqn:Hg; cbn [fst snd].
  - revert Hg. run_publish.
    repeat (case_match; simplify_eq/=; try reflexivity); intros; simplify_eq/=;
      reflexivity.
  - rewrite for_each_publish_core.
    revert Hg. run_publish.
    repeat (case_match; simplify_eq/=; try reflexivity); intros; simplify_eq/=;
      reflexivity.
Qed.

End PublishFrame.

(** ** The evaluation path as a whole *)

Section EvaluationPath.
Context {Scalar Value : Type} `{E : Engine Scalar Value}.
Local Abbreviation DataFrame := (pandas.DataFrame Scalar).
Local Abbreviation Service := (MonitoringService Scalar Value).
Local Abbreviation World' := (World Scalar Value).

(** Whatever the engine and the gauges do, an evaluating call leaves the
    trimmed window, the reduced counter, one more recorded engine call and
    an untouched log. *)
Lemma iterate_eval_core (s : Service) (w : World') (new_rows : DataFrame) :
  0 <= window_size (self_options s) <= size_after s new_rows ->
  let st' := snd (service.iterate new_rows (s, w)) in
  self_current (fst st') = self_current (after_trim s new_rows) /\
  self_new_rows (fst st') = self_new_rows (after_trim s new_rows) /\
  self_reference (fst st') = self_reference s /\
  self_options (fst st') = self_options s /\
  self_column_mapping (fst st') = self_column_mapping s /\
  logged (snd st') = logged w /\
  executed (snd st') = executed (with_call w (after_trim s new_rows)).
Proof.
  intros Hws st'. subst st'. rewrite iterate_trim by done.
  unfold bind, monitoring_execute. cbn [fst snd].
  destruct (execute _ _ _ _) as [e|m]; cbn [fst snd].
  - repeat split; reflexivity.
  - unfold set_monitoring, modify. cbn [fst snd].
    match goal with |- context [service.publish_results ?st] =>
      pose proof (publish_results_core st) as Hc end.
    unfold core in Hc. cbn [fst snd] in Hc. simplify_eq.
    repeat split; assumption || (symmetry; assumption) || congruence.
Qed.

End EvaluationPath.

(** ** Appending a batch that has the window's columns *)

Section SchemaFacts.
Context {Scalar : Type}.
Local Abbreviation DataFrame := (pandas.DataFrame Scalar).
Local Abbreviation Row := (pandas.Row Scalar).

Lemma union_columns_same (c : list string) : pandas.union_columns c c = c.
Proof.
  unfold pandas.union_columns.
  assert (H : forall l, l ⊆ c -> filter (fun x => x ∉ c) l = []).
  { induction l as [|x l IH]; intros Hl; [done|].
    rewrite filter_cons_False.
    - apply IH. intros y Hy. apply Hl. by right.
    - intros Hn. apply Hn, Hl. by left. }
  rewrite H by done. apply app_nil_r.
Qed.

Lemma cell_of_lookup (c : list string) (r : Row) (i : nat) (x : string) (v : pandas.Cell Scalar) :
  NoDup c -> c !! i = Some x -> r !! i = Some v -> pandas.cell_of c r x = v.
Proof.
  intros Hnd Hc Hr. unfold pandas.cell_of.
  assert (Hf : list_find (fun p : string * pandas.Cell Scalar => p.1 = x) (zip c r) = Some (i, (x, v))).
  { apply list_find_Some. split_and!.
    - apply lookup_zip_with_Some. eauto.
    - done.
    - intros j [y u] Hj Hlt. simpl. intros ->.
      apply lookup_zip_with_Some in Hj as (y' & u' & Heq & Hcj & _).
      simplify_eq. 
      pose proof (NoDup_lookup _ _ _ _ Hnd Hcj Hc). lia. }
  by rewrite Hf.
Qed.

Lemma realign_same (c : list string) (r : Row) :
  NoDup c -> length r = length c -> pandas.realign c c r = r.
Proof.
  intros Hnd Hlen. unfold pandas.realign.
  apply list_eq. intros i. rewrite list_lookup_fmap.
  destruct (c !! i) as [x|] eqn:Hc; simpl.
  - destruct (lookup_lt_is_Some_2 r i) as [v Hv].
    { rewrite Hlen. by eapply lookup_lt_Some. }
    rewrite Hv. f_equal. by eapply cell_of_lookup.
  - symmetry. apply lookup_ge_None. rewrite Hlen. by apply lookup_ge_None.
Qed.

Lemma append_values_same_schema (df other : DataFrame) :
  pandas.columns other = pandas.columns df ->
  pandas.well_formed df -> pandas.well_formed other ->
  pandas.columns (pandas.append df other) = pandas.columns df /\
  pandas.values (pandas.append df other) = pandas.values df ++ pandas.values other.
Proof.
  intros Hc [Hnd Hdf] [_ Hot]. unfold pandas.append.
  rewrite Hc in *. rewrite union_columns_same. split; [done|].
  unfold pandas.values at 1. cbn [pandas.rows].
  rewrite RangeIndex_values. f_equal.
  - induction Hdf as [|r rs Hr _ IH]; [done|]. cbn [map]. rewrite IH.
    by rewrite realign_same.
  - induction Hot as [|r rs Hr _ IH]; [done|]. cbn [map]. rewrite IH.
    by rewrite realign_same.
Qed.
End SchemaFacts.

(** * The claims *)

Section Claims.
Context {Scalar Value : Type} `{E : Engine Scalar Value}.
Local Abbreviation DataFrame := (pandas.DataFrame Scalar).
Local Abbreviation Service := (MonitoringService Scalar Value).
Local Abbreviation World' := (World Scalar Value).

(** C1, as the code has it.  For every call [iterate(new_rows)] of a
    service whose window size is not negative.  If the window, once the
    batch is appended, is shorter than [window_size]: the call returns,
    the engine is not invoked, exactly one notice stating the current and
    the required size is logged, and the service object is as the append
    left it: the pending counter is not what it was before the call, it
    has grown by the size of the batch.  Otherwise the engine is invoked
    exactly once, on the window as it is after the call, and the window
    then has exactly [window_size] rows. *)
Theorem C1_gate_decision (s : Service) (w : World') (new_rows : DataFrame) :
  0 <= window_size (self_options s) ->
  let ws := window_size (self_options s) in
  let size := size_after s new_rows in
  let r := service.iterate new_rows (s, w) in
  if bool_decide (size < ws) then
    fst r = inr tt /\
    executed (snd (snd r)) = executed w /\
    logged (snd (snd r)) = logged w ++ [notice size ws] /\
    fst (snd r) = after_append s new_rows /\
    self_new_rows (fst (snd r)) = self_new_rows (after_append s new_rows) /\
    self_new_rows (after_append s new_rows) = self_new_rows s + pandas.shape0 new_rows
  else
    executed (snd (snd r)) =
      executed w ++ [(self_reference s, self_current (fst (snd r)),
                      self_column_mapping s)] /\
    logged (snd (snd r)) = logged w /\
    pandas.shape0 (self_current (fst (snd r))) = ws.
Proof.
  intros Hws ws size r. case_bool_decide as Hlt.
  - subst r. rewrite iterate_warmup by done. cbn [fst snd].
    repeat split; reflexivity.
  - destruct (iterate_eval_core s w new_rows) as (Hc & _ & _ & _ & _ & Hl & Hx).
    { subst ws size. lia. }
    fold r in Hc, Hl, Hx. rewrite Hc, Hl, Hx.
    repeat split.
    unfold after_trim. cbn [self_current with_current with_new_rows].
    apply last_rows_length.
    unfold after_append. cbn [self_current with_current with_new_rows].
    rewrite append_shape0. subst ws size. unfold size_after in Hlt. lia.
Qed.

End Claims.

(** C1 at work: a window of two rows and a batch of two, window size
    three. *)
Lemma C1_gate_decision_witness :
  let s := fst (Examples.service_with (E := Examples.counting_engine) [] tt 3
                  (Examples.numbered 0 2) 0) in
  let w := snd (Examples.service_with (E := Examples.counting_engine) [] tt 3
                  (Examples.numbered 0 2) 0) in
  let r := service.iterate (E := Examples.counting_engine)
             (Examples.numbered 10 2) (s, w) in
  0 <= window_size (self_options s) /\
  executed (snd (snd r)) =
    executed w ++ [(self_reference s, self_current (fst (snd r)),
                    self_column_mapping s)] /\
  logged (snd (snd r)) = logged w /\
  pandas.shape0 (self_current (fst (snd r))) = 3.
Proof.
  intros s w r.
  assert (H0 : 0 <= window_size (self_options s)) by (simpl; lia).
  split; [exact H0|].
  exact (C1_gate_decision (E := Examples.counting_engine) s w
           (Examples.numbered 10 2) H0).
Defined.

(** C1 as claimed fails.  A warm-up call counts its batch: on the
    unseeded service that [__init__] returns (window size three), a batch
    of two rows leaves the counter at two, not at zero.  And "every call at
    or above the window size evaluates" needs a window size that is not
    negative: with window size -1 the call raises at the trim and the
    engine is not invoked. *)
Lemma C1_warmup_call_counts_its_batch :
  ~ warmup_leaves_counter_unchanged (E := Examples.counting_engine) /\
  ~ full_window_always_evaluates (E := Examples.counting_engine).
Proof.
  split; intros Hclaim.
  - assert (Hlt : size_after (E := Examples.counting_engine) Examples.unseeded_service
                    (Examples.numbered 20 2)
                  < window_size (self_options Examples.unseeded_service))
      by (vm_compute; reflexivity).
    pose proof (Hclaim Examples.unseeded_service Examples.fresh_world
                  (Examples.numbered 20 2) Hlt) as H.
    vm_compute in H. discriminate H.
  - assert (Hge : window_size (self_options (fst (Examples.service_with
                      (E := Examples.counting_engine) [] tt (-1) (Examples.numbered 0 2) 0)))
                  <= size_after (fst (Examples.service_with
                      (E := Examples.counting_engine) [] tt (-1) (Examples.numbered 0 2) 0))
                       (Examples.numbered 10 2))
      by (vm_compute; discriminate).
    destruct (Hclaim _ (snd (Examples.service_with
                (E := Examples.counting_engine) [] tt (-1) (Examples.numbered 0 2) 0))
                _ Hge) as [Hx _].
    vm_compute in Hx. discriminate Hx.
Qed.

Section Claim2.
Context {Scalar Value : Type} `{E : Engine Scalar Value}.
Local Abbreviation DataFrame := (pandas.DataFrame Scalar).
Local Abbreviation Service := (MonitoringService Scalar Value).
Local Abbreviation World' := (World Scalar Value).

(** C2.  The trim of an evaluating call (lines 108-110) removes exactly
    [size - window_size] rows of the appended window, all of them from the
    head: the appended rows are the removed head followed by the new
    window, so the survivors are the last [window_size] rows in their
    order, and they are indexed afresh from 0.  When the batch has the
    window's columns, the appended rows are the old rows followed by the
    batch, so an oversized batch loses its own oldest rows. *)
Theorem C2_trim_removes_oldest (s : Service) (w : World') (new_rows : DataFrame) :
  0 <= window_size (self_options s) <= size_after s new_rows ->
  let appended := pandas.values (pandas.append (self_current s) new_rows) in
  let window :=
    pandas.values (self_current (fst (snd (service.iterate new_rows (s, w))))) in
  let removed := Z.to_nat (size_after s new_rows - window_size (self_options s)) in
  appended = firstn removed appended ++ window /\
  length (firstn removed appended) = removed /\
  window = skipn removed appended /\
  pandas.index (self_current (fst (snd (service.iterate new_rows (s, w))))) =
    seqZ 0 (window_size (self_options s)) /\
  (pandas.columns new_rows = pandas.columns (self_current s) ->
   pandas.well_formed (self_current s) -> pandas.well_formed new_rows ->
   appended = pandas.values (self_current s) ++ pandas.values new_rows).
Proof.
  intros Hws appended window removed.
  destruct (iterate_eval_core s w new_rows Hws) as (Hc & _).
  assert (Hlen : length appended = Z.to_nat (size_after s new_rows)).
  { subst appended. unfold pandas.values. rewrite length_map, append_length.
    unfold size_after, pandas.shape0. lia. }
  assert (Hwin : window = skipn removed appended).
  { subst window. rewrite Hc. unfold after_trim.
    cbn [self_current with_current with_new_rows].
    rewrite last_rows_values. unfold after_append.
    cbn [self_current with_current with_new_rows self_options].
    rewrite append_shape0. reflexivity. }
  split_and!.
  - rewrite Hwin. symmetry. apply firstn_skipn.
  - rewrite length_firstn. subst removed. lia.
  - exact Hwin.
  - rewrite Hc. unfold after_trim, last_rows, pandas.index.
    cbn [self_current with_current with_new_rows pandas.rows].
    rewrite RangeIndex_labels. f_equal.
    rewrite length_skipn. unfold after_append.
    cbn [self_current with_current with_new_rows self_options].
    fold appended. rewrite Hlen, append_shape0. fold (size_after s new_rows). lia.
  - intros Hcols Hwf Hwf'. subst appended.
    by apply append_values_same_schema.
Qed.

End Claim2.

(** C2 at work: rows 1, 2, 3 into an empty window of size 2 leave rows
    2, 3; rows 1 .. 45 into an empty window of size 30 leave rows
    16 .. 45. *)
Lemma C2_trim_removes_oldest_witness :
  let st2 := Examples.service_with (E := Examples.counting_engine) [] tt 2
               (Examples.numbered 0 0) 0 in
  let st30 := Examples.service_with (E := Examples.counting_engine) [] tt 30
                (Examples.numbered 0 0) 0 in
  (0 <= window_size (self_options (fst st2))
     <= size_after (fst st2) (Examples.numbered 1 3)) /\
  pandas.values (self_current (fst (snd
    (service.iterate (E := Examples.counting_engine) (Examples.numbered 1 3) st2)))) =
    [[Some 2]; [Some 3]] /\
  (0 <= window_size (self_options (fst st30))
     <= size_after (fst st30) (Examples.numbered 1 45)) /\
  pandas.values (self_current (fst (snd
    (service.iterate (E := Examples.counting_engine) (Examples.numbered 1 45) st30)))) =
    (fun z => [Some z]) <$> seqZ 16 30.
Proof.
  intros st2 st30.
  assert (H2 : 0 <= window_size (self_options (fst st2))
                 <= size_after (fst st2) (Examples.numbered 1 3))
    by (vm_compute; split; discriminate).
  assert (H30 : 0 <= window_size (self_options (fst st30))
                  <= size_after (fst st30) (Examples.numbered 1 45))
    by (vm_compute; split; discriminate).
  split; [exact H2|]. split; [|split; [exact H30|]].
  - destruct (C2_trim_removes_oldest (E := Examples.counting_engine)
                (fst st2) (snd st2) (Examples.numbered 1 3) H2) as (_ & _ & Hw & _).
    etransitivity; [exact Hw|]. vm_compute. reflexivity.
  - destruct (C2_trim_removes_oldest (E := Examples.counting_engine)
                (fst st30) (snd st30) (Examples.numbered 1 45) H30) as (_ & _ & Hw & _).
    etransitivity; [exact Hw|]. vm_compute. reflexivity.
Defined.

(** ** Every call, whatever its path *)

Section EveryCall.
Context {Scalar Value : Type} `{E : Engine Scalar Value}.
Local Abbreviation DataFrame := (pandas.DataFrame Scalar).
Local Abbreviation Service := (MonitoringService Scalar Value).
Local Abbreviation World' := (World Scalar Value).

Lemma size_after_nonneg (s : Service) (new_rows : DataFrame) :
  0 <= size_after s new_rows.
Proof. unfold size_after, pandas.shape0. lia. Qed.

(** The three paths are all there is. *)
Lemma iterate_paths (s : Service) (new_rows : DataFrame) :
  size_after s new_rows < window_size (self_options s) \/
  0 <= window_size (self_options s) <= size_after s new_rows \/
  window_size (self_options s) < 0.
Proof. pose proof (size_after_nonneg s new_rows). lia. Qed.

Lemma iterate_options (st : State Scalar Value) (new_rows : DataFrame) :
  self_options (fst (snd (service.iterate new_rows st))) = self_options (fst st).
Proof.
  destruct st as [s w]. cbn [fst].
  destruct (iterate_paths s new_rows) as [H|[H|H]].
  - by rewrite iterate_warmup.
  - by destruct (iterate_eval_core s w new_rows H) as (_ & _ & _ & Ho & _).
  - by rewrite iterate_negative.
Qed.

Lemma iterate_reference (st : State Scalar Value) (new_rows : DataFrame) :
  self_reference (fst (snd (service.iterate new_rows st))) = self_reference (fst st).
Proof.
  destruct st as [s w]. cbn [fst].
  destruct (iterate_paths s new_rows) as [H|[H|H]].
  - by rewrite iterate_warmup.
  - by destruct (iterate_eval_core s w new_rows H) as (_ & _ & Hr & _).
  - by rewrite iterate_negative.
Qed.

Lemma calls_snoc {S A : Type} (method : A -> M S unit) (args : list A) (a : A) (st : S) :
  calls method (args ++ [a]) st = snd (method a (calls method args st)).
Proof. unfold calls. by rewrite foldl_app. Qed.

Lemma calls_options (st : State Scalar Value) (batches : list DataFrame) :
  self_options (fst (calls service.iterate batches st)) = self_options (fst st).
Proof.
  induction batches as [|b bs IH] using rev_ind; [done|].
  by rewrite calls_snoc, iterate_options.
Qed.

Lemma calls_reference (st : State Scalar Value) (batches : list DataFrame) :
  self_reference (fst (calls service.iterate batches st)) = self_reference (fst st).
Proof.
  induction batches as [|b bs IH] using rev_ind; [done|].
  by rewrite calls_snoc, iterate_reference.
Qed.

(** After a call the window is never longer than a window size that is
    not negative. *)
Lemma iterate_size_le (st : State Scalar Value) (new_rows : DataFrame) :
  0 <= window_size (self_options (fst st)) ->
  pandas.shape0 (self_current (fst (snd (service.iterate new_rows st)))) <=
  window_size (self_options (fst st)).
Proof.
  destruct st as [s w]. cbn [fst]. intros Hws.
  destruct (iterate_paths s new_rows) as [H|[H|H]]; [| |lia].
  - rewrite iterate_warmup by done. cbn [fst snd]. unfold after_append.
    cbn [self_current with_current with_new_rows].
    rewrite append_shape0. fold (size_after s new_rows). lia.
  - destruct (iterate_eval_core s w new_rows H) as (Hc & _). rewrite Hc.
    unfold after_trim. cbn [self_current with_current with_new_rows].
    rewrite last_rows_length; [lia|].
    unfold after_append. cbn [self_current with_current with_new_rows].
    by rewrite append_shape0.
Qed.

(** What [__init__] returns carries the options it was given. *)
Lemma init_options (reference : DataFrame) (options : MonitoringServiceOptions)
    (cm : ColumnMapping) (w0 w1 : World') (s0 : Service) :
  service.__init__ reference options cm w0 = (inr s0, w1) ->
  self_options s0 = options /\ self_new_rows s0 = 0 /\ self_metrics s0 = ∅ /\
  self_column_mapping s0 = cm /\
  self_hash s0 = fingerprint (self_reference s0) /\
  logged w1 = logged w0 /\ executed w1 = executed w0.
Proof.
  cbv beta iota delta [service.__init__ bind lift Gauge_new gets put_registry
    modify ret].
  intros H. repeat (case_match; simplify_eq/=); split_and!; reflexivity.
Qed.

End EveryCall.

Section RebuildFacts.
Context {Scalar : Type}.
Local Abbreviation DataFrame := (pandas.DataFrame Scalar).

Lemma rebuild_iterate_window_size (st : rebuild.MState Scalar) (new_rows : DataFrame) :
  rebuild.config_window_size (fst (snd (rebuild.iterate new_rows st))) =
  rebuild.config_window_size (fst st).
Proof.
  destruct st as [m out].
  cbv beta iota delta [rebuild.iterate bind gets rebuild.set_current_data
    rebuild.print modify lift ret]. cbn [fst snd].
  repeat (case_match; simplify_eq/=; try reflexivity).
Qed.

Lemma rebuild_iterate_size_le (st : rebuild.MState Scalar) (new_rows : DataFrame) :
  0 <= rebuild.config_window_size (fst st) ->
  pandas.shape0 (rebuild.current_data (fst (snd (rebuild.iterate new_rows st)))) <=
  rebuild.config_window_size (fst st).
Proof.
  destruct st as [m out]. cbn [fst]. intros Hws.
  cbv beta iota delta [rebuild.iterate bind gets rebuild.set_current_data
    rebuild.print modify lift ret].
  cbn [fst snd rebuild.current_data rebuild.config_window_size].
  case_bool_decide as Hlt.
  - cbn [fst snd rebuild.current_data]. lia.
  - rewrite drop_oldest by (done || apply append_range_indexed).
    cbn [fst snd rebuild.current_data]. rewrite reset_index_skipn.
    unfold pandas.shape0 in *. cbn [pandas.rows].
    rewrite RangeIndex_length, length_skipn, length_map. lia.
Qed.

Lemma rebuild_calls_window_size (st : rebuild.MState Scalar) (batches : list DataFrame) :
  rebuild.config_window_size (fst (calls rebuild.iterate batches st)) =
  rebuild.config_window_size (fst st).
Proof.
  induction batches as [|b bs IH] using rev_ind; [done|].
  by rewrite calls_snoc, rebuild_iterate_window_size.
Qed.

End RebuildFacts.

Section Claim3.
Context {Scalar Value : Type} `{E : Engine Scalar Value}.
Local Abbreviation DataFrame := (pandas.DataFrame Scalar).
Local Abbreviation Service := (MonitoringService Scalar Value).
Local Abbreviation World' := (World Scalar Value).

(** C3.  Start from the service that [__init__] returns, for a window size
    that is not negative, make any sequence of [iterate] calls with
    batches of any sizes, then one more call: when that call ends the
    window has at most [window_size] rows, and exactly [window_size] rows
    whenever the call trimmed.  The same bound holds for the rebuilt
    [Monitor] after every call of its [iterate]. *)
Theorem C3_window_bounded (reference : DataFrame) (options : MonitoringServiceOptions)
    (cm : ColumnMapping) (w0 w1 : World') (s0 : Service)
    (batches : list DataFrame) (new_rows : DataFrame)
    (client_id : string) (out : list string) :
  service.__init__ reference options cm w0 = (inr s0, w1) ->
  0 <= window_size options ->
  let st := calls service.iterate batches (s0, w1) in
  let st' := snd (service.iterate new_rows st) in
  let mst := calls rebuild.iterate batches
               (rebuild.__init__ client_id reference (window_size options), out) in
  let mst' := snd (rebuild.iterate new_rows mst) in
  pandas.shape0 (self_current (fst st')) <= window_size options /\
  (window_size options <= size_after (fst st) new_rows ->
   pandas.shape0 (self_current (fst st')) = window_size options) /\
  pandas.shape0 (rebuild.current_data (fst mst')) <= window_size options.
Proof.
  intros Hinit Hws st st' mst mst'.
  apply init_options in Hinit as (Hopt & _).
  assert (Hst : self_options (fst st) = options).
  { subst st. by rewrite calls_options. }
  split_and!.
  - subst st'. pose proof (iterate_size_le st new_rows) as Hle.
    rewrite Hst in Hle. by apply Hle.
  - intros Hge. subst st'. destruct st as [s w]. cbn [fst] in *.
    destruct (iterate_eval_core s w new_rows) as (Hc & _).
    { rewrite Hst. lia. }
    rewrite Hc. unfold after_trim. cbn [self_current with_current with_new_rows].
    rewrite Hst. apply last_rows_length.
    unfold after_append. cbn [self_current with_current with_new_rows].
    rewrite append_shape0. fold (size_after s new_rows). lia.
  - assert (Hm : rebuild.config_window_size (fst mst) = window_size options).
    { subst mst. by rewrite rebuild_calls_window_size. }
    subst mst'. pose proof (rebuild_iterate_size_le mst new_rows) as Hle.
    rewrite Hm in Hle. by apply Hle.
Qed.

End Claim3.

(** C3 at work: the seeded service of the examples, batches of 1, 5 and 0
    rows, then a batch of 45. *)
Lemma C3_window_bounded_witness :
  let batches := [Examples.numbered 20 1; Examples.numbered 30 5;
                  Examples.numbered 40 0] in
  let st := calls (service.iterate (E := Examples.counting_engine)) batches
              (Examples.fresh_service, Examples.fresh_world) in
  let st' := snd (service.iterate (E := Examples.counting_engine)
                    (Examples.numbered 50 45) st) in
  service.__init__ (E := Examples.counting_engine) Examples.history
    (Examples.options true 3) tt Examples.empty_world =
    (inr Examples.fresh_service, Examples.fresh_world) /\
  0 <= window_size (Examples.options true 3) /\
  pandas.shape0 (self_current (fst st')) <= 3.
Proof.
  intros batches st st'.
  assert (Hinit : service.__init__ (E := Examples.counting_engine) Examples.history
            (Examples.options true 3) tt Examples.empty_world =
            (inr Examples.fresh_service, Examples.fresh_world))
    by (vm_compute; reflexivity).
  assert (Hws : 0 <= window_size (Examples.options true 3)) by (simpl; lia).
  split; [exact Hinit|]. split; [exact Hws|].
  exact (proj1 (C3_window_bounded (E := Examples.counting_engine) Examples.history
                  (Examples.options true 3) tt Examples.empty_world Examples.fresh_world
                  Examples.fresh_service batches (Examples.numbered 50 45)
                  "1" [] Hinit Hws)).
Defined.

Section RaisingEngine.
Context {Scalar Value : Type} `{E : Engine Scalar Value}.
Local Abbreviation DataFrame := (pandas.DataFrame Scalar).
Local Abbreviation Service := (MonitoringService Scalar Value).
Local Abbreviation World' := (World Scalar Value).

(** A raising engine ends the call where it is. *)
Lemma iterate_engine_raises (s : Service) (w : World') (new_rows : DataFrame) (e : exn) :
  0 <= window_size (self_options s) <= size_after s new_rows ->
  execute (self_monitoring s) (self_reference s)
          (self_current (after_trim s new_rows)) (self_column_mapping s) = inl e ->
  service.iterate new_rows (s, w) =
  (inl e, (after_trim s new_rows, with_call w (after_trim s new_rows))).
Proof.
  intros Hws He. rewrite iterate_trim by done.
  unfold bind, monitoring_execute. cbn [fst snd].
  change (self_monitoring (after_trim s new_rows)) with (self_monitoring s).
  change (self_reference (after_trim s new_rows)) with (self_reference s).
  change (self_column_mapping (after_trim s new_rows)) with (self_column_mapping s).
  rewrite He. reflexivity.
Qed.

End RaisingEngine.

Section Claim4.
Context {Scalar Value : Type} `{E : Engine Scalar Value}.
Local Abbreviation DataFrame := (pandas.DataFrame Scalar).
Local Abbreviation Service := (MonitoringService Scalar Value).
Local Abbreviation World' := (World Scalar Value).

(** C4, as the code has it.  In the evaluation path the order is: trim the
    window to [window_size], then take the batch off the pending counter,
    then invoke the engine on (reference, trimmed window, column mapping).
    The call is the engine invocation and the publishing, run on the
    object whose window is already trimmed and whose counter is already
    reduced by exactly the batch size; so the reduction is in effect also
    when the engine raises. *)
Theorem C4_trim_decrement_then_engine (s : Service) (w : World') (new_rows : DataFrame) :
  0 <= window_size (self_options s) <= size_after s new_rows ->
  service.iterate new_rows (s, w) =
    bind monitoring_execute (fun _ => service.publish_results)
         (after_trim s new_rows, w) /\
  self_current (after_trim s new_rows) =
    last_rows (window_size (self_options s))
              (pandas.append (self_current s) new_rows) /\
  self_new_rows (after_trim s new_rows) =
    self_new_rows s + pandas.shape0 new_rows - pandas.shape0 new_rows /\
  executed (snd (snd (service.iterate new_rows (s, w)))) =
    executed w ++ [(self_reference s,
                    last_rows (window_size (self_options s))
                              (pandas.append (self_current s) new_rows),
                    self_column_mapping s)] /\
  (forall e,
     execute (self_monitoring s) (self_reference s)
             (self_current (after_trim s new_rows)) (self_column_mapping s) = inl e ->
     fst (service.iterate new_rows (s, w)) = inl e /\
     self_new_rows (fst (snd (service.iterate new_rows (s, w)))) = self_new_rows s).
Proof.
  intros Hws. split_and!.
  - by apply iterate_trim.
  - reflexivity.
  - reflexivity.
  - by destruct (iterate_eval_core s w new_rows Hws) as (_ & _ & _ & _ & _ & _ & Hx).
  - intros e He. rewrite (iterate_engine_raises s w new_rows e Hws He).
    cbn [fst snd]. unfold after_trim, after_append.
    cbn [self_new_rows with_new_rows with_current]. split; [done|lia].
Qed.

End Claim4.

(** C4 at work, with the engine that raises: a window of two, a batch of
    two, window size three, one row pending. *)
Lemma C4_trim_decrement_then_engine_witness :
  let st := Examples.service_with (E := Examples.failing_engine) [] tt 3
              (Examples.numbered 0 2) 1 in
  let r := service.iterate (E := Examples.failing_engine) (Examples.numbered 10 2) st in
  (0 <= window_size (self_options (fst st))
     <= size_after (fst st) (Examples.numbered 10 2)) /\
  fst r = inl (EngineError "degenerate data") /\
  self_new_rows (fst (snd r)) = 1.
Proof.
  intros st r.
  assert (Hws : 0 <= window_size (self_options (fst st))
                  <= size_after (fst st) (Examples.numbered 10 2))
    by (vm_compute; split; discriminate).
  split; [exact Hws|].
  destruct (C4_trim_decrement_then_engine (E := Examples.failing_engine)
              (fst st) (snd st) (Examples.numbered 10 2) Hws) as (_ & _ & _ & _ & Hr).
  exact (Hr (EngineError "degenerate data") eq_refl).
Defined.

(** C4 as claimed fails: with the engine that raises, the counter of the
    call above is back at 1, not at 1 + 2. *)
Lemma C4_decrement_precedes_engine :
  ~ decrement_follows_engine (E := Examples.failing_engine).
Proof.
  intros Hclaim.
  assert (Hws : 0 <= 3 <= size_after
            (fst (Examples.service_with (E := Examples.failing_engine) [] tt 3
                    (Examples.numbered 0 2) 1)) (Examples.numbered 10 2))
    by (vm_compute; split; discriminate).
  pose proof (Hclaim
    (fst (Examples.service_with (E := Examples.failing_engine) [] tt 3
            (Examples.numbered 0 2) 1))
    (snd (Examples.service_with (E := Examples.failing_engine) [] tt 3
            (Examples.numbered 0 2) 1))
    (Examples.numbered 10 2) (EngineError "degenerate data") Hws eq_refl) as H.
  vm_compute in H. discriminate H.
Qed.

Section Claim5.
Context {Scalar Value : Type} `{E : Engine Scalar Value}.
Local Abbreviation DataFrame := (pandas.DataFrame Scalar).
Local Abbreviation Service := (MonitoringService Scalar Value).
Local Abbreviation World' := (World Scalar Value).

(** C5.  When the engine raises in an evaluating call, the call ends with
    that exception and the trim stays: the window is the last
    [window_size] rows of the appended window, in order and freshly
    indexed, exactly [window_size] of them, the rows before them are gone;
    no gauge and no entry of the metrics dict is touched. *)
Theorem C5_failed_evaluation_keeps_trim (s : Service) (w : World')
    (new_rows : DataFrame) (e : exn) :
  0 <= window_size (self_options s) <= size_after s new_rows ->
  execute (self_monitoring s) (self_reference s)
          (self_current (after_trim s new_rows)) (self_column_mapping s) = inl e ->
  let r := service.iterate new_rows (s, w) in
  let removed := Z.to_nat (size_after s new_rows - window_size (self_options s)) in
  fst r = inl e /\
  self_current (fst (snd r)) =
    last_rows (window_size (self_options s)) (pandas.append (self_current s) new_rows) /\
  pandas.values (self_current (fst (snd r))) =
    skipn removed (pandas.values (pandas.append (self_current s) new_rows)) /\
  pandas.shape0 (self_current (fst (snd r))) = window_size (self_options s) /\
  pandas.range_indexed (self_current (fst (snd r))) /\
  registry (snd (snd r)) = registry w /\
  self_metrics (fst (snd r)) = self_metrics s.
Proof.
  intros Hws He r removed. subst r.
  rewrite (iterate_engine_raises s w new_rows e Hws He). cbn [fst snd].
  unfold after_trim, after_append.
  cbn [self_current self_metrics with_current with_new_rows self_options].
  split_and!; try reflexivity.
  - rewrite last_rows_values, append_shape0. reflexivity.
  - apply last_rows_length. rewrite append_shape0. exact Hws.
  - unfold pandas.range_indexed, last_rows, pandas.values. cbn [pandas.rows].
    by rewrite RangeIndex_values.
Qed.

End Claim5.

(** C5 at work: the engine that raises, a window of two rows (0, 1), a
    batch of two (10, 11), window size three: rows 1, 10, 11 stay. *)
Lemma C5_failed_evaluation_keeps_trim_witness :
  let st := Examples.service_with (E := Examples.failing_engine) [] tt 3
              (Examples.numbered 0 2) 1 in
  let r := service.iterate (E := Examples.failing_engine) (Examples.numbered 10 2) st in
  (0 <= window_size (self_options (fst st))
     <= size_after (fst st) (Examples.numbered 10 2)) /\
  fst r = inl (EngineError "degenerate data") /\
  pandas.values (self_current (fst (snd r))) = [[Some 1]; [Some 10]; [Some 11]] /\
  registry (snd (snd r)) = registry (snd st).
Proof.
  intros st r.
  assert (Hws : 0 <= window_size (self_options (fst st))
                  <= size_after (fst st) (Examples.numbered 10 2))
    by (vm_compute; split; discriminate).
  split; [exact Hws|].
  destruct (C5_failed_evaluation_keeps_trim (E := Examples.failing_engine)
              (fst st) (snd st) (Examples.numbered 10 2)
              (EngineError "degenerate data") Hws eq_refl)
    as (Hr & _ & Hv & _ & _ & Hreg & _).
  split; [exact Hr|]. split; [|exact Hreg].
  etransitivity; [exact Hv|]. vm_compute. reflexivity.
Defined.

Section Claim6.
Context {Scalar Value : Type} `{E : Engine Scalar Value}.
Context {Item : Type} (from_dict : Item -> raises (pandas.DataFrame Scalar)).
Local Abbreviation DataFrame := (pandas.DataFrame Scalar).
Local Abbreviation Service := (MonitoringService Scalar Value).
Local Abbreviation World' := (World Scalar Value).

(** C6, as the code has it.  Nothing catches an exception of the engine:
    it leaves [MonitoringService.iterate] and then the [/iterate] view, so
    the view does not return ["ok"]; the service object keeps the trimmed
    window, no log line is written and no gauge is touched. *)
Theorem C6_engine_failure_propagates (svc : Service) (w : World') (item : Item)
    (new_rows : DataFrame) (e : exn) :
  from_dict item = inr new_rows ->
  0 <= window_size (self_options svc) <= size_after svc new_rows ->
  execute (self_monitoring svc) (self_reference svc)
          (self_current (after_trim svc new_rows)) (self_column_mapping svc) = inl e ->
  let r := iterate from_dict item (mkApp (Some svc) w) in
  fst (service.iterate new_rows (svc, w)) = inl e /\
  fst r = inl e /\
  fst r <> inr (Str "ok") /\
  monitoring_service (snd r) = Some (after_trim svc new_rows) /\
  logged (app_world (snd r)) = logged w /\
  registry (app_world (snd r)) = registry w.
Proof.
  intros Hitem Hws He r. subst r. unfold iterate. cbn [monitoring_service app_world].
  rewrite Hitem, (iterate_engine_raises svc w new_rows e Hws He). cbn [fst snd].
  split_and!; done.
Qed.

End Claim6.

(** C6 at work: the view of the service whose engine raises. *)
Lemma C6_engine_failure_propagates_witness :
  let st := Examples.service_with (E := Examples.failing_engine) [] tt 3
              (Examples.numbered 0 2) 1 in
  let r := iterate (E := Examples.failing_engine) inr (Examples.numbered 10 2)
             (mkApp (Some (fst st)) (snd st)) in
  (0 <= window_size (self_options (fst st))
     <= size_after (fst st) (Examples.numbered 10 2)) /\
  fst r = inl (EngineError "degenerate data").
Proof.
  intros st r.
  assert (Hws : 0 <= window_size (self_options (fst st))
                  <= size_after (fst st) (Examples.numbered 10 2))
    by (vm_compute; split; discriminate).
  split; [exact Hws|].
  exact (proj1 (proj2 (C6_engine_failure_propagates (E := Examples.failing_engine) inr
           (fst st) (snd st) (Examples.numbered 10 2) (Examples.numbered 10 2)
           (EngineError "degenerate data") eq_refl Hws eq_refl))).
Defined.

(** C6 as claimed fails: the view of that service does not return ["ok"]. *)
Lemma C6_engine_failure_reaches_caller :
  ~ engine_failure_invisible (E := Examples.failing_engine)
      (inr : pandas.DataFrame Z -> raises (pandas.DataFrame Z)).
Proof.
  intros Hclaim.
  assert (Hws : 0 <= 3 <= size_after
            (fst (Examples.service_with (E := Examples.failing_engine) [] tt 3
                    (Examples.numbered 0 2) 1)) (Examples.numbered 10 2))
    by (vm_compute; split; discriminate).
  pose proof (Hclaim
    (fst (Examples.service_with (E := Examples.failing_engine) [] tt 3
            (Examples.numbered 0 2) 1))
    (snd (Examples.service_with (E := Examples.failing_engine) [] tt 3
            (Examples.numbered 0 2) 1))
    (Examples.numbered 10 2) (Examples.numbered 10 2)
    (EngineError "degenerate data") eq_refl Hws eq_refl) as H.
  vm_compute in H. discriminate H.
Qed.

Section Claim7.
Context {Scalar Value : Type} `{E : Engine Scalar Value}.
Local Abbreviation DataFrame := (pandas.DataFrame Scalar).
Local Abbreviation Service := (MonitoringService Scalar Value).
Local Abbreviation World' := (World Scalar Value).

(** A negative slice bound [-ws] with [0 < ws < n] is the position
    [n - ws]. *)
Lemma slice_bound_from_end (n : nat) (ws : Z) :
  0 < ws < Z.of_nat n -> pandas.slice_bound n (- ws) = Z.to_nat (Z.of_nat n - ws).
Proof.
  intros H. unfold pandas.slice_bound.
  destruct (Z.ltb_spec (- ws) 0); lia.
Qed.

(** An all-NaN frame with at least one column loses every row in
    [dropna]. *)
Lemma dropna_reindex_like_empty (reference : DataFrame) :
  pandas.columns reference <> [] ->
  pandas.rows (pandas.dropna (pandas.reindex_like pandas.empty reference)) = [].
Proof.
  intros Hcols. unfold pandas.dropna, pandas.reindex_like, pandas.index.
  cbn [pandas.rows pandas.columns pandas.empty].
  destruct (pandas.columns reference) as [|c cs]; [done|].
  induction (pandas.rows reference) as [|r rs IH]; [done|].
  cbn [map list_find]. rewrite filter_cons_False; [exact IH|].
  cbn [snd map]. intros Hall. apply Forall_cons in Hall as [[x Hx] _]. discriminate.
Qed.

(** The seeding where it meets C7.  With [use_reference] and [0 <
    window_size < n], the reference is the first [n - window_size] rows of
    the dataset, the window is seeded with the last [window_size] rows,
    both in order and with the dataset's columns, and the hash is the
    fingerprint of the reference rows alone.  Without [use_reference] the
    reference is the dataset itself, the hash is its fingerprint, and the
    window has the dataset's columns and, when there is at least one
    column, no row. *)
Theorem C7_reference_seeding (reference : DataFrame) (options : MonitoringServiceOptions)
    (cm : ColumnMapping) (w0 w1 : World') (s0 : Service) :
  service.__init__ reference options cm w0 = (inr s0, w1) ->
  let n := pandas.shape0 reference in
  let ws := window_size options in
  (use_reference options = true -> 0 < ws < n ->
     pandas.rows (self_reference s0) = firstn (Z.to_nat (n - ws)) (pandas.rows reference) /\
     pandas.rows (self_current s0) = skipn (Z.to_nat (n - ws)) (pandas.rows reference) /\
     pandas.shape0 (self_reference s0) = n - ws /\
     pandas.shape0 (self_current s0) = ws /\
     pandas.columns (self_reference s0) = pandas.columns reference /\
     pandas.columns (self_current s0) = pandas.columns reference /\
     self_hash s0 =
       fingerprint {| pandas.columns := pandas.columns reference;
                      pandas.rows := firstn (Z.to_nat (n - ws)) (pandas.rows reference) |}) /\
  (use_reference options = false ->
     self_reference s0 = reference /\
     self_hash s0 = fingerprint reference /\
     pandas.columns (self_current s0) = pandas.columns reference /\
     (pandas.columns reference <> [] -> pandas.rows (self_current s0) = [])).
Proof.
  cbv beta iota delta [service.__init__ bind lift Gauge_new gets put_registry
    modify ret].
  intros H n ws. repeat (case_match; simplify_eq/=); split; try done.
  - intros _ Hws. subst n ws. unfold pandas.shape0 in *.
    unfold pandas.copy, pandas.iloc_to, pandas.iloc_from.
    cbn [pandas.rows pandas.columns].
    rewrite slice_bound_from_end by lia.
    split_and!; try reflexivity.
    + rewrite length_firstn. lia.
    + rewrite length_skipn. lia.
  - intros _. unfold pandas.copy. split_and!; try reflexivity.
    apply dropna_reindex_like_empty.
Qed.

End Claim7.

(** The seeding at work: ten historical rows and a window size of three. *)
Lemma C7_reference_seeding_witness :
  service.__init__ (E := Examples.counting_engine) Examples.history
    (Examples.options true 3) tt Examples.empty_world =
    (inr Examples.fresh_service, Examples.fresh_world) /\
  use_reference (Examples.options true 3) = true /\
  0 < window_size (Examples.options true 3) < pandas.shape0 Examples.history /\
  pandas.rows (self_reference Examples.fresh_service) =
    firstn 7 (pandas.rows Examples.history) /\
  pandas.rows (self_current Examples.fresh_service) =
    skipn 7 (pandas.rows Examples.history).
Proof.
  assert (Hinit : service.__init__ (E := Examples.counting_engine) Examples.history
            (Examples.options true 3) tt Examples.empty_world =
            (inr Examples.fresh_service, Examples.fresh_world))
    by (vm_compute; reflexivity).
  assert (Hws : 0 < window_size (Examples.options true 3)
                  < pandas.shape0 Examples.history)
    by (vm_compute; split; reflexivity).
  split; [exact Hinit|]. split; [reflexivity|]. split; [exact Hws|].
  destruct (proj1 (C7_reference_seeding (E := Examples.counting_engine)
              Examples.history (Examples.options true 3) tt Examples.empty_world
              Examples.fresh_world Examples.fresh_service Hinit) eq_refl Hws)
    as (Hr & Hc & _).
  split; [exact Hr|exact Hc].
Defined.

(** The statement of C7 does not hold of the code.  With [window_size =
    0] the slice [iloc[:-0]] is empty and [iloc[-0:]] is everything: the
    reference gets no row and the window all ten.  Without
    [use_reference], a dataset that has rows but no column keeps its rows
    through [dropna]. *)
Lemma C7_zero_window_size_and_no_columns :
  ~ seeding_splits_at_window_size (E := Examples.counting_engine) /\
  ~ unseeded_window_is_empty (E := Examples.counting_engine).
Proof.
  split; intros Hclaim.
  - pose proof (Hclaim Examples.history (Examples.options true 0) tt
                  Examples.empty_world) as H.
    specialize (H _ _ eq_refl eq_refl).
    assert (Hlt : window_size (Examples.options true 0) < pandas.shape0 Examples.history)
      by (vm_compute; reflexivity).
    destruct (H Hlt) as [Hr _]. vm_compute in Hr. discriminate Hr.
  - pose proof (Hclaim Examples.no_columns (Examples.options false 3) tt
                  Examples.empty_world) as H.
    specialize (H _ _ eq_refl eq_refl).
    vm_compute in H. discriminate H.
Qed.

(** C7, where the code departs from it.  The docstring of [__init__]
    has [window_size] samples taken from the end of the reference dataset
    to seed the current data, and so has the claim.  With [use_reference]
    and [window_size = 0], on ten historical rows, that is a reference of
    all ten rows, hashed, and an empty window; the slices [iloc[:-0]] and
    [iloc[-0:]] give a reference without rows, the hash of that, and a
    window of all ten rows.  Without [use_reference], on a dataset of two
    rows and no column, the claim has a window without rows; [dropna]
    keeps both. *)
Lemma C7_seeding_at_window_size_zero :
  (exists s0 w1,
     service.__init__ (E := Examples.counting_engine) Examples.history
       (Examples.options true 0) tt Examples.empty_world = (inr s0, w1) /\
     pandas.shape0 Examples.history = 10 /\
     pandas.rows (self_reference s0) = [] /\
     pandas.rows (self_current s0) = pandas.rows Examples.history /\
     self_hash s0 = fingerprint (Engine := Examples.counting_engine)
                      {| pandas.columns := ["x"]; pandas.rows := [] |}) /\
  (exists s0 w1,
     service.__init__ (E := Examples.counting_engine) Examples.no_columns
       (Examples.options false 3) tt Examples.empty_world = (inr s0, w1) /\
     self_reference s0 = Examples.no_columns /\
     pandas.shape0 (self_current s0) = 2).
Proof.
  split.
  - exists (mkService (E := Examples.counting_engine) []
              {| pandas.columns := ["x"]; pandas.rows := [] |}
              Examples.history tt (Examples.options true 0) ∅ 0 "" 0%nat),
           Examples.fresh_world.
    split_and!; reflexivity.
  - exists (mkService (E := Examples.counting_engine) []
              Examples.no_columns Examples.no_columns tt (Examples.options false 3) ∅ 0
              "0,1" 0%nat),
           Examples.fresh_world.
    split_and!; reflexivity.
Qed.

Section Claim8.
Context {Scalar Value : Type} `{E : Engine Scalar Value}.
Local Abbreviation DataFrame := (pandas.DataFrame Scalar).
Local Abbreviation Service := (MonitoringService Scalar Value).
Local Abbreviation World' := (World Scalar Value).

Lemma union_columns_subseteq (c b : list string) :
  b ⊆ c -> pandas.union_columns c b = c.
Proof.
  intros Hb. unfold pandas.union_columns.
  assert (H : forall l, l ⊆ c -> filter (fun x => x ∉ c) l = []).
  { induction l as [|x l IH]; intros Hl; [done|].
    rewrite filter_cons_False.
    - apply IH. intros y Hy. apply Hl. by right.
    - intros Hn. apply Hn, Hl. by left. }
  rewrite H by done. apply app_nil_r.
Qed.

(** Appending a batch without rows, and without a column the frame lacks,
    gives the rows of the frame back, labelled afresh. *)
Lemma append_no_rows_reset (df new_rows : DataFrame) :
  pandas.rows new_rows = [] ->
  pandas.columns new_rows ⊆ pandas.columns df ->
  pandas.well_formed df ->
  pandas.append df new_rows = pandas.reset_index df.
Proof.
  intros Hrows Hcols [Hnd Hwf]. unfold pandas.append, pandas.reset_index.
  rewrite union_columns_subseteq by done.
  unfold pandas.values at 2. rewrite Hrows. cbn [map]. rewrite app_nil_r.
  assert (Hid : map (pandas.realign (pandas.columns df) (pandas.columns df))
                    (pandas.values df) = pandas.values df).
  { induction Hwf as [|r rs Hr _ IH]; [done|]. cbn [map].
    by rewrite IH, realign_same. }
  by rewrite Hid.
Qed.

Lemma reset_index_facts (df : DataFrame) :
  pandas.columns (pandas.reset_index df) = pandas.columns df /\
  pandas.values (pandas.reset_index df) = pandas.values df /\
  pandas.shape0 (pandas.reset_index df) = pandas.shape0 df /\
  (pandas.range_indexed df -> pandas.reset_index df = df).
Proof.
  assert (Hv : pandas.values (pandas.reset_index df) = pandas.values df).
  { unfold pandas.reset_index. unfold pandas.values at 1. cbn [pandas.rows].
    apply RangeIndex_values. }
  split_and!.
  - done.
  - exact Hv.
  - unfold pandas.shape0, pandas.reset_index. cbn [pandas.rows].
    rewrite RangeIndex_length. unfold pandas.values. by rewrite length_map.
  - intros Hri. unfold pandas.reset_index. rewrite <- Hri. by destruct df.
Qed.

(** The last rows of a frame do not depend on its labels. *)
Lemma last_rows_reset_index (ws : Z) (df : DataFrame) :
  last_rows ws (pandas.reset_index df) = last_rows ws df.
Proof.
  destruct (reset_index_facts df) as (Hc & Hv & Hsz & _).
  unfold last_rows. by rewrite Hc, Hv, Hsz.
Qed.

(** All the rows of a frame, as its last rows, are the frame labelled
    afresh. *)
Lemma last_rows_whole (df : DataFrame) :
  last_rows (pandas.shape0 df) df = pandas.reset_index df.
Proof.
  unfold last_rows, pandas.reset_index. by rewrite Z.sub_diag.
Qed.

(** C8, as the code has it.  A batch without rows (and without a column
    the window lacks) leaves the pending counter as it was, in every
    state.  What it does to the window and whether it evaluates depends on
    the size of the window alone.
    - Below [window_size]: the rows of the window stay, the same cells in
      the same order under the same columns, labelled afresh from 0 (so
      the very frame when it was so labelled); the call does nothing else
      but log its notice: no evaluation, no gauge touched.
    - At [window_size] or above it, [window_size] not negative: the call
      evaluates like any other.  The window becomes its last
      [window_size] rows (at [window_size] these are all its rows,
      labelled afresh), the engine is invoked once, on that window, and
      when it returns its results are published (the call ends as
      [publish_results] does on them); when it raises, the call raises
      and no gauge is touched.
    - With a negative [window_size]: the rows of the window stay,
      labelled afresh, and the call raises at the trim: no evaluation, no
      notice, no gauge touched. *)
Theorem C8_empty_batch (s : Service) (w : World') (new_rows : DataFrame) :
  pandas.rows new_rows = [] ->
  pandas.columns new_rows ⊆ pandas.columns (self_current s) ->
  pandas.well_formed (self_current s) ->
  let ws := window_size (self_options s) in
  let cur := self_current s in
  let r := service.iterate new_rows (s, w) in
  let relabelled := pandas.reset_index cur in
  (pandas.columns relabelled = pandas.columns cur /\
   pandas.values relabelled = pandas.values cur /\
   (pandas.range_indexed cur -> relabelled = cur)) /\
  self_new_rows (fst (snd r)) = self_new_rows s /\
  (pandas.shape0 cur < ws ->
     fst r = inr tt /\
     fst (snd r) = with_current s relabelled /\
     executed (snd (snd r)) = executed w /\
     registry (snd (snd r)) = registry w /\
     logged (snd (snd r)) = logged w ++ [notice (pandas.shape0 cur) ws]) /\
  (0 <= ws <= pandas.shape0 cur ->
     let cur' := last_rows ws cur in
     self_current (fst (snd r)) = cur' /\
     (pandas.shape0 cur = ws -> cur' = relabelled) /\
     executed (snd (snd r)) =
       executed w ++ [(self_reference s, cur', self_column_mapping s)] /\
     logged (snd (snd r)) = logged w /\
     (forall e,
        execute (self_monitoring s) (self_reference s) cur' (self_column_mapping s) = inl e ->
        fst r = inl e /\ registry (snd (snd r)) = registry w) /\
     (forall m,
        execute (self_monitoring s) (self_reference s) cur' (self_column_mapping s) = inr m ->
        r = service.publish_results
              (with_monitoring (with_current s cur') m,
               mkWorld (logged w) (registry w)
                       (executed w ++ [(self_reference s, cur', self_column_mapping s)])))) /\
  (ws < 0 ->
     r = (inl (KeyError "labels not found in axis"), (with_current s relabelled, w))).
Proof.
  intros Hrows Hcols Hwf ws cur r relabelled.
  destruct (reset_index_facts cur) as (Hc & Hv & Hsz & Hsame).
  fold relabelled in Hc, Hv, Hsz, Hsame.
  assert (Hzero : pandas.shape0 new_rows = 0)
    by (unfold pandas.shape0; rewrite Hrows; reflexivity).
  assert (Hsize : size_after s new_rows = pandas.shape0 cur)
    by (unfold size_after; subst cur; lia).
  assert (Happ : after_append s new_rows = with_current s relabelled).
  { unfold after_append. rewrite append_no_rows_reset, Hzero, Z.add_0_r by done.
    by destruct s. }
  assert (Htrim : after_trim s new_rows = with_current s (last_rows ws cur)).
  { unfold after_trim. cbv zeta. rewrite Happ, Hzero, Z.sub_0_r.
    cbn [self_current with_current self_new_rows]. subst relabelled.
    rewrite last_rows_reset_index. by destruct s. }
  split; [done|]. subst r.
  destruct (Z.lt_ge_cases (pandas.shape0 cur) ws) as [Hlt|Hge];
    [|destruct (Z.lt_ge_cases ws 0) as [Hneg|Hpos]].
  - rewrite iterate_warmup by (subst ws; lia). cbn [fst snd]. rewrite Happ, Hsize.
    assert (Hnn : 0 <= pandas.shape0 cur) by (unfold pandas.shape0; lia).
    split_and!; try done; intros; lia.
  - rewrite iterate_negative by done. cbn [fst snd]. rewrite Happ.
    assert (Hnn : 0 <= pandas.shape0 cur) by (unfold pandas.shape0; lia).
    split_and!; try done; intros; lia.
  - assert (Hin : 0 <= window_size (self_options s) <= size_after s new_rows)
      by (fold ws; lia).
    destruct (iterate_eval_core s w new_rows Hin)
      as (Hcur & Hn & _ & _ & _ & Hlog & Hx).
    rewrite Hn, Htrim. cbn [self_new_rows with_current].
    split_and!; [done|intros; lia| |intros; lia]. intros _.
    rewrite Hcur, Hx, Hlog, Htrim. unfold with_call.
    cbn [executed self_current self_new_rows with_current self_reference
         self_column_mapping].
    split_and!; [done| |done|done| |].
    + intros Heq. rewrite <- Heq. apply last_rows_whole.
    + intros e He. rewrite (iterate_engine_raises s w new_rows e Hin)
        by (rewrite Htrim; exact He).
      cbn [fst snd with_call registry]. done.
    + intros m Hm. rewrite iterate_trim by exact Hin. rewrite Htrim.
      unfold bind, monitoring_execute. cbn [fst snd].
      cbn [self_monitoring self_reference self_current self_column_mapping with_current].
      rewrite Hm. reflexivity.
Qed.

End Claim8.

(** C8 at work, on the service as [__init__] returns it: the window is
    seeded with the last three of ten rows, labelled 7, 8, 9, and is
    full.  An empty batch leaves these rows, now labelled 0, 1, 2, and
    invokes the engine on them. *)
Lemma C8_empty_batch_witness :
  let s := Examples.fresh_service in
  let w := Examples.fresh_world in
  let r := service.iterate (E := Examples.counting_engine) (Examples.numbered 0 0) (s, w) in
  pandas.rows (Examples.numbered 0 0) = [] /\
  pandas.columns (Examples.numbered 0 0) ⊆ pandas.columns (self_current s) /\
  pandas.well_formed (self_current s) /\
  pandas.rows (self_current s) = [(7, [Some 7]); (8, [Some 8]); (9, [Some 9])] /\
  pandas.rows (self_current (fst (snd r))) = [(0, [Some 7]); (1, [Some 8]); (2, [Some 9])] /\
  self_new_rows (fst (snd r)) = self_new_rows s /\
  length (executed (snd (snd r))) = 1%nat.
Proof.
  intros s w r.
  assert (H1 : pandas.rows (Examples.numbered 0 0) = []) by reflexivity.
  assert (H2 : pandas.columns (Examples.numbered 0 0) ⊆ pandas.columns (self_current s))
    by (simpl; done).
  assert (H3 : pandas.well_formed (self_current s)).
  { split; simpl.
    - apply NoDup_singleton.
    - repeat constructor. }
  do 3 (split; [assumption|]). split; [reflexivity|].
  destruct (C8_empty_batch (E := Examples.counting_engine) s w
              (Examples.numbered 0 0) H1 H2 H3)
    as (_ & Hn & _ & Hfull & _).
  fold r in Hn, Hfull.
  destruct Hfull as (Hc & _ & Hx & _); [vm_compute; split; discriminate|].
  split; [rewrite Hc; reflexivity|]. split; [exact Hn|].
  rewrite Hx. reflexivity.
Defined.

(** C8 as claimed fails: on a full window of two rows, window size two,
    the empty batch runs the engine. *)
Lemma C8_empty_batch_evaluates_full_window :
  ~ empty_batch_is_noop (E := Examples.counting_engine).
Proof.
  intros Hclaim.
  pose proof (Hclaim
    (fst (Examples.service_with (E := Examples.counting_engine) [] tt 2
            (Examples.numbered 0 2) 0))
    (snd (Examples.service_with (E := Examples.counting_engine) [] tt 2
            (Examples.numbered 0 2) 0))
    (Examples.numbered 0 0) eq_refl) as (Hx & _).
  vm_compute in Hx. discriminate Hx.
Qed.

Section Claim10.
Context {Scalar Value : Type} `{E : Engine Scalar Value}.
Local Abbreviation DataFrame := (pandas.DataFrame Scalar).
Local Abbreviation Service := (MonitoringService Scalar Value).
Local Abbreviation World' := (World Scalar Value).

(** What one call does to the pending counter, path by path. *)
Lemma iterate_new_rows (st : State Scalar Value) (new_rows : DataFrame) :
  let n' := self_new_rows (fst (snd (service.iterate new_rows st))) in
  (0 <= window_size (self_options (fst st)) <= size_after (fst st) new_rows ->
   n' = self_new_rows (fst st)) /\
  (size_after (fst st) new_rows < window_size (self_options (fst st)) ->
   n' = self_new_rows (fst st) + pandas.shape0 new_rows) /\
  self_new_rows (fst st) <= n'.
Proof.
  destruct st as [s w]. cbv zeta. cbn [fst].
  assert (Hrc : 0 <= pandas.shape0 new_rows) by (unfold pandas.shape0; lia).
  destruct (iterate_paths s new_rows) as [H|[H|H]].
  - rewrite iterate_warmup by done. cbn [fst snd]. unfold after_append.
    cbn [self_new_rows with_new_rows]. split_and!; intros; lia.
  - destruct (iterate_eval_core s w new_rows H) as (_ & Hn & _). rewrite Hn.
    unfold after_trim, after_append. cbn [self_new_rows with_new_rows].
    split_and!; intros; lia.
  - rewrite iterate_negative by done. cbn [fst snd]. unfold after_append.
    cbn [self_new_rows with_new_rows].
    pose proof (size_after_nonneg s new_rows). split_and!; intros; lia.
Qed.

Lemma calls_new_rows_mono (st : State Scalar Value) (batches : list DataFrame) :
  self_new_rows (fst st) <= self_new_rows (fst (calls service.iterate batches st)).
Proof.
  induction batches as [|b bs IH] using rev_ind; [done|].
  rewrite calls_snoc.
  destruct (iterate_new_rows (calls service.iterate bs st) b) as (_ & _ & Hle). lia.
Qed.

(** C10.  Start from the service that [__init__] returns, make any calls,
    then one call, then any further calls.  If that one call evaluates,
    it leaves the pending counter where it found it; if it is a warm-up
    call, the counter has grown by the batch size.  No call ever lowers
    the counter, so it is never negative, and after a warm-up call with
    at least one row it stays above zero for good. *)
Theorem C10_pending_counter (reference : DataFrame) (options : MonitoringServiceOptions)
    (cm : ColumnMapping) (w0 w1 : World') (s0 : Service)
    (earlier : list DataFrame) (new_rows : DataFrame) (later : list DataFrame) :
  service.__init__ reference options cm w0 = (inr s0, w1) ->
  let st := calls service.iterate earlier (s0, w1) in
  let st1 := snd (service.iterate new_rows st) in
  let st2 := calls service.iterate later st1 in
  (0 <= window_size options <= size_after (fst st) new_rows ->
   self_new_rows (fst st1) = self_new_rows (fst st)) /\
  (size_after (fst st) new_rows < window_size options ->
   self_new_rows (fst st1) = self_new_rows (fst st) + pandas.shape0 new_rows) /\
  0 <= self_new_rows (fst st) <= self_new_rows (fst st1) /\
  self_new_rows (fst st1) <= self_new_rows (fst st2) /\
  (size_after (fst st) new_rows < window_size options ->
   0 < pandas.shape0 new_rows -> 0 < self_new_rows (fst st2)).
Proof.
  intros Hinit st st1 st2.
  apply init_options in Hinit as (Hopt & Hzero & _).
  assert (Hst : self_options (fst st) = options).
  { subst st. by rewrite calls_options. }
  assert (H0 : 0 <= self_new_rows (fst st)).
  { pose proof (calls_new_rows_mono (s0, w1) earlier) as Hm.
    cbn [fst] in Hm. subst st. lia. }
  destruct (iterate_new_rows st new_rows) as (Hev & Hwu & Hle).
  rewrite Hst in Hev, Hwu.
  pose proof (calls_new_rows_mono st1 later) as Hlater.
  fold st1 in Hev, Hwu, Hle. fold st2 in Hlater.
  split_and!; try done.
  intros Hlt Hpos. specialize (Hwu Hlt). lia.
Qed.

End Claim10.

(** C10 at work: the unseeded service of the examples, a warm-up batch of
    two rows, then batches of five and of none: two rows stay pending. *)
Lemma C10_pending_counter_witness :
  let st1 := snd (service.iterate (E := Examples.counting_engine)
                    (Examples.numbered 20 2)
                    (Examples.unseeded_service, Examples.fresh_world)) in
  let st2 := calls (service.iterate (E := Examples.counting_engine))
               [Examples.numbered 30 5; Examples.numbered 40 0] st1 in
  service.__init__ (E := Examples.counting_engine) Examples.history
    (Examples.options false 3) tt Examples.empty_world =
    (inr Examples.unseeded_service, Examples.fresh_world) /\
  0 < self_new_rows (fst st2).
Proof.
  intros st1 st2.
  assert (Hinit : service.__init__ (E := Examples.counting_engine) Examples.history
            (Examples.options false 3) tt Examples.empty_world =
            (inr Examples.unseeded_service, Examples.fresh_world))
    by (vm_compute; reflexivity).
  split; [exact Hinit|].
  destruct (C10_pending_counter (E := Examples.counting_engine) Examples.history
              (Examples.options false 3) tt Examples.empty_world Examples.fresh_world
              Examples.unseeded_service [] (Examples.numbered 20 2)
              [Examples.numbered 30 5; Examples.numbered 40 0] Hinit)
    as (_ & _ & _ & _ & Hpos).
  apply Hpos; vm_compute; reflexivity.
Defined.

(** ** The metric sink: lines 121-130 *)

Section SinkFacts.
Context {Scalar Value : Type} `{E : Engine Scalar Value}.
Local Abbreviation Gauge := (prometheus.Gauge Value).
Local Abbreviation World' := (World Scalar Value).
Local Abbreviation Triple := (string * Value * option (gmap string string))%type.

Ltac trivial_parts := split_and!; first [done | intros; discriminate].

Ltac run_world :=
  cbv beta iota delta [bind gets modify lift ret raise Gauge_new Gauge_set
    Gauge_labels_set deref store put_registry].

(** Replacing a gauge by one of the same identity keeps the identities. *)
Lemma identities_insert (reg : list Gauge) (a : nat) (g g' : Gauge) :
  reg !! a = Some g -> identity g' = identity g ->
  identities (<[a := g']> reg) = identities reg.
Proof.
  intros Ha Hid. unfold identities. rewrite list_fmap_insert, Hid.
  apply list_insert_id. by rewrite list_lookup_fmap, Ha.
Qed.

Lemma Gauge_new_fresh (nm : string) (lnames : list string) (w : World') :
  creatable nm lnames w ->
  Gauge_new nm lnames w =
  (inr (length (registry w)),
   mkWorld (logged w) (registry w ++ [fresh_gauge nm lnames]) (executed w)).
Proof.
  intros (Hnm & Hl & Hnin). run_world. unfold prometheus.new_Gauge.
  by rewrite Hnm, Hl, decide_False.
Qed.

(** Otherwise the constructor raises and the registry stays as it is; a
    registered name is refused as a duplicate. *)
Lemma Gauge_new_cases (nm : string) (lnames : list string) (w : World') :
  creatable nm lnames w \/ exists e, Gauge_new nm lnames w = (inl e, w).
Proof.
  unfold creatable. run_world. unfold prometheus.new_Gauge.
  destruct (valid_metric_name nm); cbn [negb]; [|right; eauto].
  destruct (forallb valid_label_name lnames); cbn [negb]; [|right; eauto].
  case_decide; [right; eauto|left; done].
Qed.

Lemma Gauge_new_registered (nm : string) (lnames : list string) (w : World') :
  nm ∈ prometheus.name <$> registry w ->
  exists e, Gauge_new nm lnames w = (inl e, w).
Proof.
  intros Hin. destruct (Gauge_new_cases nm lnames w) as [(_ & _ & Hnin)|H]; done.
Qed.

(** A publish on the gauge at [a]: it raises and leaves the heap alone, or
    it returns and the gauge at [a] is the published one. *)
Lemma publish_on (a : nat) (g : Gauge) (value : Value)
    (labels : option (gmap string string)) (w : World') :
  registry w !! a = Some g ->
  let r := match labels with
           | None => Gauge_set a value w
           | Some l => Gauge_labels_set a l value w
           end in
  logged (snd r) = logged w /\ executed (snd r) = executed w /\
  identities (registry (snd r)) = identities (registry w) /\
  (fst r = inr tt -> registry (snd r) = <[a := published g value labels]> (registry w)) /\
  (fst r = inr tt ->
   match labels with
   | None => prometheus.labelnames g = []
   | Some l => sorted (dict_keys l) = sorted (prometheus.labelnames g)
   end).
Proof.
  intros Ha. destruct labels as [l|]; cbv zeta; run_world; rewrite Ha.
  - unfold prometheus.labels.
    destruct (prometheus.labelnames g) as [|n ns] eqn:Hl; cbn [fst snd];
      [trivial_parts|].
    case_decide as Hempty; cbn [fst snd registry logged executed];
      [trivial_parts|].
    case_decide as Hk; cbn [fst snd registry logged executed];
      [|trivial_parts].
    rewrite list_insert_insert_eq.
    split_and!; try done.
    + eapply identities_insert; [done|].
      unfold identity, prometheus.set_child. cbn.
      case_match; cbn; by rewrite ?Hl.
    + intros _. f_equal. unfold published, label_values. rewrite Hl.
      unfold prometheus.set_child. case_match; cbn;
        [reflexivity|by rewrite insert_insert_eq, Hl].
  - unfold prometheus.set.
    destruct (prometheus.labelnames g) as [|n ns] eqn:Hl;
      cbn [fst snd registry logged executed]; [|trivial_parts].
    split_and!; try done.
    + eapply identities_insert; [done|]. unfold identity. cbn. by rewrite Hl.
    + intros _. f_equal. unfold published. by rewrite Hl.
Qed.

Lemma publish_on_dangling (a : nat) (value : Value)
    (labels : option (gmap string string)) (w : World') :
  registry w !! a = None ->
  match labels with
  | None => Gauge_set a value w
  | Some l => Gauge_labels_set a l value w
  end = (inl (KeyError "no gauge at this address"), w).
Proof. intros Ha. destruct labels; run_world; by rewrite Ha. Qed.

(** The two branches of line 127, as one action on the world. *)
Lemma publish_unfold (metric_name : string) (value : Value)
    (labels : option (gmap string string)) (s : MonitoringService Scalar Value)
    (w : World') :
  service.publish (metric_name, value, labels) (s, w) =
  match self_metrics s !! ("evidently:" +:+ metric_name) with
  | Some a =>
    let r := match labels with
             | None => Gauge_set a value w
             | Some l => Gauge_labels_set a l value w
             end in
    (fst r, (s, snd r))
  | None =>
    match Gauge_new ("evidently:" +:+ metric_name) (label_keys labels) w with
    | (inl e, w1) => (inl e, (s, w1))
    | (inr a, w1) =>
      let r := match labels with
               | None => Gauge_set a value w1
               | Some l => Gauge_labels_set a l value w1
               end in
      (fst r, (with_metrics s (<[("evidently:" +:+ metric_name) := a]> (self_metrics s)),
               snd r))
    end
  end.
Proof.
  unfold service.publish.
  cbv beta iota delta [bind self gets world set_metrics modify ret]. cbn [fst snd].
  destruct (self_metrics s !! _) as [a|]; cbn [fst snd].
  - by destruct labels.
  - unfold label_keys.
    destruct (Gauge_new _ _ w) as [[e|a] w1]; cbn [fst snd]; [done|].
    by destruct labels.
Qed.

Lemma publish_seen (metric_name : string) (value : Value)
    (labels : option (gmap string string)) (s : MonitoringService Scalar Value)
    (w : World') (a : nat) :
  self_metrics s !! ("evidently:" +:+ metric_name) = Some a ->
  let r := service.publish (metric_name, value, labels) (s, w) in
  fst (snd r) = s /\
  identities (registry (snd (snd r))) = identities (registry w) /\
  (forall g, registry w !! a = Some g -> fst r = inr tt ->
     registry (snd (snd r)) = <[a := published g value labels]> (registry w)).
Proof.
  intros Hd r. subst r. rewrite publish_unfold, Hd. cbv zeta. cbn [fst snd].
  destruct (registry w !! a) as [g|] eqn:Ha.
  - destruct (publish_on a g value labels w Ha) as (_ & _ & Hid & Hreg & _).
    split_and!; [done|done|]. intros g' [= <-]. exact Hreg.
  - rewrite publish_on_dangling by done. cbn [fst snd]. split_and!; done.
Qed.

Lemma publish_first (metric_name : string) (value : Value)
    (labels : option (gmap string string)) (s : MonitoringService Scalar Value)
    (w : World') :
  self_metrics s !! ("evidently:" +:+ metric_name) = None ->
  creatable ("evidently:" +:+ metric_name) (label_keys labels) w ->
  let key := "evidently:" +:+ metric_name in
  let r := service.publish (metric_name, value, labels) (s, w) in
  fst (snd r) = with_metrics s (<[key := length (registry w)]> (self_metrics s)) /\
  identities (registry (snd (snd r))) =
    identities (registry w) ++ [(key, label_keys labels)] /\
  (fst r = inr tt ->
     registry (snd (snd r)) =
     registry w ++ [published (fresh_gauge key (label_keys labels)) value labels]).
Proof.
  intros Hd Hnm key r. subst r. rewrite publish_unfold, Hd.
  rewrite Gauge_new_fresh by done. cbv zeta.
  set (w1 := mkWorld _ _ _).
  assert (Ha : registry w1 !! length (registry w) =
               Some (fresh_gauge key (label_keys labels))).
  { subst w1. cbn [registry]. by rewrite lookup_app_r, Nat.sub_diag. }
  destruct (publish_on _ _ value labels w1 Ha) as (_ & _ & Hid & Hreg & _).
  cbn [fst snd]. split_and!; [done| |].
  - rewrite Hid. subst w1. cbn [registry]. unfold identities.
    by rewrite fmap_app.
  - intros Hr. rewrite (Hreg Hr). subst w1. cbn [registry].
    rewrite insert_app_r_alt, Nat.sub_diag by done. reflexivity.
Qed.

(** When the constructor raises, the publish ends there and nothing has
    changed. *)
Lemma publish_refused (metric_name : string) (value : Value)
    (labels : option (gmap string string)) (s : MonitoringService Scalar Value)
    (w : World') (e : exn) :
  self_metrics s !! ("evidently:" +:+ metric_name) = None ->
  Gauge_new ("evidently:" +:+ metric_name) (label_keys labels) w = (inl e, w) ->
  service.publish (metric_name, value, labels) (s, w) = (inl e, (s, w)).
Proof.
  intros Hd Hnew. by rewrite publish_unfold, Hd, Hnew.
Qed.

End SinkFacts.

Section SinkInvariant.
Context {Scalar Value : Type} `{E : Engine Scalar Value}.
Local Abbreviation Gauge := (prometheus.Gauge Value).
Local Abbreviation World' := (World Scalar Value).
Local Abbreviation State' := (State Scalar Value).
Local Abbreviation Triple := (string * Value * option (gmap string string))%type.

Lemma names_identities (reg : list Gauge) :
  prometheus.name <$> reg = (identities reg).*1.
Proof. unfold identities. by rewrite <- list_fmap_compose. Qed.

(** One publish: the dict and the identities grow or stay, and the sink
    stays in agreement with the registry. *)
Lemma publish_grows (m : Triple) (st : State') :
  self_metrics (fst st) ⊆ self_metrics (fst (snd (service.publish m st))) /\
  identities (registry (snd st)) `prefix_of`
    identities (registry (snd (snd (service.publish m st)))).
Proof.
  destruct m as [[metric_name value] labels], st as [s w]. cbn [fst snd].
  destruct (self_metrics s !! ("evidently:" +:+ metric_name)) as [a|] eqn:Hd.
  - destruct (publish_seen metric_name value labels s w a Hd) as (Hs & Hid & _).
    rewrite Hs, Hid. done.
  - destruct (Gauge_new_cases ("evidently:" +:+ metric_name) (label_keys labels) w)
      as [Hnew|[e Hnew]].
    + destruct (publish_first metric_name value labels s w Hd Hnew) as (Hs & Hid & _).
      rewrite Hs, Hid. cbn [self_metrics with_metrics]. split.
      * by apply insert_subseteq.
      * by apply prefix_app_r.
    + by rewrite (publish_refused _ _ _ _ _ e Hd Hnew).
Qed.

Lemma publish_sink_ok (m : Triple) (st : State') :
  sink_ok st -> sink_ok (snd (service.publish m st)).
Proof.
  destruct m as [[metric_name value] labels], st as [s w].
  unfold sink_ok. cbn [fst snd]. intros [Hnd Hcl].
  destruct (self_metrics s !! ("evidently:" +:+ metric_name)) as [a|] eqn:Hd.
  - destruct (publish_seen metric_name value labels s w a Hd) as (Hs & Hid & _).
    rewrite Hs, !names_identities, Hid, <- !names_identities. done.
  - destruct (Gauge_new_cases ("evidently:" +:+ metric_name) (label_keys labels) w)
      as [Hnew|[e Hnew]]; [|by rewrite (publish_refused _ _ _ _ _ e Hd Hnew)].
    destruct (publish_first metric_name value labels s w Hd Hnew) as (Hs & Hid & _).
    destruct Hnew as (_ & _ & Hnin).
    + rewrite Hs, !names_identities, Hid, fmap_app, <- !names_identities.
      cbn [self_metrics with_metrics fmap list_fmap fst]. split.
      * apply NoDup_app. split_and!; [done| |apply NoDup_singleton].
        intros x Hx ->%list_elem_of_singleton. done.
      * intros nm [Hin|Hin%list_elem_of_singleton]%elem_of_app.
        -- destruct (Hcl nm Hin) as [->|Hsome]; [by left|right].
           by apply lookup_insert_is_Some'; right.
        -- right. rewrite Hin. by rewrite lookup_insert_eq.
Qed.




Lemma sink_ok_ext (st st' : State') :
  self_metrics (fst st') = self_metrics (fst st) ->
  identities (registry (snd st')) = identities (registry (snd st)) ->
  sink_ok st -> sink_ok st'.
Proof.
  unfold sink_ok. intros Hd Hi. by rewrite Hd, !names_identities, Hi.
Qed.

Lemma labels_set_identities (a : nat) (l : gmap string string) (v : Value) (w : World') :
  identities (registry (snd (Gauge_labels_set a l v w))) = identities (registry w).
Proof.
  destruct (registry w !! a) as [g|] eqn:Ha.
  - by destruct (publish_on a g v (Some l) w Ha) as (_ & _ & Hid & _).
  - by rewrite (publish_on_dangling a v (Some l) w Ha).
Qed.

Lemma for_each_publish_sink_ok (ms : list Triple) (st : State') :
  sink_ok st -> sink_ok (snd (for_each ms service.publish st)).
Proof.
  revert st. induction ms as [|m ms IH]; intros st Hok; [done|].
  cbn [for_each]. unfold bind.
  pose proof (publish_sink_ok m st Hok) as Hok'.
  destruct (service.publish m st) as [[e|[]] st']; cbn [snd] in *; [done|].
  by apply IH.
Qed.

Lemma publish_results_sink_ok (st : State') :
  sink_ok st -> sink_ok (snd (service.publish_results st)).
Proof.
  intros Hok. unfold service.publish_results.
  cbv beta iota delta [bind self gets world]. cbn [fst snd].
  set (r := Gauge_labels_set _ _ _ _).
  assert (Hok' : sink_ok (fst st, snd r)).
  { eapply sink_ok_ext; [| |exact Hok]; [done|].
    subst r. cbn [snd]. apply labels_set_identities. }
  destruct (fst r) as [e|[]]; cbn [fst snd]; [done|].
  by apply for_each_publish_sink_ok.
Qed.

(** Every call of [iterate] keeps the sink in agreement with the
    registry. *)
Lemma iterate_sink_ok (st : State') (new_rows : pandas.DataFrame Scalar) :
  sink_ok st -> sink_ok (snd (service.iterate new_rows st)).
Proof.
  destruct st as [s w]. intros Hok.
  destruct (iterate_paths s new_rows) as [H|[H|H]].
  - rewrite iterate_warmup by done. by eapply sink_ok_ext; [| |exact Hok].
  - rewrite iterate_trim by done. unfold bind, monitoring_execute. cbn [fst snd].
    destruct (execute _ _ _ _) as [e|m]; cbn [fst snd].
    + by eapply sink_ok_ext; [| |exact Hok].
    + apply publish_results_sink_ok. by eapply sink_ok_ext; [| |exact Hok].
  - rewrite iterate_negative by done. by eapply sink_ok_ext; [| |exact Hok].
Qed.

(** The service that [__init__] returns has its sink in agreement with the
    registry, when the registry it started from had no two gauges of one
    name and no gauge named [evidently:...]. *)
Lemma init_sink_ok (reference : pandas.DataFrame Scalar)
    (options : MonitoringServiceOptions) (cm : ColumnMapping) (w0 w1 : World')
    (s0 : MonitoringService Scalar Value) :
  service.__init__ reference options cm w0 = (inr s0, w1) ->
  NoDup (prometheus.name <$> registry w0) ->
  (forall nm : string, "evidently:" +:+ nm ∉ prometheus.name <$> registry w0) ->
  sink_ok (s0, w1).
Proof.
  cbv beta iota delta [service.__init__ bind lift Gauge_new gets put_registry
    modify ret].
  unfold prometheus.new_Gauge.
  intros H Hnd Hnone. repeat (case_match; simplify_eq/=).
  all: unfold sink_ok; cbn [fst snd registry self_metrics]; rewrite fmap_app.
  all: split;
    [ apply NoDup_app; split_and!; [done| |apply NoDup_singleton];
      intros x Hx ->%list_elem_of_singleton; done
    | intros nm [Hin|Hin%list_elem_of_singleton]%elem_of_app;
      [ by destruct (Hnone nm)
      | left; cbn in Hin;
        change "evidently:reference_dataset_hash"
          with ("evidently:" +:+ "reference_dataset_hash") in Hin;
        by simplify_eq ] ].
Qed.

End SinkInvariant.

(** ** The label names of a new gauge *)

Section SortedKeys.

Lemma insert_sorted_perm (x : string) (l : list string) : insert_sorted x l ≡ₚ x :: l.
Proof.
  induction l as [|y l IH]; [done|]. cbn. case_match; [done|].
  rewrite IH. apply Permutation_swap.
Qed.

Lemma sorted_perm (l : list string) : sorted l ≡ₚ l.
Proof.
  induction l as [|x l IH]; [done|]. unfold sorted in *. cbn [foldr].
  by rewrite insert_sorted_perm, IH.
Qed.

Lemma elem_of_dict_keys (l : gmap string string) (k : string) :
  k ∈ dict_keys l <-> is_Some (l !! k).
Proof.
  unfold dict_keys. rewrite list_elem_of_fmap. split.
  - intros ([k' v] & -> & Hin). apply elem_of_map_to_list in Hin. eauto.
  - intros [v Hv]. exists (k, v). split; [done|]. by apply elem_of_map_to_list.
Qed.





End SortedKeys.

Section Claim9.
Context {Scalar Value : Type} `{E : Engine Scalar Value}.
Local Abbreviation State' := (State Scalar Value).
Local Abbreviation Triple := (string * Value * option (gmap string string))%type.


End Claim9.


(** * Further properties *)

Section WindowOverCalls.
Context {Scalar Value : Type} `{E : Engine Scalar Value}.
Local Abbreviation DataFrame := (pandas.DataFrame Scalar).
Local Abbreviation Service := (MonitoringService Scalar Value).
Local Abbreviation World' := (World Scalar Value).

(** The window a call leaves, on the warm-up path and on the evaluation
    path alike. *)
Lemma iterate_current (s : Service) (w : World') (new_rows : DataFrame) :
  0 <= window_size (self_options s) ->
  let cur' := self_current (fst (snd (service.iterate new_rows (s, w)))) in
  let appended := pandas.append (self_current s) new_rows in
  pandas.columns cur' = pandas.columns appended /\
  pandas.values cur' =
    skipn (Z.to_nat (size_after s new_rows - window_size (self_options s)))
          (pandas.values appended).
Proof.
  intros Hws cur' appended. subst cur'.
  destruct (iterate_paths s new_rows) as [H|[H|H]]; [| |lia].
  - rewrite iterate_warmup by done. cbn [fst snd]. unfold after_append.
    cbn [self_current with_current with_new_rows].
    replace (Z.to_nat _) with 0%nat by lia. done.
  - destruct (iterate_eval_core s w new_rows H) as (Hc & _). rewrite Hc.
    unfold after_trim, after_append.
    cbn [self_current with_current with_new_rows self_options].
    rewrite last_rows_values, append_shape0. done.
Qed.

Lemma skipn_skipn_app {A : Type} (n k : nat) (l b : list A) :
  (k <= length l)%nat ->
  skipn n (skipn k l ++ b) = skipn (n + k) (l ++ b).
Proof.
  intros Hk. rewrite <- (drop_app_le l b k) by done.
  rewrite drop_drop. f_equal. lia.
Qed.

Lemma window_over_calls (s : Service) (w : World') (batches : list DataFrame) :
  0 <= window_size (self_options s) ->
  pandas.well_formed (self_current s) ->
  pandas.shape0 (self_current s) <= window_size (self_options s) ->
  Forall (fun b => pandas.columns b = pandas.columns (self_current s) /\
                   pandas.well_formed b) batches ->
  let received := pandas.values (self_current s) ++ concat (pandas.values <$> batches) in
  let cur' := self_current (fst (calls service.iterate batches (s, w))) in
  pandas.columns cur' = pandas.columns (self_current s) /\
  pandas.well_formed cur' /\
  pandas.values cur' =
    skipn (length received - Z.to_nat (window_size (self_options s))) received.
Proof.
  intros Hws Hwf Hsize Hall. cbv zeta.
  induction batches as [|b bs IH] using rev_ind.
  - cbn. rewrite app_nil_r. split_and!; [done..|].
    replace (_ - _)%nat with 0%nat; [done|].
    unfold pandas.shape0, pandas.values in *. rewrite length_map. lia.
  - apply Forall_app in Hall as [Hbs Hb]. apply Forall_singleton in Hb as [Hcb Hwb].
    destruct (IH Hbs) as (Hc & Hwf' & Hv). clear IH.
    rewrite calls_snoc.
    pose proof (calls_options (s, w) bs) as Ho. cbn [fst] in Ho.
    destruct (calls service.iterate bs (s, w)) as [s1 w1] eqn:Hst.
    cbn [fst] in *.
    destruct (iterate_current s1 w1 b) as (Hc1 & Hv1); [by rewrite Ho|].
    destruct (append_values_same_schema (self_current s1) b) as (Hca & Hva);
      [congruence|done..|].
    rewrite Hca in Hc1. rewrite Hva, Hv in Hv1. rewrite Ho in Hv1.
    split_and!.
    + congruence.
    + destruct Hwf' as [Hnd Hlen], Hwb as [_ Hlenb].
      split; [by rewrite Hc1|]. rewrite Hc1, Hv1.
      apply Forall_drop, Forall_app. split; [by rewrite <- Hv|].
      by rewrite Hc, <- Hcb.
    + rewrite Hv1. rewrite fmap_app, concat_app. cbn [fmap list_fmap concat].
      rewrite app_nil_r, app_assoc.
      set (A := pandas.values (self_current s) ++ concat (pandas.values <$> bs)) in *.
      rewrite skipn_skipn_app by lia. f_equal.
      unfold size_after, pandas.shape0.
      assert (length (pandas.rows (self_current s1)) =
              length (skipn (length A - Z.to_nat (window_size (self_options s))) A))
        as ->.
      { rewrite <- Hv. unfold pandas.values. by rewrite length_map. }
      assert (length (pandas.rows b) = length (pandas.values b)) as ->.
      { unfold pandas.values. by rewrite length_map. }
      rewrite length_skipn, length_app. lia.
Qed.


(** ** Construction, step by step *)

(** [__init__] is the lookup of the monitor classes, then the two slices,
    then the registration of the hash gauge. *)
Lemma init_unfold (reference : DataFrame) (options : MonitoringServiceOptions)
    (cm : ColumnMapping) (w0 : World') :
  service.__init__ reference options cm w0 =
  match service.monitor_classes (monitors options) with
  | inl e => (inl e, w0)
  | inr classes =>
    let ref :=
      if use_reference options
      then pandas.iloc_to reference (- window_size options)
      else reference in
    let cur :=
      if use_reference options
      then pandas.iloc_from reference (- window_size options)
      else pandas.dropna (pandas.reindex_like pandas.empty reference) in
    match Gauge_new "evidently:reference_dataset_hash" ["hash"] w0 with
    | (inl e, w1) => (inl e, w1)
    | (inr a, w1) =>
      (inr (mkService (Build_ModelMonitoring classes) ref cur cm options ∅ 0
                      (fingerprint ref) a), w1)
    end
  end.
Proof.
  unfold service.__init__, bind at 1, lift.
  destruct (service.monitor_classes _) as [e|classes]; [done|].
  unfold bind, ret, pandas.copy.
  by destruct (Gauge_new _ _ w0) as [[e|a] w1].
Qed.

(** A slice bound [-ws] with [0 < ws]: the position [n - ws], or the
    start when the frame is shorter than [ws]. *)
Lemma slice_bound_neg (n : nat) (ws : Z) :
  0 < ws -> pandas.slice_bound n (- ws) = (n - Z.to_nat ws)%nat.
Proof.
  intros H. unfold pandas.slice_bound.
  destruct (Z.ltb_spec (- ws) 0); lia.
Qed.

(** The window [__init__] leaves, for a positive window size. *)
Lemma init_window (reference : DataFrame) (options : MonitoringServiceOptions)
    (cm : ColumnMapping) (w0 w1 : World') (s0 : Service) :
  service.__init__ reference options cm w0 = (inr s0, w1) ->
  0 < window_size options ->
  (use_reference options = false -> pandas.columns reference <> []) ->
  let seed := if use_reference options then pandas.values reference else [] in
  pandas.columns (self_current s0) = pandas.columns reference /\
  pandas.values (self_current s0) =
    skipn (length seed - Z.to_nat (window_size options)) seed.
Proof.
  intros Hinit Hws Hcols. rewrite init_unfold in Hinit.
  destruct (service.monitor_classes _) as [e|classes]; [done|]. cbv zeta in Hinit.
  destruct (Gauge_new _ _ w0) as [[e|a] w1']; simplify_eq. cbn [self_current].
  destruct (use_reference options); cbv zeta.
  - unfold pandas.iloc_from, pandas.values. cbn [pandas.columns pandas.rows].
    rewrite slice_bound_neg, length_map by done. split; [done|]. by rewrite fmap_drop.
  - split; [done|]. unfold pandas.values.
    by rewrite dropna_reindex_like_empty by auto.
Qed.

(** X1.  The window is always the latest rows.  From construction with a
    positive window size, after any sequence of calls whose batches have
    the dataset's columns, the window holds the last [window_size] rows
    of everything received so far, in the order of arrival (all of it
    while there are fewer): the rows of the historical dataset when the
    window was seeded from it, followed by the batches.  This holds
    whether or not the engine or a gauge raised in one of the calls. *)
Theorem X1_window_is_latest_rows (reference : DataFrame)
    (options : MonitoringServiceOptions) (cm : ColumnMapping) (w0 w1 : World')
    (s0 : Service) (batches : list DataFrame) :
  service.__init__ reference options cm w0 = (inr s0, w1) ->
  0 < window_size options ->
  pandas.well_formed reference ->
  (use_reference options = false -> pandas.columns reference <> []) ->
  Forall (fun b => pandas.columns b = pandas.columns reference /\
                   pandas.well_formed b) batches ->
  let seed := if use_reference options then pandas.values reference else [] in
  let received := seed ++ concat (pandas.values <$> batches) in
  let window := self_current (fst (calls service.iterate batches (s0, w1))) in
  pandas.columns window = pandas.columns reference /\
  pandas.values window =
    skipn (length received - Z.to_nat (window_size options)) received.
Proof.
  intros Hinit Hws [Hnd Hlen] Hcols Hall seed received window.
  destruct (init_window _ _ _ _ _ _ Hinit Hws Hcols) as (Hc0 & Hv0). fold seed in Hv0.
  apply init_options in Hinit as (Hopt & _).
  assert (Hseed : Forall (fun r => length r = length (pandas.columns reference)) seed).
  { subst seed. by destruct (use_reference options). }
  assert (Hlen0 : length (pandas.values (self_current s0)) =
                  length (pandas.rows (self_current s0))).
  { unfold pandas.values. by rewrite length_map. }
  destruct (window_over_calls s0 w1 batches) as (Hc & _ & Hv).
  - rewrite Hopt. lia.
  - split; rewrite Hc0; [done|]. rewrite Hv0. by apply Forall_drop.
  - unfold pandas.shape0. rewrite <- Hlen0, Hv0, length_skipn, Hopt. lia.
  - by rewrite Hc0.
  - subst window. split; [congruence|]. rewrite Hv, Hv0, Hopt.
    rewrite skipn_skipn_app by lia. subst received. f_equal.
    rewrite !length_app, length_skipn. lia.
Qed.

(** ** A negative window size *)


Lemma total_rows_snoc (batches : list DataFrame) (b : DataFrame) :
  total_rows (batches ++ [b]) = total_rows batches + pandas.shape0 b.
Proof.
  unfold total_rows. induction batches as [|x xs IH]; cbn; [lia|].
  cbn in IH. rewrite IH. lia.
Qed.

(** X4.  With a negative window size no call ever gets past the trim:
    every call raises [KeyError] from [drop], having appended and counted
    its batch; the engine is never invoked, nothing is logged, no gauge is
    touched, and the window grows without bound. *)
Theorem X4_negative_window_size_raises (s : Service) (w : World')
    (batches : list DataFrame) (new_rows : DataFrame) :
  window_size (self_options s) < 0 ->
  let st := calls service.iterate batches (s, w) in
  snd st = w /\
  pandas.shape0 (self_current (fst st)) =
    pandas.shape0 (self_current s) + total_rows batches /\
  self_new_rows (fst st) = self_new_rows s + total_rows batches /\
  fst (service.iterate new_rows st) = inl (KeyError "labels not found in axis") /\
  snd (snd (service.iterate new_rows st)) = w.
Proof.
  intros Hneg st.
  assert (Hst : snd st = w /\
    pandas.shape0 (self_current (fst st)) =
      pandas.shape0 (self_current s) + total_rows batches /\
    self_new_rows (fst st) = self_new_rows s + total_rows batches).
  { subst st. induction batches as [|b bs IH] using rev_ind.
    - unfold total_rows. cbn. split_and!; [done|lia..].
    - rewrite calls_snoc, total_rows_snoc.
      pose proof (calls_options (s, w) bs) as Ho. cbn [fst] in Ho.
      destruct (calls service.iterate bs (s, w)) as [s1 w1]. cbn [fst snd] in *.
      destruct IH as (-> & Hsz & Hn).
      rewrite iterate_negative by (rewrite Ho; done). cbn [fst snd].
      unfold after_append. cbn [self_current self_new_rows with_current with_new_rows].
      rewrite append_shape0. split_and!; [done|lia..]. }
  destruct Hst as (Hw & Hsz & Hn). split_and!; try done.
  - pose proof (calls_options (s, w) batches) as Ho. fold st in Ho.
    destruct st as [s1 w1]. cbn [fst] in *.
    by rewrite iterate_negative by (rewrite Ho; done).
  - pose proof (calls_options (s, w) batches) as Ho. fold st in Ho.
    destruct st as [s1 w1]. cbn [fst snd] in *.
    by rewrite iterate_negative by (rewrite Ho; done).
Qed.

(** ** Seeding, for every window size *)

(** X3.  With [use_reference] the two slices of lines 71-72 split the
    dataset at one position, whatever the window size: the reference rows
    followed by the window rows are the rows of the dataset, labels
    included.  A positive window size puts the last
    [min(window_size, n)] rows in the window; a window size of zero puts
    all rows in the window and none in the reference; a negative window
    size [-k] puts the first [min(k, n)] rows in the reference. *)
Theorem X3_seeding_partitions_dataset (reference : DataFrame)
    (options : MonitoringServiceOptions) (cm : ColumnMapping) (w0 w1 : World')
    (s0 : Service) :
  service.__init__ reference options cm w0 = (inr s0, w1) ->
  use_reference options = true ->
  let n := pandas.shape0 reference in
  let ws := window_size options in
  pandas.rows (self_reference s0) ++ pandas.rows (self_current s0) =
    pandas.rows reference /\
  (0 < ws -> pandas.shape0 (self_current s0) = Z.min ws n) /\
  (ws = 0 -> pandas.rows (self_reference s0) = [] /\
             pandas.rows (self_current s0) = pandas.rows reference) /\
  (ws < 0 -> pandas.shape0 (self_reference s0) = Z.min (- ws) n).
Proof.
  intros Hinit Huse n ws. rewrite init_unfold in Hinit.
  destruct (service.monitor_classes _) as [e|classes]; [done|]. cbv zeta in Hinit.
  destruct (Gauge_new _ _ w0) as [[e|a] w1']; simplify_eq.
  cbn [self_current self_reference]. rewrite Huse.
  unfold pandas.iloc_to, pandas.iloc_from, pandas.shape0. cbn [pandas.rows].
  subst n ws. unfold pandas.shape0.
  split_and!.
  - apply firstn_skipn.
  - intros Hws. rewrite slice_bound_neg, length_skipn by done. lia.
  - intros ->. unfold pandas.slice_bound. change (- 0 <? 0) with false. cbv iota.
    change (- 0) with 0. rewrite Z.max_id, Z.min_r by lia. done.
  - intros Hws. rewrite length_firstn. unfold pandas.slice_bound.
    destruct (Z.ltb_spec (- window_size options) 0); lia.
Qed.

(** ** What the engine is given *)

Lemma iterate_column_mapping (st : State Scalar Value) (new_rows : DataFrame) :
  self_column_mapping (fst (snd (service.iterate new_rows st))) =
  self_column_mapping (fst st).
Proof.
  destruct st as [s w]. cbn [fst].
  destruct (iterate_paths s new_rows) as [H|[H|H]].
  - by rewrite iterate_warmup.
  - by destruct (iterate_eval_core s w new_rows H) as (_ & _ & _ & _ & Hm & _).
  - by rewrite iterate_negative.
Qed.

Lemma calls_column_mapping (st : State Scalar Value) (batches : list DataFrame) :
  self_column_mapping (fst (calls service.iterate batches st)) =
  self_column_mapping (fst st).
Proof.
  induction batches as [|b bs IH] using rev_ind; [done|].
  by rewrite calls_snoc, iterate_column_mapping.
Qed.

(** X2.  Over any sequence of calls (window size not negative), every
    invocation of the engine gets the reference and the column mapping of
    the service object and a window of exactly [window_size] rows; a call
    invokes the engine at most once; and once the window holds
    [window_size] rows every call invokes it, whatever
    [calculation_period_sec] says. *)
Theorem X2_engine_invocations (s : Service) (w : World') (batches : list DataFrame) :
  0 <= window_size (self_options s) ->
  let st := calls service.iterate batches (s, w) in
  exists invocations,
    executed (snd st) = executed w ++ invocations /\
    Forall (fun i => i.1.1 = self_reference s /\ i.2 = self_column_mapping s /\
                     pandas.shape0 i.1.2 = window_size (self_options s)) invocations /\
    (length invocations <= length batches)%nat /\
    (window_size (self_options s) <= pandas.shape0 (self_current s) ->
     length invocations = length batches).
Proof.
  intros Hws. cbv zeta.
  enough (exists invocations,
    executed (snd (calls service.iterate batches (s, w))) = executed w ++ invocations /\
    Forall (fun i => i.1.1 = self_reference s /\ i.2 = self_column_mapping s /\
                     pandas.shape0 i.1.2 = window_size (self_options s)) invocations /\
    (length invocations <= length batches)%nat /\
    (window_size (self_options s) <= pandas.shape0 (self_current s) ->
     length invocations = length batches /\
     window_size (self_options s) <=
       pandas.shape0 (self_current (fst (calls service.iterate batches (s, w))))))
    as (inv & ? & ? & ? & Hfull).
  { exists inv. split_and!; try done. intros Hge. by destruct (Hfull Hge). }
  induction batches as [|b bs IH] using rev_ind.
  - exists []. cbn. rewrite app_nil_r. split_and!; done.
  - destruct IH as (inv & Hx & Hall & Hle & Hfull).
    rewrite calls_snoc.
    pose proof (calls_options (s, w) bs) as Ho.
    pose proof (calls_reference (s, w) bs) as Hr.
    pose proof (calls_column_mapping (s, w) bs) as Hm.
    destruct (calls service.iterate bs (s, w)) as [s1 w1]. cbn [fst snd] in *.
    destruct (iterate_paths s1 b) as [H|[H|H]]; rewrite Ho in H; [| |lia].
    + rewrite iterate_warmup by (by rewrite Ho). cbn [snd executed]. exists inv.
      rewrite length_app. cbn. split_and!; [done|done|lia|].
      intros Hge. destruct (Hfull Hge) as [_ Hsz].
      unfold size_after, pandas.shape0 in *. lia.
    + destruct (iterate_eval_core s1 w1 b) as (Hc & _ & _ & _ & _ & _ & Hx');
        [by rewrite Ho|].
      assert (Hsz : pandas.shape0 (self_current (after_trim s1 b)) =
                    window_size (self_options s)).
      { unfold after_trim. cbn [self_current with_current with_new_rows].
        rewrite Ho. apply last_rows_length.
        unfold after_append. cbn [self_current with_current with_new_rows].
        by rewrite append_shape0. }
      rewrite Hx', Hc. unfold with_call. cbn [executed].
      exists (inv ++ [(self_reference (after_trim s1 b), self_current (after_trim s1 b),
                       self_column_mapping (after_trim s1 b))]).
      rewrite Hx, app_assoc, !length_app. cbn [length]. split_and!; [done| |lia|].
      * apply Forall_app. split; [done|]. apply Forall_singleton. cbn [fst snd].
        split_and!; done.
      * intros Hge. destruct (Hfull Hge) as [-> _]. split; lia.
Qed.

End WindowOverCalls.

Section SinkWrites.
Context {Scalar Value : Type} `{E : Engine Scalar Value}.
Local Abbreviation Gauge := (prometheus.Gauge Value).
Local Abbreviation World' := (World Scalar Value).
Local Abbreviation State' := (State Scalar Value).
Local Abbreviation Triple := (string * Value * option (gmap string string))%type.

Ltac run_world :=
  cbv beta iota delta [bind gets modify lift ret raise Gauge_new Gauge_set
    Gauge_labels_set deref store put_registry].

Lemma insert_sorted_not_nil (x : string) (l : list string) : insert_sorted x l <> [].
Proof. destruct l; cbn; [done|]. by case_match. Qed.

Lemma sorted_nil_inv (l : list string) : sorted l = [] -> l = [].
Proof.
  destruct l as [|x l]; [done|]. unfold sorted. cbn [foldr].
  intros H. by apply insert_sorted_not_nil in H.
Qed.


Lemma fits_cases (g : Gauge) (labels : option (gmap string string)) :
  fits g labels \/ ~ fits g labels.
Proof.
  destruct labels as [l|]; unfold fits.
  - destruct (decide (prometheus.labelnames g = [])) as [Hn|Hn]; [right; tauto|].
    destruct (decide (sorted (dict_keys l) = sorted (prometheus.labelnames g)));
      [left|right]; tauto.
  - destruct (decide (prometheus.labelnames g = [])); [by left|by right].
Qed.

(** A write to the gauge at [a] goes through exactly when the labels fit
    the gauge; otherwise it raises [ValueError] and the world is as it
    was. *)
Lemma write_fits (a : nat) (g : Gauge) (value : Value)
    (labels : option (gmap string string)) (w : World') :
  registry w !! a = Some g ->
  let r := match labels with
           | None => Gauge_set a value w
           | Some l => Gauge_labels_set a l value w
           end in
  (fits g labels -> r = (inr tt, with_gauge w a (published g value labels))) /\
  (~ fits g labels -> exists msg, r = (inl (ValueError msg), w)).
Proof.
  intros Ha. destruct labels as [l|]; cbv zeta; run_world; rewrite Ha;
    unfold fits, with_gauge.
  - unfold prometheus.labels.
    destruct (prometheus.labelnames g) as [|n ns] eqn:Hl; cbn [fst snd].
    { split; [by intros [? _]|eauto]. }
    case_decide as Hempty; cbn [fst snd registry logged executed].
    { split; [|eauto]. intros [_ Hs]. subst l.
      symmetry in Hs. by apply sorted_nil_inv in Hs. }
    case_decide as Hk; cbn [fst snd registry logged executed].
    + split; [|intros Hn; exfalso; by apply Hn].
      intros _. rewrite list_insert_insert_eq. do 2 f_equal.
      unfold published, label_values. rewrite Hl.
      unfold prometheus.set_child. case_match; cbn;
        [reflexivity|by rewrite insert_insert_eq, Hl].
    + split; [by intros [_ ?]|eauto].
  - unfold prometheus.set.
    destruct (prometheus.labelnames g) as [|n ns] eqn:Hl;
      cbn [fst snd registry logged executed].
    + split; [|done]. intros _. do 2 f_equal. unfold published. by rewrite Hl.
    + split; [done|eauto].
Qed.



(** ** Construction: when it succeeds *)

Lemma known_monitor_lookup (k : string) :
  known_monitor k <-> is_Some (monitor_mapping !! k).
Proof.
  unfold known_monitor, monitor_mapping.
  split.
  - intros [-> | [-> | ->]]; vm_compute; eauto.
  - intros [c Hc].
    apply lookup_insert_Some in Hc as [[<- _] | [_ Hc]]; [by left|].
    apply lookup_insert_Some in Hc as [[<- _] | [_ Hc]]; [by right; left|].
    apply lookup_singleton_Some in Hc as [<- _]. by right; right.
Qed.

Lemma first_unknown_monitor (names : list string) :
  Forall known_monitor names \/
  exists pre k post, names = pre ++ k :: post /\
                     Forall known_monitor pre /\ ~ known_monitor k.
Proof.
  induction names as [|k ks IH]; [by left|].
  destruct (known_monitor_lookup k) as [H1 H2].
  destruct (monitor_mapping !! k) as [c|] eqn:Hk.
  - destruct IH as [IH|(pre & k' & post & -> & Hpre & Hk')].
    + left. constructor; eauto.
    + right. exists (k :: pre), k', post. split_and!; [done| |done].
      constructor; eauto.
  - right. exists [], k, ks. split_and!; [done|done|].
    intros [c Hc]%H1. congruence.
Qed.

Lemma monitor_classes_known (names : list string) :
  Forall known_monitor names -> exists cs, service.monitor_classes names = inr cs.
Proof.
  induction 1 as [|k ks Hk _ [cs IH]]; [by exists []|].
  apply known_monitor_lookup in Hk as [c Hc]. cbn [service.monitor_classes].
  rewrite Hc, IH. eauto.
Qed.

Lemma monitor_classes_unknown (pre post : list string) (k : string) :
  Forall known_monitor pre -> ~ known_monitor k ->
  service.monitor_classes (pre ++ k :: post) = inl (KeyError k).
Proof.
  intros Hpre Hk. induction Hpre as [|k' ks Hk' _ IH]; cbn [app service.monitor_classes].
  - destruct (monitor_mapping !! k) eqn:Hl; [|done].
    exfalso. apply Hk, known_monitor_lookup. eauto.
  - apply known_monitor_lookup in Hk' as [c ->]. by rewrite IH.
Qed.

(** X5.  [__init__] succeeds exactly when every monitor name of the
    options is a key of [monitor_mapping] and the hash gauge can be
    registered.  It then registers that one gauge, with the label name
    [hash], and does nothing else to the world.  The first unknown
    monitor name raises [KeyError] with that name before anything is
    registered; a registry that refuses the hash gauge makes it raise as
    well, and the world is as it was. *)
Theorem X5_init_outcome (reference : pandas.DataFrame Scalar)
    (options : MonitoringServiceOptions) (cm : ColumnMapping) (w0 : World') :
  let r := service.__init__ reference options cm w0 in
  let hash_name := "evidently:reference_dataset_hash" in
  (Forall known_monitor (monitors options) -> creatable hash_name ["hash"] w0 ->
     exists s0, r = (inr s0, mkWorld (logged w0)
                               (registry w0 ++ [fresh_gauge hash_name ["hash"]])
                               (executed w0)) /\
                self_hash_metric s0 = length (registry w0)) /\
  (forall pre k post, monitors options = pre ++ k :: post ->
     Forall known_monitor pre -> ~ known_monitor k ->
     r = (inl (KeyError k), w0)) /\
  (~ creatable hash_name ["hash"] w0 -> exists e, r = (inl e, w0)) /\
  ((exists s0 w1, r = (inr s0, w1)) <->
   Forall known_monitor (monitors options) /\ creatable hash_name ["hash"] w0).
Proof.
  intros r hash_name.
  assert (Hyes : Forall known_monitor (monitors options) ->
    creatable hash_name ["hash"] w0 ->
    exists s0, r = (inr s0, mkWorld (logged w0)
                              (registry w0 ++ [fresh_gauge hash_name ["hash"]])
                              (executed w0)) /\
               self_hash_metric s0 = length (registry w0)).
  { intros Hk Hc. subst r. rewrite init_unfold.
    destruct (monitor_classes_known _ Hk) as [cs ->]. cbv zeta.
    fold hash_name. rewrite Gauge_new_fresh by done. eauto. }
  assert (Hno : ~ creatable hash_name ["hash"] w0 -> exists e, r = (inl e, w0)).
  { intros Hc. subst r. rewrite init_unfold.
    destruct (service.monitor_classes _) as [e|cs]; [eauto|]. cbv zeta.
    fold hash_name.
    destruct (Gauge_new_cases hash_name ["hash"] w0) as [?|[e ->]]; [done|eauto]. }
  assert (Hkey : forall pre k post, monitors options = pre ++ k :: post ->
     Forall known_monitor pre -> ~ known_monitor k -> r = (inl (KeyError k), w0)).
  { intros pre k post Hm Hpre Hk. subst r.
    by rewrite init_unfold, Hm, monitor_classes_unknown. }
  split_and!; [done..|]. split.
  - intros (s0 & w1 & Hr). split.
    + destruct (first_unknown_monitor (monitors options))
        as [|(pre & k & post & Hm & Hpre & Hk)]; [done|].
      rewrite (Hkey _ _ _ Hm Hpre Hk) in Hr. done.
    + destruct (Gauge_new_cases hash_name ["hash"] w0) as [?|[e He]]; [done|].
      destruct (decide (creatable hash_name ["hash"] w0)) as [|Hn]; [done|].
      destruct (Hno Hn) as [e' He']. rewrite He' in Hr. done.
  - intros [Hk Hc]. destruct (Hyes Hk Hc) as (s0 & Hr & _). eauto.
Qed.


(** ** Gauges are never removed *)

Lemma for_each_publish_grows (ms : list Triple) (st : State') :
  self_metrics (fst st) ⊆ self_metrics (fst (snd (for_each ms service.publish st))) /\
  identities (registry (snd st)) `prefix_of`
    identities (registry (snd (snd (for_each ms service.publish st)))).
Proof.
  revert st. induction ms as [|m ms IH]; intros st; [done|].
  cbn [for_each]. unfold bind.
  destruct (publish_grows m st) as [Hd Hi].
  destruct (service.publish m st) as [[e|[]] st']; cbn [fst snd] in *; [done|].
  destruct (IH st') as [Hd' Hi']. split; etrans; done.
Qed.

Lemma publish_results_grows (st : State') :
  self_metrics (fst st) ⊆ self_metrics (fst (snd (service.publish_results st))) /\
  identities (registry (snd st)) `prefix_of`
    identities (registry (snd (snd (service.publish_results st)))).
Proof.
  unfold service.publish_results.
  cbv beta iota delta [bind self gets world]. cbn [fst snd].
  set (r := Gauge_labels_set _ _ _ _).
  assert (Hid : identities (registry (snd r)) = identities (registry (snd st))).
  { subst r. apply labels_set_identities. }
  destruct (fst r) as [e|[]]; cbn [fst snd]; [by rewrite Hid|].
  destruct (for_each_publish_grows (metrics (self_monitoring (fst st))) (fst st, snd r))
    as [Hd Hi]. cbn [fst snd] in *. by rewrite <- Hid.
Qed.

Lemma iterate_grows (st : State') (new_rows : pandas.DataFrame Scalar) :
  self_metrics (fst st) ⊆ self_metrics (fst (snd (service.iterate new_rows st))) /\
  identities (registry (snd st)) `prefix_of`
    identities (registry (snd (snd (service.iterate new_rows st)))).
Proof.
  destruct st as [s w]. cbn [fst snd].
  destruct (iterate_paths s new_rows) as [H|[H|H]].
  - by rewrite iterate_warmup.
  - rewrite iterate_trim by done. unfold bind, monitoring_execute. cbn [fst snd].
    destruct (execute _ _ _ _) as [e|m]; cbn [fst snd]; [done|].
    unfold set_monitoring, modify. cbn [fst snd].
    match goal with |- context [service.publish_results ?st] =>
      destruct (publish_results_grows st) as [Hd Hi] end.
    done.
  - by rewrite iterate_negative.
Qed.

Lemma calls_iterate_grows (st : State') (batches : list (pandas.DataFrame Scalar)) :
  self_metrics (fst st) ⊆ self_metrics (fst (calls service.iterate batches st)) /\
  identities (registry (snd st)) `prefix_of`
    identities (registry (snd (calls service.iterate batches st))).
Proof.
  induction batches as [|b bs [IHd IHi]] using rev_ind; [done|].
  rewrite calls_snoc.
  destruct (iterate_grows (calls service.iterate bs st) b) as [Hd Hi].
  split; etrans; done.
Qed.

Lemma Gauge_new_duplicate (nm : string) (lnames : list string) (w : World') :
  valid_metric_name nm = true -> forallb valid_label_name lnames = true ->
  nm ∈ prometheus.name <$> registry w ->
  Gauge_new nm lnames w =
  (inl (ValueError "Duplicated timeseries in CollectorRegistry"), w).
Proof.
  intros Hnm Hl Hin. run_world. unfold prometheus.new_Gauge.
  by rewrite Hnm, Hl, decide_True.
Qed.

(** X6.  One service per process.  Once [__init__] has succeeded, the hash
    gauge stays registered through every later call of [iterate], so a
    second construction in the same process, with monitor names that are
    all known, raises [ValueError] (duplicated timeseries) at line 82 and
    leaves the world as it was. *)
Theorem X6_second_construction_is_refused (reference : pandas.DataFrame Scalar)
    (options : MonitoringServiceOptions) (cm : ColumnMapping) (w0 w1 : World')
    (s0 : MonitoringService Scalar Value) (batches : list (pandas.DataFrame Scalar))
    (reference' : pandas.DataFrame Scalar) (options' : MonitoringServiceOptions)
    (cm' : ColumnMapping) :
  service.__init__ reference options cm w0 = (inr s0, w1) ->
  Forall known_monitor (monitors options') ->
  let w := snd (calls service.iterate batches (s0, w1)) in
  service.__init__ reference' options' cm' w =
  (inl (ValueError "Duplicated timeseries in CollectorRegistry"), w).
Proof.
  intros Hinit Hk w.
  assert (Hreg : valid_metric_name "evidently:reference_dataset_hash" = true /\
                 "evidently:reference_dataset_hash" ∈ prometheus.name <$> registry w1).
  { rewrite init_unfold in Hinit.
    destruct (service.monitor_classes _) as [e|cs]; [done|]. cbv zeta in Hinit.
    destruct (Gauge_new_cases "evidently:reference_dataset_hash" ["hash"] w0)
      as [Hc|[e He]]; [|by rewrite He in Hinit].
    rewrite Gauge_new_fresh in Hinit by done. simplify_eq. cbn [registry].
    split; [by destruct Hc|]. rewrite fmap_app. apply elem_of_app. right.
    cbn. by left. }
  destruct Hreg as [Hvalid Hin].
  assert (Hin' : "evidently:reference_dataset_hash" ∈ prometheus.name <$> registry w).
  { destruct (calls_iterate_grows (s0, w1) batches) as [_ Hp]. cbn [snd] in Hp.
    fold w in Hp. rewrite !names_identities.
    destruct Hp as [k ->]. rewrite fmap_app. apply elem_of_app. left.
    by rewrite <- names_identities. }
  rewrite init_unfold. destruct (monitor_classes_known _ Hk) as [cs ->]. cbv zeta.
  assert (Hl : forallb valid_label_name ["hash"] = true).
  { rewrite init_unfold in Hinit.
    destruct (service.monitor_classes _) as [e|cs0]; [done|]. cbv zeta in Hinit.
    destruct (Gauge_new_cases "evidently:reference_dataset_hash" ["hash"] w0)
      as [Hc|[e He]]; [|by rewrite He in Hinit]. by destruct Hc as (_ & ? & _). }
  by rewrite Gauge_new_duplicate.
Qed.

End SinkWrites.

Section Linked.
Context {Scalar Value : Type} `{E : Engine Scalar Value}.
Local Abbreviation Gauge := (prometheus.Gauge Value).
Local Abbreviation World' := (World Scalar Value).
Local Abbreviation State' := (State Scalar Value).
Local Abbreviation Triple := (string * Value * option (gmap string string))%type.

Lemma linked_ext (st st' : State') :
  self_metrics (fst st') = self_metrics (fst st) ->
  self_hash_metric (fst st') = self_hash_metric (fst st) ->
  identities (registry (snd st')) = identities (registry (snd st)) ->
  linked st -> linked st'.
Proof. unfold linked. by intros -> -> ->. Qed.

Lemma identities_lookup (reg : list Gauge) (a : nat) (key : string) (lnames : list string) :
  identities reg !! a = Some (key, lnames) <->
  exists g, reg !! a = Some g /\ prometheus.name g = key /\
            prometheus.labelnames g = lnames.
Proof.
  unfold identities. rewrite list_lookup_fmap. split.
  - destruct (reg !! a) as [g|]; [|done]. cbn. unfold identity. intros [= <- <-]. eauto.
  - intros (g & -> & <- & <-). done.
Qed.

(** Two entries of the dict with different keys have different
    addresses. *)
Lemma linked_addresses (st : State') (key key' : string) (a a' : nat) :
  linked st ->
  self_metrics (fst st) !! key = Some a -> self_metrics (fst st) !! key' = Some a' ->
  key <> key' -> a <> a'.
Proof.
  intros (_ & Hd & _) Ha Ha' Hne ->.
  destruct (Hd _ _ Ha) as [l Hl], (Hd _ _ Ha') as [l' Hl']. congruence.
Qed.

Lemma linked_hash_address (st : State') (key : string) (a : nat) :
  linked st -> self_metrics (fst st) !! key = Some a -> a <> self_hash_metric (fst st).
Proof.
  intros (_ & Hd & Hh & Hn) Ha ->.
  destruct (Hd _ _ Ha) as [l Hl]. congruence.
Qed.

Lemma publish_hash_metric (m : Triple) (st : State') :
  self_hash_metric (fst (snd (service.publish m st))) = self_hash_metric (fst st).
Proof.
  pose proof (publish_core m st) as Hc. unfold core in Hc. by simplify_eq.
Qed.

(** One publish keeps the dict and the registry linked. *)
Lemma publish_linked (m : Triple) (st : State') :
  linked st -> linked (snd (service.publish m st)).
Proof.
  destruct m as [[metric_name value] labels], st as [s w]. intros Hl.
  destruct (self_metrics s !! ("evidently:" +:+ metric_name)) as [a|] eqn:Hd.
  - destruct (publish_seen metric_name value labels s w a Hd) as (Hs & Hid & _).
    apply (linked_ext (s, w)); [by rewrite Hs..|exact Hid|exact Hl].
  - destruct (Gauge_new_cases ("evidently:" +:+ metric_name) (label_keys labels) w)
      as [Hnew|[e Hnew]]; [|by rewrite (publish_refused _ _ _ _ _ e Hd Hnew)].
    pose proof (publish_hash_metric (metric_name, value, labels) (s, w)) as Hhm.
    destruct (publish_first metric_name value labels s w Hd Hnew) as (Hs & Hid & _).
    destruct Hnew as (_ & _ & Hnin). rewrite names_identities in Hnin.
    destruct Hl as (Hnd & Hdict & Hh & Hn). cbn [fst snd] in *.
    unfold linked. rewrite Hhm, Hs, Hid. cbn [self_metrics with_metrics].
    split_and!.
    + rewrite fmap_app. apply NoDup_app. split_and!; [done| |apply NoDup_singleton].
      intros x Hx ->%list_elem_of_singleton. done.
    + intros key a. rewrite lookup_insert_Some. intros [[<- <-]|[Hne Ha]].
      * exists (label_keys labels).
        assert (Hlen : length (registry w) = length (identities (registry w)))
          by (unfold identities; by rewrite length_fmap).
        rewrite Hlen. apply list_lookup_middle. done.
      * destruct (Hdict _ _ Ha) as [l Hl]. exists l. by apply lookup_app_l_Some.
    + by apply lookup_app_l_Some.
    + rewrite lookup_insert_ne; [done|]. intros Heq. apply Hnin. rewrite Heq.
      apply (list_elem_of_fmap_2' fst)
        with (x := ("evidently:reference_dataset_hash", ["hash"])); [|done].
      by eapply list_elem_of_lookup_2.
Qed.

Lemma for_each_publish_linked (ms : list Triple) (st : State') :
  linked st -> linked (snd (for_each ms service.publish st)).
Proof.
  revert st. induction ms as [|m ms IH]; intros st Hl; [done|].
  cbn [for_each]. unfold bind.
  pose proof (publish_linked m st Hl) as Hl'.
  destruct (service.publish m st) as [[e|[]] st']; cbn [snd] in *; [done|].
  by apply IH.
Qed.


Ltac run_world :=
  cbv beta iota delta [bind gets modify lift ret raise Gauge_new Gauge_set
    Gauge_labels_set deref store put_registry].

(** A write to the gauge at [a] leaves the gauges at the other addresses
    alone. *)
Lemma write_frame (a i : nat) (value : Value) (labels : option (gmap string string))
    (w : World') :
  i <> a ->
  registry (snd match labels with
                | None => Gauge_set a value w
                | Some l => Gauge_labels_set a l value w
                end) !! i = registry w !! i.
Proof.
  intros Hne. destruct (registry w !! a) as [g|] eqn:Ha.
  - destruct (write_fits a g value labels w Ha) as [Hyes Hno].
    destruct (fits_cases g labels) as [Hf|Hf].
    + rewrite (Hyes Hf). cbn [snd with_gauge registry].
      by rewrite list_lookup_insert_ne.
    + by destruct (Hno Hf) as [msg ->].
  - by rewrite publish_on_dangling.
Qed.

(** A publish leaves alone every gauge that is not the one the dict
    holds for its key. *)
Lemma publish_frame (metric_name : string) (value : Value)
    (labels : option (gmap string string)) (s : MonitoringService Scalar Value)
    (w : World') (i : nat) (g : Gauge) :
  (forall a, self_metrics s !! ("evidently:" +:+ metric_name) = Some a -> a <> i) ->
  registry w !! i = Some g ->
  registry (snd (snd (service.publish (metric_name, value, labels) (s, w)))) !! i = Some g.
Proof.
  intros Hne Hi. rewrite publish_unfold.
  destruct (self_metrics s !! _) as [a|] eqn:Hd; cbv zeta; cbn [fst snd].
  - rewrite write_frame; [done|]. intros ->. by eapply Hne.
  - destruct (Gauge_new_cases ("evidently:" +:+ metric_name) (label_keys labels) w)
      as [Hnew|[e ->]]; [|done].
    rewrite Gauge_new_fresh by done. cbn [fst snd].
    assert (Hlt : (i < length (registry w))%nat) by by eapply lookup_lt_Some.
    rewrite write_frame by lia. cbn [registry]. by apply lookup_app_l_Some.
Qed.

Lemma for_each_publish_hash_gauge (ms : list Triple) (st : State') (g : Gauge) :
  linked st ->
  registry (snd st) !! self_hash_metric (fst st) = Some g ->
  registry (snd (snd (for_each ms service.publish st))) !! self_hash_metric (fst st) =
    Some g.
Proof.
  revert st. induction ms as [|m ms IH]; intros st Hl Hg; [done|].
  cbn [for_each]. unfold bind.
  pose proof (publish_linked m st Hl) as Hl'.
  pose proof (publish_hash_metric m st) as Hhm.
  assert (Hg' : registry (snd (snd (service.publish m st))) !! self_hash_metric (fst st) = Some g).
  { destruct m as [[metric_name value] labels], st as [s w]. cbn [fst snd] in *.
    apply publish_frame; [|done]. intros a Ha.
    exact (linked_hash_address (s, w) _ a Hl Ha). }
  destruct (service.publish m st) as [[e|[]] st']; cbn [fst snd] in *; [done|].
  rewrite <- Hhm. apply IH; [done|]. by rewrite Hhm.
Qed.

Lemma dict_keys_singleton (k v : string) : dict_keys {[ k := v ]} = [k].
Proof. unfold dict_keys. by rewrite map_to_list_singleton. Qed.

(** X8.  Every evaluation marks the reference.  In a linked state (the
    state [__init__] returns is one when it started from a registry without
    two gauges of one name, and [iterate] keeps it so: [init_linked],
    [iterate_linked]), when the engine returns, the hash gauge gets the
    sample 1 under the label value [self.hash], the fingerprint taken at
    construction; the sample is there when the call ends, whether or not a
    later publish of the same call raised. *)
Theorem X8_evaluation_sets_hash_gauge (s : MonitoringService Scalar Value) (w : World')
    (new_rows : pandas.DataFrame Scalar) (m : ModelMonitoring) :
  linked (s, w) ->
  0 <= window_size (self_options s) <= size_after s new_rows ->
  execute (self_monitoring s) (self_reference s)
          (self_current (after_trim s new_rows)) (self_column_mapping s) = inr m ->
  let st' := snd (service.iterate new_rows (s, w)) in
  exists g, registry (snd st') !! self_hash_metric s = Some g /\
            identity g = ("evidently:reference_dataset_hash", ["hash"]) /\
            prometheus.children g !! [self_hash s] = Some (float 1).
Proof.
  intros Hl Hws Hm st'. subst st'. rewrite iterate_trim by done.
  unfold bind at 1, monitoring_execute. cbn [fst snd].
  change (self_monitoring (after_trim s new_rows)) with (self_monitoring s).
  change (self_reference (after_trim s new_rows)) with (self_reference s).
  change (self_column_mapping (after_trim s new_rows)) with (self_column_mapping s).
  rewrite Hm. unfold set_monitoring, modify. cbn [fst snd].
  set (s1 := with_monitoring _ m). set (w1 := mkWorld _ _ _).
  assert (Hl1 : linked (s1, w1)) by (by apply (linked_ext (s, w))).
  destruct Hl1 as (_ & _ & Hh & _). cbn [fst snd] in Hh.
  apply identities_lookup in Hh as (g & Hg & Hname & Hlab).
  assert (Hfit : fits g (Some {[ "hash" := self_hash s ]})).
  { unfold fits. rewrite Hlab, dict_keys_singleton. done. }
  destruct (write_fits (self_hash_metric s1) g (float 1)
              (Some {[ "hash" := self_hash s1 ]}) w1 Hg) as [Hyes _].
  unfold service.publish_results.
  cbv beta iota delta [bind self gets world]. cbn [fst snd].
  cbv zeta in Hyes. rewrite (Hyes Hfit). cbn [fst snd].
  set (g1 := published g (float 1) _). set (w2 := with_gauge w1 _ g1).
  assert (Hg1 : registry w2 !! self_hash_metric s1 = Some g1).
  { subst w2. cbn [with_gauge registry]. apply list_lookup_insert_eq.
    by eapply lookup_lt_Some. }
  assert (Hl2 : linked (s1, w2)).
  { apply (linked_ext (s, w)); [done..| |done]. subst w2. cbn [snd with_gauge registry].
    apply identities_insert with g; [done|]. subst g1. unfold published, identity.
    done. }
  exists g1. split_and!.
  - apply (for_each_publish_hash_gauge _ (s1, w2) g1 Hl2 Hg1).
  - subst g1. unfold identity, published. cbn. by rewrite Hname, Hlab.
  - subst g1. unfold published, label_values, prometheus.set_child. cbn.
    rewrite Hlab. cbn. rewrite lookup_singleton_eq. cbn.
    apply lookup_insert_eq.
Qed.


(** What [__init__] returns is linked, when no two gauges of the registry
    it started from have one name. *)
Lemma init_linked (reference : pandas.DataFrame Scalar)
    (options : MonitoringServiceOptions) (cm : ColumnMapping) (w0 w1 : World')
    (s0 : MonitoringService Scalar Value) :
  service.__init__ reference options cm w0 = (inr s0, w1) ->
  NoDup (prometheus.name <$> registry w0) ->
  linked (s0, w1).
Proof.
  intros Hinit Hnd. rewrite init_unfold in Hinit.
  destruct (service.monitor_classes _) as [e|cs]; [done|]. cbv zeta in Hinit.
  destruct (Gauge_new_cases "evidently:reference_dataset_hash" ["hash"] w0)
    as [Hc|[e He]]; [|by rewrite He in Hinit].
  rewrite Gauge_new_fresh in Hinit by done. simplify_eq.
  destruct Hc as (_ & _ & Hnin). rewrite names_identities in Hnin, Hnd.
  unfold linked. cbn [fst snd registry self_metrics self_hash_metric].
  unfold identities at 1 2 3. rewrite !fmap_app. fold (identities (registry w0)).
  split_and!.
  - apply NoDup_app. split_and!; [done| |apply NoDup_singleton].
    intros x Hx ->%list_elem_of_singleton. done.
  - intros key a Ha. by rewrite lookup_empty in Ha.
  - assert (Hlen : length (registry w0) = length (identities (registry w0)))
      by (unfold identities; by rewrite length_fmap).
    rewrite Hlen. by apply list_lookup_middle.
  - apply lookup_empty.
Qed.

Lemma publish_results_linked (st : State') :
  linked st -> linked (snd (service.publish_results st)).
Proof.
  intros Hl. unfold service.publish_results.
  cbv beta iota delta [bind self gets world]. cbn [fst snd].
  set (r := Gauge_labels_set _ _ _ _).
  assert (Hl' : linked (fst st, snd r)).
  { apply (linked_ext st); [done..| |done]. subst r. apply labels_set_identities. }
  destruct (fst r) as [e|[]]; cbn [fst snd]; [done|].
  by apply for_each_publish_linked.
Qed.

Lemma iterate_linked (st : State') (new_rows : pandas.DataFrame Scalar) :
  linked st -> linked (snd (service.iterate new_rows st)).
Proof.
  destruct st as [s w]. intros Hl.
  destruct (iterate_paths s new_rows) as [H|[H|H]].
  - rewrite iterate_warmup by done. by apply (linked_ext (s, w)).
  - rewrite iterate_trim by done. unfold bind, monitoring_execute. cbn [fst snd].
    destruct (execute _ _ _ _) as [e|m]; cbn [fst snd].
    + by apply (linked_ext (s, w)).
    + apply publish_results_linked. by apply (linked_ext (s, w)).
  - rewrite iterate_negative by done. by apply (linked_ext (s, w)).
Qed.

Lemma calls_iterate_linked (st : State') (batches : list (pandas.DataFrame Scalar)) :
  linked st -> linked (calls service.iterate batches st).
Proof.
  intros Hl. induction batches as [|b bs IH] using rev_ind; [done|].
  rewrite calls_snoc. by apply iterate_linked.
Qed.

(** ** Reading published values back *)

(** The keys of labels that fit a gauge are the gauge's label names. *)
Lemma fits_keys (g : Gauge) (l : gmap string string) (k : string) :
  fits g (Some l) -> (is_Some (l !! k) <-> k ∈ prometheus.labelnames g).
Proof.
  intros [_ Hs]. rewrite <- elem_of_dict_keys.
  rewrite <- (sorted_perm (dict_keys l)), Hs, sorted_perm. done.
Qed.

(** Two label dicts that fit a gauge and give the same label values are
    the same dict. *)
Lemma label_values_inj (g : Gauge) (l1 l2 : gmap string string) :
  fits g (Some l1) -> fits g (Some l2) ->
  label_values g l1 = label_values g l2 -> l1 = l2.
Proof.
  intros H1 H2 Hv. apply map_eq. intros k.
  destruct (decide (k ∈ prometheus.labelnames g)) as [Hin|Hnin].
  - destruct (proj2 (fits_keys g l1 k H1) Hin) as [v1 Hv1].
    destruct (proj2 (fits_keys g l2 k H2) Hin) as [v2 Hv2].
    rewrite Hv1, Hv2. f_equal.
    unfold label_values in Hv.
    apply list_elem_of_lookup in Hin as [i Hi].
    apply (f_equal (fun l => l !! i)) in Hv.
    rewrite !list_lookup_fmap, Hi in Hv. cbn in Hv.
    rewrite Hv1, Hv2 in Hv. cbn in Hv. congruence.
  - destruct (l1 !! k) as [v1|] eqn:Hv1.
    { exfalso. apply Hnin, (fits_keys g l1 k H1). eauto. }
    destruct (l2 !! k) as [v2|] eqn:Hv2; [|done].
    exfalso. apply Hnin, (fits_keys g l2 k H2). eauto.
Qed.

(** A write that fits shows its value. *)
Lemma reading_published (g : Gauge) (value : Value) (labels : option (gmap string string)) :
  reading (published g value labels) labels = Some value /\
  identity (published g value labels) = identity g.
Proof.
  destruct labels as [l|]; cbn; [|done].
  unfold label_values, prometheus.set_child. cbn. split; [|done].
  apply lookup_insert_eq.
Qed.

(** A write with other labels leaves the reading alone. *)
Lemma reading_published_other (g : Gauge) (value : Value)
    (labels labels' : option (gmap string string)) :
  fits g labels -> fits g labels' -> labels' <> labels ->
  reading (published g value labels') labels = reading g labels.
Proof.
  intros Hf Hf' Hne.
  destruct labels as [l|], labels' as [l'|]; cbn in *.
  - unfold label_values at 1 2. cbn. fold (label_values g l) (label_values g l').
    rewrite lookup_insert_ne; [done|].
    intros Heq. apply Hne. f_equal. by apply (label_values_inj g).
  - by destruct Hf.
  - by destruct Hf'.
  - done.
Qed.

Lemma fits_identity (g g' : Gauge) (labels : option (gmap string string)) :
  identity g' = identity g -> fits g labels -> fits g' labels.
Proof. unfold identity, fits. intros [= _ ->]. done. Qed.


Lemma publish_readable (metric_name : string) (value : Value)
    (labels : option (gmap string string)) (st st' : State') :
  linked st ->
  service.publish (metric_name, value, labels) st = (inr tt, st') ->
  readable st' metric_name labels value.
Proof.
  destruct st as [s w]. intros Hl Hp. rewrite publish_unfold in Hp.
  unfold readable, gauge_of.
  destruct (self_metrics s !! ("evidently:" +:+ metric_name)) as [a|] eqn:Hd.
  - destruct Hl as (_ & Hdict & _). destruct (Hdict _ _ Hd) as [ln Hln].
    apply identities_lookup in Hln as (g & Hg & _). cbn [fst snd] in *.
    destruct (write_fits a g value labels w Hg) as [Hyes Hno]. cbv zeta in *.
    destruct (fits_cases g labels) as [Hf|Hf].
    + rewrite (Hyes Hf) in Hp. simplify_eq. cbn [fst snd with_gauge registry].
      rewrite Hd. exists (published g value labels).
      destruct (reading_published g value labels) as [Hr Hid].
      split_and!; [|by apply (fits_identity g)|done].
      apply list_lookup_insert_eq. by eapply lookup_lt_Some.
    + destruct (Hno Hf) as [msg Hm]. rewrite Hm in Hp. done.
  - destruct (Gauge_new_cases ("evidently:" +:+ metric_name) (label_keys labels) w)
      as [Hnew|[e He]]; [|by rewrite He in Hp].
    rewrite Gauge_new_fresh in Hp by done. cbv zeta in Hp.
    set (g := fresh_gauge ("evidently:" +:+ metric_name) (label_keys labels)) in *.
    set (w1 := mkWorld _ _ _) in *.
    assert (Hg : registry w1 !! length (registry w) = Some g).
    { subst w1. cbn [registry]. by apply list_lookup_middle. }
    destruct (write_fits _ g value labels w1 Hg) as [Hyes Hno]. cbv zeta in *.
    destruct (fits_cases g labels) as [Hf|Hf].
    + rewrite (Hyes Hf) in Hp. cbn [fst snd] in Hp. simplify_eq.
      cbn [fst snd with_gauge registry self_metrics with_metrics].
      rewrite lookup_insert_eq. exists (published g value labels).
      destruct (reading_published g value labels) as [Hr Hid].
      split_and!; [|by apply (fits_identity g)|done].
      apply list_lookup_insert_eq. by eapply lookup_lt_Some.
    + destruct (Hno Hf) as [msg Hm]. rewrite Hm in Hp. done.
Qed.

(** A later publish with another name or other labels, if it goes
    through, leaves the metric readable with its value. *)
Lemma publish_keeps_readable (metric_name metric_name' : string) (value value' : Value)
    (labels labels' : option (gmap string string)) (st st' : State') :
  linked st ->
  readable st metric_name labels value ->
  (metric_name', labels') <> (metric_name, labels) ->
  service.publish (metric_name', value', labels') st = (inr tt, st') ->
  readable st' metric_name labels value.
Proof.
  destruct st as [s w]. intros Hl (g & Hg & Hfit & Hread) Hne Hp.
  unfold readable, gauge_of in *. cbn [fst snd] in *.
  destruct (self_metrics s !! ("evidently:" +:+ metric_name)) as [a|] eqn:Hd; [|done].
  destruct (decide (metric_name' = metric_name)) as [->|Hn].
  - assert (Hl' : labels' <> labels) by congruence.
    rewrite publish_unfold, Hd in Hp. cbv zeta in Hp.
    destruct (write_fits a g value' labels' w Hg) as [Hyes Hno]. cbv zeta in *.
    destruct (fits_cases g labels') as [Hf|Hf].
    + rewrite (Hyes Hf) in Hp. simplify_eq. cbn [fst snd with_gauge registry].
      rewrite Hd. exists (published g value' labels').
      destruct (reading_published g value' labels') as [_ Hid].
      split_and!; [|by apply (fits_identity g)|].
      * apply list_lookup_insert_eq. by eapply lookup_lt_Some.
      * by rewrite reading_published_other.
    + destruct (Hno Hf) as [msg Hm]. rewrite Hm in Hp. done.
  - destruct (publish_grows (metric_name', value', labels') (s, w)) as [Hsub _].
    pose proof (publish_frame metric_name' value' labels' s w a g) as Hfr.
    rewrite Hp in Hsub, Hfr. cbn [fst snd] in *.
    rewrite (lookup_weaken _ _ _ _ Hd Hsub). exists g. split_and!; [|done..].
    apply Hfr; [|done]. intros a' Ha'.
    apply (linked_addresses (s, w) ("evidently:" +:+ metric_name')
             ("evidently:" +:+ metric_name) a' a Hl Ha' Hd).
    intros Heq. apply Hn. by simplify_eq.
Qed.

Lemma for_each_keeps_readable (ms : list Triple) (metric_name : string) (value : Value)
    (labels : option (gmap string string)) (st st' : State') :
  linked st ->
  readable st metric_name labels value ->
  Forall (fun m' => (m'.1.1, m'.2) <> (metric_name, labels)) ms ->
  for_each ms service.publish st = (inr tt, st') ->
  readable st' metric_name labels value.
Proof.
  revert st. induction ms as [|m ms IH]; intros st Hl Hr Hall Hp.
  - cbn [for_each] in Hp. unfold ret in Hp. by simplify_eq.
  - apply Forall_cons in Hall as [Hm Hall]. cbn [for_each] in Hp. unfold bind in Hp.
    pose proof (publish_linked m st Hl) as Hl1.
    destruct (service.publish m st) as [[e|[]] st1] eqn:Hp1; [done|].
    destruct m as [[n' v'] l']. cbn [fst snd] in *.
    apply (IH st1); [done| |done|done].
    exact (publish_keeps_readable metric_name n' value v' labels l' st st1 Hl Hr Hm Hp1).
Qed.

Lemma for_each_app_inr {S A : Type} (xs ys : list A) (body : A -> M S unit) (st st' : S) :
  for_each (xs ++ ys) body st = (inr tt, st') ->
  exists st1, for_each xs body st = (inr tt, st1) /\ for_each ys body st1 = (inr tt, st').
Proof.
  revert st. induction xs as [|x xs IH]; intros st Hp.
  - exists st. done.
  - cbn [app for_each] in *. unfold bind in *.
    destruct (body x st) as [[e|[]] st0]; [done|]. by apply IH.
Qed.


(** X9.  What an evaluation publishes can be read back.  In a linked
    state ([init_linked], [iterate_linked]), when an evaluating call
    returns, every result the engine yielded is readable from the gauge
    the dict holds for its name: the gauge shows, under the result's
    labels, the value of the last result with that name and those
    labels. *)
Theorem X9_published_values_are_readable (s : MonitoringService Scalar Value) (w : World')
    (new_rows : pandas.DataFrame Scalar) (st' : State')
    (pre post : list Triple) (metric_name : string) (value : Value)
    (labels : option (gmap string string)) :
  linked (s, w) ->
  0 <= window_size (self_options s) <= size_after s new_rows ->
  service.iterate new_rows (s, w) = (inr tt, st') ->
  metrics (self_monitoring (fst st')) = pre ++ (metric_name, value, labels) :: post ->
  Forall (fun m' => (m'.1.1, m'.2) <> (metric_name, labels)) post ->
  exists g, gauge_of st' metric_name = Some g /\ fits g labels /\
            reading g labels = Some value.
Proof.
  intros Hl Hws Hit Hms Hpost. rewrite iterate_trim in Hit by done.
  unfold bind at 1, monitoring_execute in Hit. cbn [fst snd] in Hit.
  destruct (execute _ _ _ _) as [e|m]; [done|].
  unfold set_monitoring, modify in Hit. cbn [fst snd] in Hit.
  set (s1 := with_monitoring _ m) in *. set (w1 := mkWorld _ _ _) in *.
  assert (Hl1 : linked (s1, w1)) by (by apply (linked_ext (s, w))).
  unfold service.publish_results in Hit.
  cbv beta iota delta [bind self gets world] in Hit. cbn [fst snd] in Hit.
  set (r := Gauge_labels_set _ _ _ _) in *.
  assert (Hl2 : linked (s1, snd r)).
  { apply (linked_ext (s1, w1)); [done..| |done]. subst r. apply labels_set_identities. }
  destruct (fst r) as [e|[]]; [done|].
  assert (Hm : self_monitoring (fst st') = m).
  { pose proof (for_each_publish_core (metrics (self_monitoring s1)) (s1, snd r)) as Hc.
    rewrite Hit in Hc. unfold core in Hc. cbn [fst snd] in Hc. by simplify_eq. }
  rewrite Hm in Hms. change (self_monitoring s1) with m in Hit. rewrite Hms in Hit.
  apply for_each_app_inr in Hit as (sta & Hpre & Hrest).
  pose proof (for_each_publish_linked pre (s1, snd r) Hl2) as Hla.
  rewrite Hpre in Hla. cbn [snd] in Hla.
  cbn [for_each] in Hrest. unfold bind in Hrest.
  destruct (service.publish (metric_name, value, labels) sta) as [[e|[]] stb] eqn:Hp;
    [done|].
  pose proof (publish_linked (metric_name, value, labels) sta Hla) as Hlb.
  rewrite Hp in Hlb. cbn [snd] in Hlb.
  apply (for_each_keeps_readable post metric_name value labels stb st'); [done| |done..].
  by apply (publish_readable metric_name value labels sta).
Qed.

End Linked.

Section UnusedOptions.
Context {Scalar Value : Type} `{E : Engine Scalar Value}.
Local Abbreviation DataFrame := (pandas.DataFrame Scalar).
Local Abbreviation Service := (MonitoringService Scalar Value).
Local Abbreviation World' := (World Scalar Value).
Local Abbreviation Triple := (string * Value * option (gmap string string))%type.

Lemma publish_reoptioned (m : Triple) (s : Service) (w : World')
    (o : MonitoringServiceOptions) :
  service.publish m (with_options s o, w) = reoptioned o (service.publish m (s, w)).
Proof.
  destruct m as [[metric_name value] labels]. rewrite !publish_unfold.
  unfold reoptioned. cbn [self_metrics with_options].
  destruct (self_metrics s !! _) as [a|]; cbv zeta; cbn [fst snd]; [done|].
  by destruct (Gauge_new _ _ w) as [[e|a] w1].
Qed.

Lemma for_each_publish_reoptioned (ms : list Triple) (s : Service) (w : World')
    (o : MonitoringServiceOptions) :
  for_each ms service.publish (with_options s o, w) =
  reoptioned o (for_each ms service.publish (s, w)).
Proof.
  revert s w. induction ms as [|m ms IH]; intros s w; [done|].
  cbn [for_each]. unfold bind. rewrite publish_reoptioned. unfold reoptioned at 1.
  destruct (service.publish m (s, w)) as [[e|[]] [s1 w1]]; cbn [fst snd]; [done|].
  apply IH.
Qed.

Lemma publish_results_reoptioned (s : Service) (w : World')
    (o : MonitoringServiceOptions) :
  service.publish_results (with_options s o, w) =
  reoptioned o (service.publish_results (s, w)).
Proof.
  unfold service.publish_results.
  cbv beta iota delta [bind self gets world]. cbn [fst snd].
  cbn [self_hash_metric self_hash self_monitoring with_options].
  destruct (Gauge_labels_set _ _ _ w) as [[e|[]] w1]; cbn [fst snd]; [done|].
  apply for_each_publish_reoptioned.
Qed.

(** X10.  Options that are never read.  [iterate] reads one option, the
    window size.  On two service objects that differ in their options
    only, and not in the window size, a call does the same thing: same
    outcome, same world, same object apart from the options.  So
    [calculation_period_sec], [min_reference_size], [moving_reference],
    [reference_path], [use_reference] and [monitors] do not change what a
    call does: in particular no call is skipped to wait for a period. *)
Theorem X10_iterate_reads_window_size_only (s : Service) (w : World')
    (new_rows : DataFrame) (o : MonitoringServiceOptions) :
  window_size o = window_size (self_options s) ->
  service.iterate new_rows (with_options s o, w) =
  reoptioned o (service.iterate new_rows (s, w)).
Proof.
  intros Hws.
  assert (Hsz : size_after (with_options s o) new_rows = size_after s new_rows)
    by reflexivity.
  destruct (iterate_paths s new_rows) as [H|[H|H]].
  - rewrite (iterate_warmup s) by done.
    rewrite (iterate_warmup (with_options s o))
      by (cbn [self_options with_options]; rewrite Hws, Hsz; done).
    unfold reoptioned. cbn [fst snd self_options with_options]. by rewrite Hws.
  - rewrite (iterate_trim s) by done.
    rewrite (iterate_trim (with_options s o))
      by (cbn [self_options with_options]; rewrite Hws, Hsz; done).
    assert (Htrim : after_trim (with_options s o) new_rows =
                    with_options (after_trim s new_rows) o).
    { unfold after_trim, after_append, with_options, with_current, with_new_rows.
      cbn. by rewrite Hws. }
    rewrite Htrim. unfold bind, monitoring_execute. cbn [fst snd].
    cbn [self_monitoring self_reference self_current self_column_mapping with_options].
    destruct (execute _ _ _ _) as [e|m]; cbn [fst snd]; [done|].
    unfold set_monitoring, modify. cbn [fst snd].
    match goal with |- service.publish_results (?s1, ?w1) = _ =>
      change s1 with (with_options (with_monitoring (after_trim s new_rows) m) o) end.
    apply publish_results_reoptioned.
  - rewrite (iterate_negative s) by done.
    rewrite (iterate_negative (with_options s o))
      by (cbn [self_options with_options]; rewrite Hws; done).
    done.
Qed.

End UnusedOptions.

Section RebuildWindow.
Context {Scalar : Type}.
Local Abbreviation DataFrame := (pandas.DataFrame Scalar).

(** The window a call of [Monitor.iterate] leaves. *)
Lemma rebuild_iterate_current (st : rebuild.MState Scalar) (new_rows : DataFrame) :
  0 <= rebuild.config_window_size (fst st) ->
  let cur' := rebuild.current_data (fst (snd (rebuild.iterate new_rows st))) in
  let appended := pandas.append (rebuild.current_data (fst st)) new_rows in
  pandas.columns cur' = pandas.columns appended /\
  pandas.values cur' =
    skipn (Z.to_nat (pandas.shape0 appended - rebuild.config_window_size (fst st)))
          (pandas.values appended).
Proof.
  destruct st as [m out]. cbn [fst]. intros Hws.
  cbv beta iota zeta delta [rebuild.iterate bind gets rebuild.set_current_data
    rebuild.print modify lift ret].
  cbn [fst snd rebuild.current_data rebuild.config_window_size].
  case_bool_decide as Hlt.
  - cbn [fst snd rebuild.current_data].
    replace (Z.to_nat _) with 0%nat by lia. done.
  - rewrite drop_oldest by (done || apply append_range_indexed).
    cbn [fst snd rebuild.current_data]. rewrite reset_index_skipn.
    unfold pandas.values at 1. cbn [pandas.columns pandas.rows].
    by rewrite RangeIndex_values.
Qed.

(** X12.  The rebuilt monitor keeps the latest rows.  From construction,
    for a window size that is not negative, after any sequence of calls
    of [Monitor.iterate] whose batches have the columns of the reference
    data, the window holds the last [window_size] rows of everything
    received, in the order of arrival (all of it while there are fewer);
    the reference rows are not part of it. *)
Theorem X12_monitor_window_is_latest_rows (client_id : string) (reference : DataFrame)
    (ws : Z) (out : list string) (batches : list DataFrame) :
  0 <= ws ->
  NoDup (pandas.columns reference) ->
  Forall (fun b => pandas.columns b = pandas.columns reference /\
                   pandas.well_formed b) batches ->
  let received := concat (pandas.values <$> batches) in
  let window := rebuild.current_data
                  (fst (calls rebuild.iterate batches
                          (rebuild.__init__ client_id reference ws, out))) in
  pandas.columns window = pandas.columns reference /\
  pandas.values window = skipn (length received - Z.to_nat ws) received.
Proof.
  intros Hws Hnd Hall. cbv zeta.
  enough (Hgoal :
    let window := rebuild.current_data
                    (fst (calls rebuild.iterate batches
                            (rebuild.__init__ client_id reference ws, out))) in
    pandas.columns window = pandas.columns reference /\
    pandas.well_formed window /\
    pandas.values window =
      skipn (length (concat (pandas.values <$> batches)) - Z.to_nat ws)
            (concat (pandas.values <$> batches))).
  { destruct Hgoal as (? & _ & ?). done. }
  cbv zeta. induction batches as [|b bs IH] using rev_ind.
  - cbn. split_and!; [done| |done]. split; [done|]. by cbn.
  - apply Forall_app in Hall as [Hbs Hb]. apply Forall_singleton in Hb as [Hcb Hwb].
    destruct (IH Hbs) as (Hc & Hwf' & Hv). clear IH.
    rewrite calls_snoc.
    pose proof (rebuild_calls_window_size
                  (rebuild.__init__ client_id reference ws, out) bs) as Ho.
    cbn [fst rebuild.__init__ rebuild.config_window_size] in Ho.
    destruct (calls rebuild.iterate bs _) as [m1 out1] eqn:Hst. cbn [fst] in *.
    destruct (rebuild_iterate_current (m1, out1) b) as (Hc1 & Hv1);
      [cbn [fst]; by rewrite Ho|]. cbn [fst] in Hc1, Hv1.
    destruct (append_values_same_schema (rebuild.current_data m1) b) as (Hca & Hva);
      [congruence|done..|].
    rewrite Hca in Hc1. rewrite append_shape0, Hva, Hv, Ho in Hv1.
    split_and!.
    + congruence.
    + destruct Hwf' as [Hnd' Hlen], Hwb as [_ Hlenb].
      split; [by rewrite Hc1|]. rewrite Hc1, Hv1.
      apply Forall_drop, Forall_app. split; [by rewrite <- Hv|].
      by rewrite Hc, <- Hcb.
    + rewrite Hv1. rewrite fmap_app, concat_app. cbn [fmap list_fmap concat].
      rewrite app_nil_r.
      set (A := concat (pandas.values <$> bs)) in *.
      rewrite skipn_skipn_app by lia. f_equal.
      unfold pandas.shape0.
      assert (length (pandas.rows (rebuild.current_data m1)) =
              length (skipn (length A - Z.to_nat ws) A)) as ->.
      { rewrite <- Hv. unfold pandas.values. by rewrite length_map. }
      assert (length (pandas.rows b) = length (pandas.values b)) as ->.
      { unfold pandas.values. by rewrite length_map. }
      rewrite length_skipn, length_app. lia.
Qed.

End RebuildWindow.

Section UtilsFacts.
Context {Scalar : Type}.
Local Abbreviation DataFrame := (pandas.DataFrame Scalar).
Local Abbreviation Files := (utils.Files Scalar).
Local Abbreviation UMonitor := (utils.Monitor Scalar).

Lemma prefix_spec (p s : string) :
  String.prefix p s = true <-> exists more, s = p +:+ more.
Proof.
  revert s. induction p as [|c p IH]; intros s.
  - split; [intros _; by exists s|intros _; by destruct s].
  - destruct s as [|c' s]; simpl.
    + split; [done|intros [more Hm]; done].
    + destruct (Ascii.ascii_dec c c') as [->|Hne].
      * rewrite IH. split; intros [more Hm]; exists more.
        -- change (String c' p +:+ more) with (String c' (p +:+ more)). by rewrite Hm.
        -- change (String c' p +:+ more) with (String c' (p +:+ more)) in Hm.
           by simplify_eq.
      * split; [done|]. intros [more Hm].
        change (String c p +:+ more) with (String c (p +:+ more)) in Hm. by simplify_eq.
Qed.

(** [sub in s] holds exactly when [s] mentions [sub]. *)
Lemma contains_spec (sub s : string) :
  utils.contains sub s = true <-> mentions sub s.
Proof.
  unfold mentions. induction s as [|c s IH]; cbn [utils.contains].
  - rewrite orb_false_r, prefix_spec. split.
    + intros [more Hm]. by exists "", more.
    + intros (before & after & Hm). destruct before; [by exists after|done].
  - rewrite orb_true_iff, prefix_spec, IH. split.
    + intros [[more Hm]|(before & after & Hm)].
      * by exists "", more.
      * exists (String c before), after.
        change (String c before +:+ sub +:+ after)
          with (String c (before +:+ sub +:+ after)). by rewrite Hm.
    + intros (before & after & Hm). destruct before as [|c' before].
      * left. by exists after.
      * right. exists before, after.
        change (String c' before +:+ sub +:+ after)
          with (String c' (before +:+ sub +:+ after)) in Hm. by simplify_eq.
Qed.

Lemma filter_none {A : Type} (f : A -> bool) (l : list A) :
  Forall (fun x => f x = false) l -> List.filter f l = [].
Proof.
  induction 1 as [|x l Hx _ IH]; [done|]. cbn [List.filter]. by rewrite Hx.
Qed.


(** X14.  Which reference file a monitor reads.  Without reference data,
    [Monitor.__init__] reads the last file of the listing of [DATA_DIR]
    whose name mentions [reference_<client_id>], wherever in the name and
    whatever follows it there, so the file of client 10 serves client 1
    when it is listed later; what [read_csv] raises is raised, and
    otherwise the monitor holds the frame read and an empty window with
    its columns.  When no name of the listing mentions the text, or the
    directory is missing, the call raises [IndexError] and prints
    nothing. *)
Theorem X14_reference_file_is_last_match (cid : string) (fs : Files) (out : list string) :
  let text := "reference_" +:+ cid in
  let made := utils.__init__ cid None fs out in
  (forall earlier f later,
     utils.data_files fs = earlier ++ f :: later ->
     mentions text f ->
     Forall (fun g => ~ mentions text g) later ->
     match utils.read_csv fs ("data/" +:+ f) with
     | inl e => made = (inl e, out)
     | inr df =>
       exists m, fst made = inr m /\ utils.client_id m = cid /\
                 utils.reference_data m = df /\
                 utils.current_data m =
                   {| pandas.columns := pandas.columns df; pandas.rows := [] |}
     end) /\
  (Forall (fun g => ~ mentions text g) (utils.data_files fs) ->
   made = (inl (utils.IndexError "pop from empty list"), out)).
Proof.
  intros text made. subst made. unfold utils.__init__.
  assert (Hnot : forall l, Forall (fun g => ~ mentions text g) l ->
                           List.filter (utils.contains text) l = []).
  { intros l Hl. apply filter_none. eapply Forall_impl; [exact Hl|].
    intros g Hg. cbn beta in Hg. rewrite <- contains_spec in Hg.
    by destruct (utils.contains text g). }
  split.
  - intros earlier f later -> Hf Hlater.
    assert (Hlast : last (List.filter (utils.contains ("reference_" +:+ cid))
                            (earlier ++ f :: later)) = Some f).
    { fold text. rewrite List.filter_app. cbn [List.filter].
      apply contains_spec in Hf. rewrite Hf, (Hnot later Hlater).
      apply last_snoc. }
    rewrite Hlast.
    change (utils.DATA_DIR +:+ f) with ("data/" +:+ f).
    destruct (utils.read_csv fs _) as [e|df]; [done|].
    destruct (utils.documents fs !! _); eauto 10.
  - intros Hnone. fold text. by rewrite (Hnot _ Hnone).
Qed.


End UtilsFacts.

Section FixedParts.
Context {Scalar Value : Type} `{E : Engine Scalar Value}.
Local Abbreviation DataFrame := (pandas.DataFrame Scalar).
Local Abbreviation Service := (MonitoringService Scalar Value).
Local Abbreviation World' := (World Scalar Value).

Lemma iterate_hash (st : State Scalar Value) (new_rows : DataFrame) :
  self_hash (fst (snd (service.iterate new_rows st))) = self_hash (fst st) /\
  self_hash_metric (fst (snd (service.iterate new_rows st))) = self_hash_metric (fst st).
Proof.
  destruct st as [s w]. cbn [fst].
  destruct (iterate_paths s new_rows) as [H|[H|H]].
  - by rewrite iterate_warmup.
  - rewrite iterate_trim by done. unfold bind, monitoring_execute. cbn [fst snd].
    destruct (execute _ _ _ _) as [e|m]; cbn [fst snd]; [done|].
    unfold set_monitoring, modify. cbn [fst snd].
    match goal with |- context [service.publish_results ?st] =>
      pose proof (publish_results_core st) as Hc end.
    unfold core in Hc. cbn [fst snd] in Hc. by simplify_eq.
  - by rewrite iterate_negative.
Qed.

Lemma calls_hash (st : State Scalar Value) (batches : list DataFrame) :
  self_hash (fst (calls service.iterate batches st)) = self_hash (fst st) /\
  self_hash_metric (fst (calls service.iterate batches st)) = self_hash_metric (fst st).
Proof.
  induction batches as [|b bs [IH1 IH2]] using rev_ind; [done|].
  rewrite calls_snoc.
  destruct (iterate_hash (calls service.iterate bs st) b) as [H1 H2].
  split; congruence.
Qed.

(** X16.  What construction fixes stays fixed.  From construction, after
    any sequence of calls, whatever they raised: the reference is the one
    [__init__] sliced off, the hash is its fingerprint, and the options,
    the column mapping and the hash gauge are those of construction.  No
    call replaces the reference, whatever [moving_reference] says. *)
Theorem X16_reference_is_never_replaced (reference : DataFrame)
    (options : MonitoringServiceOptions) (cm : ColumnMapping) (w0 w1 : World')
    (s0 : Service) (batches : list DataFrame) :
  service.__init__ reference options cm w0 = (inr s0, w1) ->
  let s := fst (calls service.iterate batches (s0, w1)) in
  self_reference s = self_reference s0 /\
  self_hash s = fingerprint (self_reference s) /\
  self_hash_metric s = self_hash_metric s0 /\
  self_options s = options /\
  self_column_mapping s = cm.
Proof.
  intros Hinit s. subst s.
  apply init_options in Hinit as (Ho & _ & _ & Hm & Hh & _).
  destruct (calls_hash (s0, w1) batches) as [H1 H2].
  rewrite calls_reference, calls_options, calls_column_mapping, H1, H2.
  cbn [fst]. split_and!; done.
Qed.

End FixedParts.

(** ** The further properties at work *)

Lemma numbered_well_formed (from n : Z) : pandas.well_formed (Examples.numbered from n).
Proof.
  split.
  - apply NoDup_singleton.
  - unfold Examples.numbered, pandas.values at 1. cbn [pandas.rows pandas.columns].
    rewrite RangeIndex_values. apply Forall_fmap, Forall_true. done.
Qed.

Lemma example_init :
  service.__init__ (E := Examples.counting_engine) Examples.history
    (Examples.options true 3) tt Examples.empty_world =
  (inr Examples.fresh_service, Examples.fresh_world).
Proof. vm_compute. reflexivity. Qed.

Lemma example_monitors_known (use_ref : bool) (ws : Z) :
  Forall known_monitor (monitors (Examples.options use_ref ws)).
Proof.
  cbn. repeat (apply Forall_cons; split); [| | |constructor];
    unfold known_monitor; tauto.
Qed.

(** X1 at work: ten historical rows seed a window of three; after batches
    of one and of five rows the window holds the last three rows
    received. *)
Lemma X1_window_is_latest_rows_witness :
  let batches := [Examples.numbered 20 1; Examples.numbered 30 5] in
  let window := self_current (fst (calls (service.iterate (E := Examples.counting_engine))
                                     batches (Examples.fresh_service, Examples.fresh_world))) in
  0 < window_size (Examples.options true 3) /\
  pandas.well_formed Examples.history /\
  Forall (fun b => pandas.columns b = pandas.columns Examples.history /\
                   pandas.well_formed b) batches /\
  pandas.values window = [[Some 32]; [Some 33]; [Some 34]].
Proof.
  intros batches window.
  assert (Hws : 0 < window_size (Examples.options true 3)) by (simpl; lia).
  assert (Hwf : pandas.well_formed Examples.history) by apply numbered_well_formed.
  assert (Hall : Forall (fun b => pandas.columns b = pandas.columns Examples.history /\
                                  pandas.well_formed b) batches).
  { subst batches.
    repeat (apply Forall_cons; split; [split; [reflexivity|apply numbered_well_formed]|]).
    constructor. }
  assert (Hcols : use_reference (Examples.options true 3) = false ->
                  pandas.columns Examples.history <> []) by (intros _; discriminate).
  split; [exact Hws|]. split; [exact Hwf|]. split; [exact Hall|].
  destruct (X1_window_is_latest_rows (E := Examples.counting_engine) Examples.history
              (Examples.options true 3) tt Examples.empty_world Examples.fresh_world
              Examples.fresh_service batches example_init Hws Hwf
              Hcols Hall) as [_ Hv].
  etransitivity; [exact Hv|]. vm_compute. reflexivity.
Defined.

(** X2 at work: a window of two rows, window size three, batches of two
    rows and of one row: both calls invoke the engine. *)
Lemma X2_engine_invocations_witness :
  let st0 := Examples.service_with (E := Examples.counting_engine) [] tt 3
               (Examples.numbered 0 2) 0 in
  let batches := [Examples.numbered 10 2; Examples.numbered 20 1] in
  let st := calls (service.iterate (E := Examples.counting_engine)) batches st0 in
  0 <= window_size (self_options (fst st0)) /\
  exists invocations,
    executed (snd st) = executed (snd st0) ++ invocations /\
    (length invocations <= length batches)%nat.
Proof.
  intros st0 batches st.
  assert (Hws : 0 <= window_size (self_options (fst st0))) by (simpl; lia).
  split; [exact Hws|].
  destruct (X2_engine_invocations (E := Examples.counting_engine) (fst st0) (snd st0)
              batches Hws) as (inv & Hx & _ & Hle & _).
  exists inv. split; [exact Hx|exact Hle].
Defined.

(** X3 at work: ten rows, window size three: seven reference rows and
    three window rows, together the dataset. *)
Lemma X3_seeding_partitions_dataset_witness :
  use_reference (Examples.options true 3) = true /\
  pandas.rows (self_reference Examples.fresh_service) ++
    pandas.rows (self_current Examples.fresh_service) = pandas.rows Examples.history /\
  pandas.shape0 (self_current Examples.fresh_service) = 3.
Proof.
  split; [reflexivity|].
  destruct (X3_seeding_partitions_dataset (E := Examples.counting_engine) Examples.history
              (Examples.options true 3) tt Examples.empty_world Examples.fresh_world
              Examples.fresh_service example_init eq_refl) as (Hp & Hpos & _).
  split; [exact Hp|]. etransitivity; [apply Hpos; simpl; lia|]. reflexivity.
Defined.

(** X4 at work: window size -1. *)
Lemma X4_negative_window_size_raises_witness :
  let st0 := Examples.service_with (E := Examples.counting_engine) [] tt (-1)
               (Examples.numbered 0 2) 0 in
  let batches := [Examples.numbered 10 2; Examples.numbered 20 1] in
  let st := calls (service.iterate (E := Examples.counting_engine)) batches st0 in
  window_size (self_options (fst st0)) < 0 /\
  pandas.shape0 (self_current (fst st)) = 5 /\
  fst (service.iterate (E := Examples.counting_engine) (Examples.numbered 30 4) st) =
    inl (KeyError "labels not found in axis").
Proof.
  intros st0 batches st.
  assert (Hneg : window_size (self_options (fst st0)) < 0) by (simpl; lia).
  split; [exact Hneg|].
  destruct (X4_negative_window_size_raises (E := Examples.counting_engine) (fst st0) (snd st0)
              batches (Examples.numbered 30 4) Hneg) as (_ & Hsz & _ & Hr & _).
  split; [|exact Hr]. etransitivity; [exact Hsz|]. vm_compute. reflexivity.
Defined.

(** X5 at work: the options of the examples in an empty registry. *)
Lemma X5_init_outcome_witness :
  exists s0,
    service.__init__ (E := Examples.counting_engine) Examples.history
      (Examples.options true 3) tt Examples.empty_world =
    (inr s0, Examples.fresh_world) /\
    self_hash_metric s0 = 0%nat.
Proof.
  destruct (X5_init_outcome (E := Examples.counting_engine) Examples.history
              (Examples.options true 3) tt Examples.empty_world) as (Hyes & _).
  destruct Hyes as (s0 & Hr & Ha).
  - apply example_monitors_known.
  - split_and!; [reflexivity|reflexivity|]. cbn. apply not_elem_of_nil.
  - exists s0. split; [exact Hr|exact Ha].
Defined.

(** X6 at work: a second construction after two calls. *)
Lemma X6_second_construction_is_refused_witness :
  let w := snd (calls (service.iterate (E := Examples.counting_engine))
                  [Examples.numbered 20 1; Examples.numbered 30 5]
                  (Examples.fresh_service, Examples.fresh_world)) in
  Forall known_monitor (monitors (Examples.options false 5)) /\
  service.__init__ (E := Examples.counting_engine) Examples.history
    (Examples.options false 5) tt w =
  (inl (ValueError "Duplicated timeseries in CollectorRegistry"), w).
Proof.
  intros w. split; [apply example_monitors_known|].
  exact (X6_second_construction_is_refused (E := Examples.counting_engine) Examples.history
           (Examples.options true 3) tt Examples.empty_world Examples.fresh_world
           Examples.fresh_service [Examples.numbered 20 1; Examples.numbered 30 5]
           Examples.history (Examples.options false 5) tt example_init
           (example_monitors_known false 5)).
Defined.

Lemma example_linked : linked (E := Examples.counting_engine)
                         (Examples.fresh_service, Examples.fresh_world).
Proof.
  apply (init_linked (E := Examples.counting_engine) Examples.history
           (Examples.options true 3) tt Examples.empty_world); [exact example_init|].
  cbn. apply NoDup_nil_2.
Qed.


(** X8 at work: the first evaluation of the seeded service of the
    examples sets the hash gauge. *)
Lemma X8_evaluation_sets_hash_gauge_witness :
  let s := Examples.fresh_service in
  let w := Examples.fresh_world in
  let st' := snd (service.iterate (E := Examples.counting_engine)
                    (Examples.numbered 20 1) (s, w)) in
  linked (E := Examples.counting_engine) (s, w) /\
  (0 <= window_size (self_options s) <= size_after s (Examples.numbered 20 1)) /\
  exists g, registry (snd st') !! self_hash_metric s = Some g /\
            prometheus.children g !! [self_hash s] = Some 1.
Proof.
  intros s w st'.
  assert (Hws : 0 <= window_size (self_options s) <= size_after s (Examples.numbered 20 1))
    by (vm_compute; split; discriminate).
  split; [exact example_linked|]. split; [exact Hws|].
  destruct (X8_evaluation_sets_hash_gauge (E := Examples.counting_engine) s w
              (Examples.numbered 20 1)
              [("data_drift:n_rows", 3, None);
               ("data_drift:p_value", 1, Some {[ "feature" := "x" ]})]
              example_linked Hws eq_refl) as (g & Hg & _ & Hc).
  exists g. split; [exact Hg|exact Hc].
Defined.

(** X9 at work: after that evaluation the row count, 3, is read from its
    gauge. *)
Lemma X9_published_values_are_readable_witness :
  let s := Examples.fresh_service in
  let w := Examples.fresh_world in
  let r := service.iterate (E := Examples.counting_engine) (Examples.numbered 20 1) (s, w) in
  linked (E := Examples.counting_engine) (s, w) /\
  (0 <= window_size (self_options s) <= size_after s (Examples.numbered 20 1)) /\
  fst r = inr tt /\
  exists g, gauge_of (snd r) "data_drift:n_rows" = Some g /\
            reading g None = Some 3.
Proof.
  intros s w r.
  assert (Hws : 0 <= window_size (self_options s) <= size_after s (Examples.numbered 20 1))
    by (vm_compute; split; discriminate).
  assert (Hr : fst r = inr tt) by (vm_compute; reflexivity).
  assert (Hit : service.iterate (E := Examples.counting_engine) (Examples.numbered 20 1)
                  (s, w) = (inr tt, snd r)).
  { fold r. rewrite <- Hr. by destruct r. }
  split; [exact example_linked|]. split; [exact Hws|]. split; [exact Hr|].
  destruct (X9_published_values_are_readable (E := Examples.counting_engine) s w
              (Examples.numbered 20 1) (snd r) []
              [("data_drift:p_value", 1, Some {[ "feature" := "x" ]})]
              "data_drift:n_rows" 3 None example_linked Hws Hit)
    as (g & Hg & _ & Hv).
  - vm_compute. reflexivity.
  - apply Forall_cons. split; [|constructor]. cbn. discriminate.
  - exists g. split; [exact Hg|exact Hv].
Defined.

(** X10 at work: the service of the examples with other options and the
    same window size. *)
Lemma X10_iterate_reads_window_size_only_witness :
  let st := Examples.service_with (E := Examples.counting_engine) [] tt 3
              (Examples.numbered 0 2) 0 in
  let o := mkOptions "elsewhere.csv" 0 true true 3 86400 [] in
  window_size o = window_size (self_options (fst st)) /\
  service.iterate (E := Examples.counting_engine) (Examples.numbered 10 2)
    (with_options (fst st) o, snd st) =
  reoptioned o (service.iterate (E := Examples.counting_engine) (Examples.numbered 10 2)
                  (fst st, snd st)).
Proof.
  intros st o. split; [reflexivity|].
  exact (X10_iterate_reads_window_size_only (E := Examples.counting_engine) (fst st) (snd st)
           (Examples.numbered 10 2) o eq_refl).
Defined.

(** X12 at work, the two calls at the end of the module: forty rows, then
    ten, with a window of thirty: rows 20 .. 49 stay. *)
Lemma X12_monitor_window_is_latest_rows_witness :
  let batches := [Examples.numbered 0 40; Examples.numbered 40 10] in
  let window := rebuild.current_data
                  (fst (calls rebuild.iterate batches
                          (rebuild.__init__ "1" (Examples.numbered 100 5) 30, []))) in
  0 <= 30 /\
  NoDup (pandas.columns (Examples.numbered 100 5)) /\
  Forall (fun b => pandas.columns b = pandas.columns (Examples.numbered 100 5) /\
                   pandas.well_formed b) batches /\
  pandas.values window = (fun z => [Some z]) <$> seqZ 20 30.
Proof.
  intros batches window.
  assert (Hws : 0 <= 30) by lia.
  assert (Hnd : NoDup (pandas.columns (Examples.numbered 100 5)))
    by apply NoDup_singleton.
  assert (Hall : Forall (fun b => pandas.columns b = pandas.columns (Examples.numbered 100 5) /\
                                  pandas.well_formed b) batches).
  { subst batches.
    repeat (apply Forall_cons; split; [split; [reflexivity|apply numbered_well_formed]|]).
    constructor. }
  split; [exact Hws|]. split; [exact Hnd|]. split; [exact Hall|].
  destruct (X12_monitor_window_is_latest_rows "1" (Examples.numbered 100 5) 30 [] batches
              Hws Hnd Hall) as [_ Hv].
  etransitivity; [exact Hv|]. vm_compute. reflexivity.
Defined.

(** X14 at work: the file of client 1 is listed first, the last name that
    mentions [reference_1] is that of an old file of client 10, and the
    monitor of client 1 reads it. *)
Lemma X14_reference_file_is_last_match_witness :
  let fs := utils.mkFiles (Scalar := Z)
              ["reference_1.csv"; "old_reference_10.csv"; "production.csv"]
              (fun path => if decide (path = "data/old_reference_10.csv")
                           then inr (Examples.numbered 0 3)
                           else inr (Examples.numbered 100 5))
              ∅ in
  mentions "reference_1" "old_reference_10.csv" /\
  Forall (fun g => ~ mentions "reference_1" g) ["production.csv"] /\
  exists m, fst (utils.__init__ "1" None fs []) = inr m /\
            utils.reference_data m = Examples.numbered 0 3.
Proof.
  intros fs.
  assert (Hf : mentions "reference_1" "old_reference_10.csv")
    by (by exists "old_", "0.csv").
  assert (Hlater : Forall (fun g => ~ mentions "reference_1" g) ["production.csv"]).
  { apply Forall_cons; split; [|constructor].
    intros H. apply contains_spec in H. vm_compute in H. discriminate. }
  split; [exact Hf|]. split; [exact Hlater|].
  destruct (X14_reference_file_is_last_match "1" fs []) as (Hlast & _).
  specialize (Hlast ["reference_1.csv"] "old_reference_10.csv" ["production.csv"]
                eq_refl Hf Hlater).
  destruct Hlast as (m & Hm & _ & Hr & _). exists m. split; [exact Hm|exact Hr].
Defined.


(** X16 at work: the seeded service of the examples after two calls. *)
Lemma X16_reference_is_never_replaced_witness :
  let s := fst (calls (service.iterate (E := Examples.counting_engine))
                  [Examples.numbered 20 1; Examples.numbered 30 5]
                  (Examples.fresh_service, Examples.fresh_world)) in
  self_reference s = Examples.numbered 0 7 /\ self_hash s = "0,1,2,3,4,5,6".
Proof.
  intros s.
  assert (Hinit : service.__init__ (E := Examples.counting_engine) Examples.history
            (Examples.options true 3) tt Examples.empty_world =
            (inr Examples.fresh_service, Examples.fresh_world))
    by (vm_compute; reflexivity).
  destruct (X16_reference_is_never_replaced (E := Examples.counting_engine) Examples.history
              (Examples.options true 3) tt Examples.empty_world Examples.fresh_world
              Examples.fresh_service [Examples.numbered 20 1; Examples.numbered 30 5]
              Hinit) as (Hr & Hh & _).
  fold s in Hr, Hh. split; [exact Hr|]. rewrite Hh, Hr. reflexivity.
Defined.
